(** * Student clustering pipeline: a shallow embedding of [cluster_analysis.py]

    The script prepares a survey table with pandas, standardises it and
    clusters it with scikit-learn, and profiles the clusters with pandas.
    The embedding follows the script statement by statement.  The pandas
    and scikit-learn operations the script calls are modelled in the
    modules [Pandas] and [Sklearn]; a number read from the CSV file is an
    exact rational ([Q]) or one of the two infinities, and the standardised
    feature space, which needs square roots, lives in the reals ([R]):
    floating-point rounding is outside the model. *)

From Stdlib Require Import String Ascii List Bool Arith ZArith QArith.
From Stdlib Require Import Reals Lia Lra Permutation Sorted OrderedTypeEx.
Import ListNotations.

Set Implicit Arguments.

(** ** Exceptions *)

(** The Python exceptions that can leave the functions of the script. *)
Inductive error : Type :=
| ValueError
| TypeError
| KeyError
| IndexError
| InvalidParameterError.

Inductive result (A : Type) : Type :=
| Ok (a : A)
| Error (e : error).

Arguments Ok {A} a.
Arguments Error {A} e.

Definition bind {A B : Type} (m : result A) (k : A -> result B) : result B :=
  match m with
  | Ok a => k a
  | Error e => Error e
  end.

Notation "x <- m ;; k" := (bind m (fun x => k))
  (at level 61, m at next level, right associativity).

Fixpoint mapM {A B : Type} (f : A -> result B) (l : list A) : result (list B) :=
  match l with
  | [] => Ok []
  | a :: l' => b <- f a ;; bs <- mapM f l' ;; Ok (b :: bs)
  end.

(** ** The pandas operations used by the script *)

Module Pandas.

(** A cell of a column as [read_csv] delivers it: a finite number, an
    infinity, a text, or the missing value. *)
Inductive cell : Type :=
| Num (q : Q)
| Inf (negative : bool)
| Str (s : string)
| NaN.

(** The value of a float that is not missing. *)
Inductive number : Type :=
| Finite (q : Q)
| Infinite (negative : bool).

(** One row of the survey table.  [I] is the type of the identifier column
    (it changes from [cell] to a float column to an integer column) and [O]
    the type of the ordinal column (text before [map], a rank after it). *)
Record row (I O : Type) : Type := mkRow {
  StudentID : I;
  StudyHoursPerDay : cell;
  TechSkill : cell;
  Motivation : cell;
  Age : cell;
  Internet : O;
  Device : option string;
  Location : option string;
  OnlineClassPreference : option string;
  DataAccess : option string
}.

Definition DataFrame (I O : Type) : Type := list (row I O).

(** The names of the four measurement columns and of the four nominal
    columns. *)
Inductive numcol : Type :=
| cStudyHoursPerDay | cTechSkill | cMotivation | cAge.

Inductive nomcol : Type :=
| cDevice | cLocation | cOnlineClassPreference | cDataAccess.

Definition numcol_name (c : numcol) : string :=
  match c with
  | cStudyHoursPerDay => "StudyHoursPerDay"
  | cTechSkill => "TechSkill"
  | cMotivation => "Motivation"
  | cAge => "Age"
  end.

Definition nomcol_name (c : nomcol) : string :=
  match c with
  | cDevice => "Device"
  | cLocation => "Location"
  | cOnlineClassPreference => "OnlineClassPreference"
  | cDataAccess => "DataAccess"
  end.

Section Rows.
Context {I O : Type}.

(** [df[col]] for one row. *)
Definition get (c : numcol) (r : row I O) : cell :=
  match c with
  | cStudyHoursPerDay => StudyHoursPerDay r
  | cTechSkill => TechSkill r
  | cMotivation => Motivation r
  | cAge => Age r
  end.

Definition get_nom (c : nomcol) (r : row I O) : option string :=
  match c with
  | cDevice => Device r
  | cLocation => Location r
  | cOnlineClassPreference => OnlineClassPreference r
  | cDataAccess => DataAccess r
  end.

(** [df[col] = v] for one row. *)
Definition set (c : numcol) (v : cell) (r : row I O) : row I O :=
  match c with
  | cStudyHoursPerDay =>
      mkRow (StudentID r) v (TechSkill r) (Motivation r) (Age r) (Internet r)
            (Device r) (Location r) (OnlineClassPreference r) (DataAccess r)
  | cTechSkill =>
      mkRow (StudentID r) (StudyHoursPerDay r) v (Motivation r) (Age r) (Internet r)
            (Device r) (Location r) (OnlineClassPreference r) (DataAccess r)
  | cMotivation =>
      mkRow (StudentID r) (StudyHoursPerDay r) (TechSkill r) v (Age r) (Internet r)
            (Device r) (Location r) (OnlineClassPreference r) (DataAccess r)
  | cAge =>
      mkRow (StudentID r) (StudyHoursPerDay r) (TechSkill r) (Motivation r) v (Internet r)
            (Device r) (Location r) (OnlineClassPreference r) (DataAccess r)
  end.

End Rows.

Definition set_id {I J O : Type} (v : J) (r : row I O) : row J O :=
  mkRow v (StudyHoursPerDay r) (TechSkill r) (Motivation r) (Age r) (Internet r)
        (Device r) (Location r) (OnlineClassPreference r) (DataAccess r).

Definition set_internet {I O P : Type} (v : P) (r : row I O) : row I P :=
  mkRow (StudentID r) (StudyHoursPerDay r) (TechSkill r) (Motivation r) (Age r) v
        (Device r) (Location r) (OnlineClassPreference r) (DataAccess r).

(** A float column holds a number, an infinity or the missing value. *)
Definition of_float (x : option number) : cell :=
  match x with
  | Some (Finite q) => Num q
  | Some (Infinite b) => Inf b
  | None => NaN
  end.

Definition isna (c : cell) : bool :=
  match c with
  | NaN => true
  | _ => false
  end.

Definition isna_float (x : option number) : bool :=
  match x with
  | None => true
  | Some _ => false
  end.

Section ToNumeric.

(** The text-to-number parser of pandas: a text parses to a finite
    number or to an infinity, or not at all.  It is library code; the
    development holds for every parser. *)
Variable str_to_float : string -> option number.

(** [pd.to_numeric(.., errors='coerce')] on one cell: a number stays, a
    text that does not parse becomes the missing value. *)
Definition to_numeric (c : cell) : option number :=
  match c with
  | Num q => Some (Finite q)
  | Inf b => Some (Infinite b)
  | Str s => str_to_float s
  | NaN => None
  end.

End ToNumeric.

(** [.astype(int)] on a float column.  A missing or an infinite value
    cannot be cast: the whole conversion raises (IntCastingNaNError, a
    ValueError).  A finite value is truncated toward zero into a 64-bit
    integer; a value outside the 64-bit range gives the least 64-bit
    integer, the result of the conversion on x86-64. *)
Definition trunc (q : Q) : Z := Z.quot (Qnum q) (Zpos (Qden q)).

Definition int64_min : Z := - 2 ^ 63.
Definition int64_max : Z := 2 ^ 63 - 1.

Definition float_to_int64 (q : Q) : Z :=
  let z := trunc q in
  if (int64_min <=? z)%Z && (z <=? int64_max)%Z then z else int64_min.

Definition astype_int (x : option number) : result Z :=
  match x with
  | Some (Finite q) => Ok (float_to_int64 q)
  | Some (Infinite _) => Error ValueError
  | None => Error ValueError
  end.

(** [df.dropna(subset=cols)] over measurement columns. *)
Definition dropna {I O : Type} (subset : list numcol) (df : DataFrame I O)
  : DataFrame I O :=
  filter (fun r => forallb (fun c => negb (isna (get c r))) subset) df.

(** [Series.map(dict)]: a value that is not a key, and the missing value,
    give the missing value. *)
Fixpoint dict_get {V : Type} (d : list (string * V)) (k : string) : option V :=
  match d with
  | [] => None
  | (k', v) :: d' => if String.eqb k' k then Some v else dict_get d' k
  end.

Definition map_dict {V : Type} (d : list (string * V)) (x : option string)
  : option V :=
  match x with
  | Some s => dict_get d s
  | None => None
  end.

(** *** [get_dummies] *)

(** The categories of a column: its distinct present values in sorted
    order. *)
Fixpoint insert_cat (s : string) (l : list string) : list string :=
  match l with
  | [] => [s]
  | x :: l' =>
      match String.compare s x with
      | Lt => s :: l
      | Eq => l
      | Gt => x :: insert_cat s l'
      end
  end.

Definition categories (col : list (option string)) : list string :=
  fold_right (fun c acc => match c with
                           | Some s => insert_cat s acc
                           | None => acc
                           end) [] col.

Definition indicator (x : option string) (v : string) : cell :=
  match x with
  | Some s => if String.eqb s v then Num 1 else Num 0
  | None => Num 0
  end.

Definition dummy_name (c : nomcol) (v : string) : string :=
  (nomcol_name c ++ "_" ++ v)%string.

(** A frame whose columns are only known by name: the result of
    [get_dummies]. *)
Record Frame : Type := mkFrame {
  columns : list string;
  values : list (list cell)
}.

Definition rank_cell (x : option Z) : cell :=
  match x with
  | Some z => Num (inject_Z z)
  | None => NaN
  end.

(** The columns that are not encoded are taken in the order identifier,
    measurements, ordinal column. *)
Section GetDummies.
Variable encoded : list nomcol.
Variable df : DataFrame Z (option Z).

Definition column_of (c : nomcol) : list (option string) :=
  map (get_nom c) df.

Definition dummy_columns (c : nomcol) : list string :=
  map (dummy_name c) (categories (column_of c)).

Definition dummy_cells (r : row Z (option Z)) (c : nomcol) : list cell :=
  map (indicator (get_nom c r)) (categories (column_of c)).

(** [pd.get_dummies(df, columns=encoded, drop_first=False)]: the other
    columns keep their place, the indicator columns follow, one group per
    encoded column in the order of [encoded]. *)
Definition get_dummies : Frame :=
  mkFrame
    (["StudentID"; "StudyHoursPerDay"; "TechSkill"; "Motivation"; "Age";
      "Internet"]%string ++ flat_map dummy_columns encoded)
    (map (fun r =>
            [Num (inject_Z (StudentID r)); StudyHoursPerDay r; TechSkill r;
             Motivation r; Age r; rank_cell (Internet r)]
              ++ flat_map (dummy_cells r) encoded) df).

End GetDummies.

(** [df.drop(name, axis=1)]. *)
Fixpoint index_of (name : string) (l : list string) : option nat :=
  match l with
  | [] => None
  | x :: l' =>
      if String.eqb x name then Some O
      else option_map S (index_of name l')
  end.

Fixpoint remove_nth {A : Type} (n : nat) (l : list A) : list A :=
  match l, n with
  | [], _ => []
  | _ :: l', O => l'
  | x :: l', S n' => x :: remove_nth n' l'
  end.

Definition drop (name : string) (f : Frame) : result Frame :=
  match index_of name (columns f) with
  | Some i => Ok (mkFrame (remove_nth i (columns f))
                          (map (remove_nth i) (values f)))
  | None => Error KeyError
  end.

(** *** [groupby], [mean] and [mode] *)

(** The five text columns the profiler summarises. *)
Inductive catcol : Type :=
| kDevice | kInternet | kLocation | kOnlineClassPreference | kDataAccess.

Definition get_cat {I : Type} (c : catcol) (r : row I (option string))
  : option string :=
  match c with
  | kDevice => Device r
  | kInternet => Internet r
  | kLocation => Location r
  | kOnlineClassPreference => OnlineClassPreference r
  | kDataAccess => DataAccess r
  end.

(** [df['Cluster'] = labels]: the array must have one entry per row. *)
Definition assign_labels {A : Type} (df : list A) (labels : list nat)
  : result (list (A * nat)) :=
  if Nat.eqb (length labels) (length df) then Ok (combine df labels)
  else Error ValueError.

(** The group keys of [groupby]: the distinct labels in increasing order. *)
Fixpoint insert_key (k : nat) (l : list nat) : list nat :=
  match l with
  | [] => [k]
  | x :: l' =>
      match Nat.compare k x with
      | Lt => k :: l
      | Eq => l
      | Gt => x :: insert_key k l'
      end
  end.

Definition group_keys (labels : list nat) : list nat :=
  fold_right insert_key [] labels.

(** The rows of one group, in the order of the frame. *)
Definition group_rows {A : Type} (df : list (A * nat)) (k : nat) : list A :=
  map fst (filter (fun p => Nat.eqb (snd p) k) df).

(** The numbers of a column; a text in the column is a type error of the
    aggregation. *)
Fixpoint numbers (col : list cell) : result (list number) :=
  match col with
  | [] => Ok []
  | Num q :: col' => ns <- numbers col' ;; Ok (Finite q :: ns)
  | Inf b :: col' => ns <- numbers col' ;; Ok (Infinite b :: ns)
  | NaN :: col' => numbers col'
  | Str _ :: _ => Error TypeError
  end.

Definition Qsum (l : list Q) : Q := fold_right Qplus 0%Q l.

Definition finite_values (ns : list number) : list Q :=
  flat_map (fun n => match n with
                     | Finite q => [q]
                     | Infinite _ => []
                     end) ns.

Definition has_infinity (negative : bool) (ns : list number) : bool :=
  existsb (fun n => match n with
                    | Infinite b => Bool.eqb b negative
                    | Finite _ => false
                    end) ns.

(** [mean] of one group and column, missing values skipped.  An infinity
    among the values is the mean, unless both infinities occur: their sum,
    and so the mean, is undefined (the missing value). *)
Definition mean (col : list cell) : result (option number) :=
  ns <- numbers col ;;
  match ns with
  | [] => Ok None
  | _ =>
      match has_infinity false ns, has_infinity true ns with
      | true, true => Ok None
      | true, false => Ok (Some (Infinite false))
      | false, true => Ok (Some (Infinite true))
      | false, false =>
          Ok (Some (Finite (Qsum (finite_values ns)
                            / inject_Z (Z.of_nat (length ns)))%Q))
      end
  end.

Definition present {A : Type} (col : list (option A)) : list A :=
  flat_map (fun x => match x with Some a => [a] | None => [] end) col.

Definition count (v : string) (l : list string) : nat :=
  length (filter (String.eqb v) l).

(** [Series.mode()]: the most frequent present values, in sorted order. *)
Definition Series_mode (col : list (option string)) : list string :=
  let cats := categories col in
  let top := fold_right Nat.max O (map (fun v => count v (present col)) cats) in
  filter (fun v => Nat.eqb (count v (present col)) top) cats.

(** [DataFrame.mode()]: row [i] holds the [i]-th mode of every column, or
    the missing value where a column has fewer modes. *)
Definition DataFrame_mode (cols : list (list (option string)))
  : list (list (option string)) :=
  let modes := map Series_mode cols in
  let height := fold_right Nat.max O (map (@length string) modes) in
  map (fun i => map (fun m => nth_error m i) modes) (seq 0 height).

(** [.iloc[0]]. *)
Definition iloc0 {A : Type} (rows : list A) : result A :=
  match rows with
  | r :: _ => Ok r
  | [] => Error IndexError
  end.

(** [df[name]] on a frame. *)
Definition get_column (name : string) (f : Frame) : result (list cell) :=
  match index_of name (columns f) with
  | Some i => Ok (map (fun r => nth i r NaN) (values f))
  | None => Error KeyError
  end.

End Pandas.

(** ** The scikit-learn operations used by the script *)

Module Sklearn.
Import Pandas.

Local Open Scope R_scope.

Definition Rsum (l : list R) : R := fold_right Rplus 0 l.

Fixpoint zip_with {A B C : Type} (f : A -> B -> C) (l : list A) (m : list B)
  : list C :=
  match l, m with
  | a :: l', b :: m' => f a b :: zip_with f l' m'
  | _, _ => []
  end.

Definition n_features {A : Type} (X : list (list A)) : nat :=
  match X with
  | [] => O
  | r :: _ => length r
  end.

(** *** Input validation *)

(** Conversion of a frame to a float array, with the finiteness check
    that lets missing values pass: a text cannot be converted, and an
    infinity is refused. *)
Definition to_float (c : cell) : result (option R) :=
  match c with
  | Num q => Ok (Some (Q2R q))
  | NaN => Ok None
  | Inf _ => Error ValueError
  | Str _ => Error ValueError
  end.

Definition nonempty {A : Type} (X : list (list A)) : result (list (list A)) :=
  match X with
  | [] => Error ValueError
  | [] :: _ => Error ValueError
  | _ => Ok X
  end.

(** [check_array] as the scaler calls it: missing values pass, infinite
    values do not. *)
Definition check_array_allow_nan (X : list (list cell))
  : result (list (list (option R))) :=
  M <- mapM (mapM to_float) X ;; nonempty M.

Definition finite (x : option R) : result R :=
  match x with
  | Some v => Ok v
  | None => Error ValueError
  end.

(** [check_array] as the estimators and metrics call it: a missing value
    is rejected. *)
Definition check_array (X : list (list (option R))) : result (list (list R)) :=
  M <- mapM (mapM finite) X ;; nonempty M.

(** *** [StandardScaler] *)

Definition column {A : Type} (j : nat) (X : list (list (option A)))
  : list (option A) :=
  map (fun r => nth j r None) X.

Definition Rmean (l : list R) : R := Rsum l / INR (length l).

Definition Rvar (l : list R) : R :=
  Rsum (map (fun x => (x - Rmean l) ^ 2) l) / INR (length l).

(** Mean and variance of a column over its present values. *)
Definition nanmean (col : list (option R)) : R := Rmean (present col).
Definition nanvar (col : list (option R)) : R := Rvar (present col).

(** The machine epsilon of the floats. *)
Definition eps : R := / 2 ^ 52.

(** [_is_constant_feature]: a column counts as constant when its variance
    is within the rounding error of its own computation. *)
Definition is_constant_feature (var mean : R) (n_samples : nat) : bool :=
  if Rle_dec var (INR n_samples * eps * var + (INR n_samples * mean * eps) ^ 2)
  then true else false.

(** [_handle_zeros_in_scale]: a constant column is scaled by one. *)
Definition handle_zeros_in_scale (scale : R) (constant_mask : bool) : R :=
  if constant_mask then 1 else scale.

(** The scale of a column: its standard deviation over the present
    values, or one. *)
Definition column_scale (col : list (option R)) : R :=
  handle_zeros_in_scale
    (sqrt (nanvar col))
    (is_constant_feature (nanvar col) (nanmean col) (length (present col))).

Record StandardScaler : Type := mkScaler {
  mean_ : list R;
  scale_ : list R
}.

Definition fit (X : list (list (option R))) : StandardScaler :=
  mkScaler
    (map (fun j => nanmean (column j X)) (seq 0 (n_features X)))
    (map (fun j => column_scale (column j X)) (seq 0 (n_features X))).

Definition standardize (m s : R) (x : option R) : option R :=
  option_map (fun v => (v - m) / s) x.

Fixpoint transform_row (ms ss : list R) (r : list (option R))
  : list (option R) :=
  match ms, ss, r with
  | m :: ms', s :: ss', x :: r' => standardize m s x :: transform_row ms' ss' r'
  | _, _, _ => []
  end.

Definition transform (sc : StandardScaler) (X : list (list (option R)))
  : list (list (option R)) :=
  map (transform_row (mean_ sc) (scale_ sc)) X.

Definition fit_transform (X : list (list cell))
  : result (list (list (option R))) :=
  Xc <- check_array_allow_nan X ;; Ok (transform (fit Xc) Xc).

(** *** [KMeans] *)

Definition sqdist (x y : list R) : R :=
  Rsum (zip_with (fun a b => (a - b) ^ 2) x y).

(** Index of the first smallest entry. *)
Fixpoint argmin_from (best : nat) (bestv : R) (i : nat) (l : list R) : nat :=
  match l with
  | [] => best
  | v :: l' =>
      if Rlt_dec v bestv then argmin_from i v (S i) l'
      else argmin_from best bestv (S i) l'
  end.

Definition argmin (l : list R) : nat :=
  match l with
  | [] => O
  | v :: l' => argmin_from O v 1 l'
  end.

(** Assignment step: every row goes to its nearest centre. *)
Definition nearest (centers : list (list R)) (x : list R) : nat :=
  argmin (map (sqdist x) centers).

Definition e_step (X centers : list (list R)) : list nat :=
  map (nearest centers) X.

Definition members (X : list (list R)) (labels : list nat) (j : nat)
  : list (list R) :=
  map fst (filter (fun p => Nat.eqb (snd p) j) (combine X labels)).

Definition vsum (d : nat) (pts : list (list R)) : list R :=
  fold_right (zip_with Rplus) (repeat 0 d) pts.

Definition centroid (d : nat) (pts : list (list R)) : list R :=
  map (fun s => s / INR (length pts)) (vsum d pts).

Definition center_shift (old new : list (list R)) : R :=
  Rsum (zip_with sqdist old new).

Definition inertia (X : list (list R)) (centers : list (list R))
  (labels : list nat) : R :=
  Rsum (zip_with (fun x l => sqdist x (nth l centers [])) X labels).

Definition same_labels (labels : list nat) (old : option (list nat)) : bool :=
  match old with
  | Some l => if list_eq_dec Nat.eq_dec labels l then true else false
  | None => false
  end.

(** Two labellings that differ by a renaming of the labels. *)
Fixpoint is_same_clustering (mapping : list (nat * nat)) (l1 l2 : list nat)
  : bool :=
  match l1, l2 with
  | a :: l1', b :: l2' =>
      match find (fun p => Nat.eqb (fst p) a) mapping with
      | None => is_same_clustering ((a, b) :: mapping) l1' l2'
      | Some p => Nat.eqb (snd p) b && is_same_clustering mapping l1' l2'
      end
  | _, _ => true
  end.

Record KMeans : Type := mkKMeans {
  n_clusters : Z;
  random_state : option Z;
  n_init : nat
}.

Record Fitted : Type := mkFitted {
  labels_ : list nat;
  inertia_ : R;
  cluster_centers_ : list (list R)
}.

Definition max_iter : nat := 300.
Definition tol : R := 1 / 10000.

(** The iteration bound is never unfolded by simplification. *)
Global Opaque max_iter.

Section Estimator.

(** The random generator of NumPy and the two places where the estimator
    leaves a choice to it or to array internals.  They are library code;
    the development holds for every generator and every choice. *)
Variable rng : Type.
Variable RandomState : Z -> rng.
(** One k-means++ draw: the index of the next seed row, given the data and
    the seeds chosen so far. *)
Variable seeding_draw : rng -> list (list R) -> list (list R) -> nat * rng.
(** The centre a cluster receives when some cluster has lost all its rows,
    given the data, the labels and the previous centres. *)
Variable relocated_center :
  list (list R) -> list nat -> list (list R) -> nat -> list R.

(** [check_random_state]: an integer seeds a fresh generator, [None] is the
    global generator of the process. *)
Definition check_random_state (seed : option Z) (global : rng) : rng :=
  match seed with
  | Some s => RandomState s
  | None => global
  end.

(** k-means++ seeding: [k] rows of the data. *)
Fixpoint kmeans_plusplus (k : nat) (X chosen : list (list R)) (rs : rng)
  : list (list R) * rng :=
  match k with
  | O => (chosen, rs)
  | S k' =>
      let (i, rs') := seeding_draw rs X chosen in
      kmeans_plusplus k' X (chosen ++ [nth i X []]) rs'
  end.

(** Update step: every centre becomes the mean of its rows. *)
Definition m_step (k : nat) (X : list (list R)) (labels : list nat)
  (centers : list (list R)) : list (list R) :=
  if forallb (fun j => negb (Nat.eqb (length (members X labels j)) 0)) (seq 0 k)
  then map (fun j => centroid (n_features X) (members X labels j)) (seq 0 k)
  else map (relocated_center X labels centers) (seq 0 k).

(** One run of Lloyd's iteration from given centres, at most [n_iter]
    rounds.  It stops when the labels repeat, and returns them; or when the
    centres move by at most [t], or the rounds are used up, and then
    assigns the rows once more to the last centres. *)
Fixpoint lloyd (n_iter k : nat) (t : R) (X centers : list (list R))
  (labels_old : option (list nat)) : list (list R) * list nat :=
  match n_iter with
  | O => (centers, e_step X centers)
  | S n' =>
      let labels := e_step X centers in
      let centers_new := m_step k X labels centers in
      if same_labels labels labels_old then (centers_new, labels)
      else if Rle_dec (center_shift centers centers_new) t
           then (centers_new, e_step X centers_new)
           else lloyd n' k t X centers_new (Some labels)
  end.

(** The restarts: the first run of lowest inertia is kept. *)
Fixpoint restarts (n k : nat) (t : R) (X : list (list R)) (rs : rng)
  (best : option Fitted) : option Fitted * rng :=
  match n with
  | O => (best, rs)
  | S n' =>
      let (init, rs') := kmeans_plusplus k X [] rs in
      let (centers, labels) := lloyd max_iter k t X init None in
      let run := mkFitted labels (inertia X centers labels) centers in
      let best' :=
        match best with
        | None => Some run
        | Some b =>
            if Rlt_dec (inertia_ run) (inertia_ b)
            then if is_same_clustering [] labels (labels_ b) then Some b
                 else Some run
            else Some b
        end in
      restarts n' k t X rs' best'
  end.

Definition columns_of (X : list (list R)) : list (list R) :=
  map (fun j => map (fun r => nth j r 0) X) (seq 0 (n_features X)).

(** [KMeans(..).fit(X)]: the parameters are validated, then the data, then
    the parameters against the data; only then the runs start, on the data
    centred column by column. *)
Definition KMeans_fit (est : KMeans) (global : rng)
  (X : list (list (option R))) : result Fitted :=
  if (n_clusters est <? 1)%Z then Error InvalidParameterError
  else if Nat.eqb (n_init est) 0 then Error InvalidParameterError
  else
    Xc <- check_array X ;;
    if (Z.of_nat (length Xc) <? n_clusters est)%Z then Error ValueError
    else
      let rs := check_random_state (random_state est) global in
      let k := Z.to_nat (n_clusters est) in
      let X_mean := map Rmean (columns_of Xc) in
      let Xm := map (fun r => zip_with Rminus r X_mean) Xc in
      let t := Rmean (map Rvar (columns_of Xm)) * tol in
      match fst (restarts (n_init est) k t Xm rs None) with
      | Some b =>
          Ok (mkFitted (labels_ b) (inertia_ b)
                       (map (fun c => zip_with Rplus c X_mean)
                            (cluster_centers_ b)))
      | None => Error InvalidParameterError
      end.

End Estimator.

(** *** [silhouette_score] *)

Definition euclidean (x y : list R) : R := sqrt (sqdist x y).

Definition Rmin_list (l : list R) : R :=
  match l with
  | [] => 0
  | v :: l' => fold_left Rmin l' v
  end.

Section Silhouette.
Variable X : list (list R).
Variable labels : list nat.

Definition cluster_size (l : nat) : nat := length (members X labels l).

(** Sum of the distances from [x] to the rows of cluster [l]; [intra]
    and [inter] turn it into the mean distance to the other rows of the
    own cluster and the least mean distance to another cluster. *)
Definition dist_sum (x : list R) (l : nat) : R :=
  Rsum (map (euclidean x) (members X labels l)).

Definition intra (x : list R) (l : nat) : R :=
  dist_sum x l / INR (cluster_size l - 1).

Definition inter (x : list R) (l : nat) : R :=
  Rmin_list (map (fun l' => dist_sum x l' / INR (cluster_size l'))
                 (filter (fun l' => negb (Nat.eqb l' l)) (group_keys labels))).

(** The coefficient of one row; zero for a row alone in its cluster and
    where the quotient is undefined. *)
Definition silhouette_sample (x : list R) (l : nat) : R :=
  if Nat.eqb (cluster_size l) 1 then 0
  else
    let a := intra x l in
    let b := inter x l in
    if Req_dec_T (Rmax a b) 0 then 0 else (b - a) / Rmax a b.

Definition silhouette_samples : list R :=
  zip_with silhouette_sample X labels.

End Silhouette.

(** [silhouette_score(X, labels)]: defined only for 2 to [n - 1] distinct
    labels. *)
Definition silhouette_score (X : list (list (option R))) (labels : list nat)
  : result R :=
  Xc <- check_array X ;;
  if negb (Nat.eqb (length labels) (length Xc)) then Error ValueError
  else
    let n_labels := length (group_keys labels) in
    if Nat.ltb 1 n_labels && Nat.ltb n_labels (length Xc)
    then Ok (Rmean (silhouette_samples Xc labels))
    else Error ValueError.

End Sklearn.

(** ** The script *)

Module ClusterAnalysis.
Import Pandas Sklearn.

Section Script.

Variable str_to_float : string -> option number.
Variable rng : Type.
Variable RandomState : Z -> rng.
Variable seeding_draw : rng -> list (list R) -> list (list R) -> nat * rng.
Variable relocated_center :
  list (list R) -> list nat -> list (list R) -> nat -> list R.

(** *** [load_and_prepare_data] *)

(** The three statements on the identifier column: conversion with
    [errors='coerce'], [dropna] on the column, [astype(int)]. *)
Definition clean_student_id (df : DataFrame cell (option string))
  : result (DataFrame Z (option string)) :=
  let df := map (fun r => set_id (to_numeric str_to_float (StudentID r)) r) df in
  let df := filter (fun r => negb (isna_float (StudentID r))) df in
  mapM (fun r => z <- astype_int (StudentID r) ;; Ok (set_id z r)) df.

Definition numeric_cols_to_convert : list numcol :=
  [cStudyHoursPerDay; cTechSkill; cMotivation; cAge].

(** The loop over the measurement columns. *)
Definition convert_numeric_cols {I O : Type} (df : DataFrame I O)
  : DataFrame I O :=
  fold_left
    (fun df col =>
       map (fun r => set col (of_float (to_numeric str_to_float (get col r))) r) df)
    numeric_cols_to_convert df.

(** The table kept as [original_df]. *)
Definition clean_data (df : DataFrame cell (option string))
  : result (DataFrame Z (option string)) :=
  df <- clean_student_id df ;;
  Ok (dropna numeric_cols_to_convert (convert_numeric_cols df)).

Definition internet_map : list (string * Z) :=
  [("Slow"%string, 1%Z); ("Average"%string, 2%Z); ("Fast"%string, 3%Z)].

Definition map_internet (df : DataFrame Z (option string))
  : DataFrame Z (option Z) :=
  map (fun r => set_internet (map_dict internet_map (Internet r)) r) df.

Definition categorical_features : list nomcol :=
  [cDevice; cLocation; cOnlineClassPreference; cDataAccess].

(** The encoded frame, before the identifier is dropped. *)
Definition encode (original_df : DataFrame Z (option string)) : Frame :=
  get_dummies categorical_features (map_internet original_df).

(** The argument is the outcome of [read_csv]: [None] when the file is not
    found, in which case the function returns its triple of [None]s. *)
Definition load_and_prepare_data (csv : option (DataFrame cell (option string)))
  : result (option (list (list (option R)) * DataFrame Z (option string)
                    * list string)) :=
  match csv with
  | None => Ok None
  | Some df =>
      original_df <- clean_data df ;;
      let df := encode original_df in
      df_to_scale <- drop "StudentID" df ;;
      let feature_columns := columns df_to_scale in
      scaled_data <- fit_transform (values df_to_scale) ;;
      Ok (Some (scaled_data, original_df, feature_columns))
  end.

(** *** [find_optimal_k] *)

(** The inertia of the fit for every k from 1 to 10 (the plot is not
    modelled). *)
Definition find_optimal_k (global : rng) (scaled_data : list (list (option R)))
  : result (list R) :=
  mapM (fun k =>
          kmeans <- KMeans_fit RandomState seeding_draw relocated_center
                      (mkKMeans (Z.of_nat k) (Some 42%Z) 10) global scaled_data ;;
          Ok (inertia_ kmeans))
       (seq 1 10).

(** *** [run_kmeans] *)

(** The labels of the fit; the silhouette score is computed before they
    are returned (the printed report is not modelled). *)
Definition run_kmeans (global : rng) (scaled_data : list (list (option R)))
  (k : Z) : result (list nat) :=
  kmeans <- KMeans_fit RandomState seeding_draw relocated_center
              (mkKMeans k (Some 42%Z) 10) global scaled_data ;;
  let labels := labels_ kmeans in
  score <- silhouette_score scaled_data labels ;;
  Ok labels.

End Script.

(** *** [analyze_clusters] *)

Definition numeric_cols : list numcol :=
  [cStudyHoursPerDay; cTechSkill; cMotivation; cAge].

Definition categorical_cols : list catcol :=
  [kDevice; kInternet; kLocation; kOnlineClassPreference; kDataAccess].

(** One line of the printed table: the label, the means of the
    measurement columns and the modes of the text columns. *)
Definition Summary : Type :=
  (nat * (list (option number) * list (option string)))%type.

Definition analyze_clusters (original_data : DataFrame Z (option string))
  (labels : list nat) : result (list Summary) :=
  df_analysis <- assign_labels original_data labels ;;
  let keys := group_keys (map snd df_analysis) in
  numeric_analysis <-
    mapM (fun k =>
            mapM (fun c => Pandas.mean (map (get c) (group_rows df_analysis k)))
                 numeric_cols) keys ;;
  categorical_analysis <-
    mapM (fun k =>
            iloc0 (DataFrame_mode
                     (map (fun c => map (get_cat c) (group_rows df_analysis k))
                          categorical_cols))) keys ;;
  Ok (combine keys (combine numeric_analysis categorical_analysis)).

(** *** [main] *)

Section Main.
Variable str_to_float : string -> option number.
Variable rng : Type.
Variable RandomState : Z -> rng.
Variable seeding_draw : rng -> list (list R) -> list (list R) -> nat * rng.
Variable relocated_center :
  list (list R) -> list nat -> list (list R) -> nat -> list R.

(** The whole pipeline; it returns the printed profile, or nothing when
    the file is not found. *)
Definition main (global : rng) (csv : option (DataFrame cell (option string)))
  : result (option (list Summary)) :=
  loaded <- load_and_prepare_data str_to_float csv ;;
  match loaded with
  | None => Ok None
  | Some (scaled_data, original_df, feature_columns) =>
      inertias <- find_optimal_k RandomState seeding_draw relocated_center
                    global scaled_data ;;
      labels <- run_kmeans RandomState seeding_draw relocated_center
                  global scaled_data 4 ;;
      profile <- analyze_clusters original_df labels ;;
      Ok (Some profile)
  end.

End Main.

End ClusterAnalysis.

(** ** Concrete data for the examples *)

Module Examples.
Import Pandas.

(** A parser of plain decimal numerals (an optional minus sign, digits,
    an optional point among them) and of the two words for the
    infinities. *)
Definition digit (c : ascii) : option Z :=
  let n := nat_of_ascii c in
  if Nat.leb 48 n && Nat.leb n 57 then Some (Z.of_nat (n - 48)) else None.

Fixpoint parse_digits (s : string) (acc : Z) (scale : positive)
  (seen frac : bool) : option Q :=
  match s with
  | EmptyString => if seen then Some (acc # scale) else None
  | String c s' =>
      if Ascii.eqb c "."
      then if frac then None else parse_digits s' acc scale seen true
      else match digit c with
           | Some d =>
               parse_digits s' (acc * 10 + d)
                            (if frac then scale * 10 else scale) true frac
           | None => None
           end
  end.

Definition parse_finite (s : string) : option Q :=
  match s with
  | String "-" s' => option_map Qopp (parse_digits s' 0 1 false false)
  | _ => parse_digits s 0 1 false false
  end.

Definition parse_decimal (s : string) : option number :=
  if String.eqb s "inf" then Some (Infinite false)
  else if String.eqb s "-inf" then Some (Infinite true)
  else option_map Finite (parse_finite s).

Definition raw (id hours skill motivation age : string)
  (internet device location preference access : string)
  : row cell (option string) :=
  mkRow (Str id) (Str hours) (Str skill) (Str motivation) (Str age)
        (Some internet) (Some device) (Some location) (Some preference)
        (Some access).

Definition blank : row cell (option string) :=
  raw EmptyString EmptyString EmptyString EmptyString EmptyString
      EmptyString EmptyString EmptyString EmptyString EmptyString.

(** A small survey: a clean row, the header-like row, a row with a
    fractional identifier, a row with a bad measurement. *)
Definition survey : DataFrame cell (option string) :=
  [ raw "1" "2.5" "3" "4" "20" "Fast" "Laptop" "Urban" "Yes" "WiFi";
    raw "MAIN" "1" "1" "1" "19" "Slow" "Phone" "Rural" "No" "Mobile";
    raw "3.7" "4" "5" "2" "22" "Average" "Phone" "Urban" "No" "WiFi";
    raw "4" "lots" "2" "3" "21" "Slow" "Tablet" "Rural" "Yes" "Mobile" ]%string.

(** A survey whose second row holds an ordinal value outside the table
    of ranks. *)
Definition survey_unmapped : DataFrame cell (option string) :=
  [ raw "1" "2.5" "3" "4" "20" "Fast" "Laptop" "Urban" "Yes" "WiFi";
    raw "2" "1" "1" "1" "19" "Medium" "Phone" "Rural" "No" "Mobile";
    raw "3" "4" "5" "2" "22" "Slow" "Phone" "Urban" "No" "WiFi" ]%string.

(** A toy generator for the examples: the state counts the draws, the
    seeding takes the rows in turn, and an emptied cluster is re-centred on
    the first row. *)
Definition toy_rng : Type := nat.
Definition toy_RandomState (seed : Z) : toy_rng := Z.to_nat seed.
Definition toy_seeding_draw (rs : toy_rng) (X chosen : list (list R))
  : nat * toy_rng :=
  (length chosen, S rs).
Definition toy_relocated_center (X : list (list R)) (labels : list nat)
  (centers : list (list R)) (j : nat) : list R :=
  nth 0 X [].

(** Three points on a line. *)
Definition three_points : list (list (option R)) :=
  [[Some 0%R]; [Some 1%R]; [Some 5%R]].

(** Four students in two clusters; in cluster 0 the devices tie. *)
Definition student (id : Z) (hours : Q) (internet device : string)
  : row Z (option string) :=
  mkRow id (Num hours) (Num 3) (Num 4) (Num 20) (Some internet) (Some device)
        (Some "Urban"%string) (Some "Yes"%string) (Some "WiFi"%string).

Definition students : DataFrame Z (option string) :=
  [ student 1 2 "Fast" "Phone"; student 2 4 "Fast" "Laptop";
    student 3 1 "Slow" "Tablet"; student 4 1 "Slow" "Tablet" ]%string.

Definition students_labels : list nat := [0; 0; 1; 1]%nat.

End Examples.

(** ** The specification's own words *)

(** The sentences of the specification as functions and predicates, and
    the vocabulary in which the properties are stated; the properties
    compare the script with them. *)
Module Reference.
Import Pandas.

(** Schema coercion: a row is kept when its identifier converts to a
    finite number and its four measurements convert, the identifier
    truncated to an integer; otherwise the whole row goes. *)
Definition coerce_row (str_to_float : string -> option number)
  (r : row cell (option string)) : option (row Z (option string)) :=
  match to_numeric str_to_float (StudentID r),
        to_numeric str_to_float (StudyHoursPerDay r),
        to_numeric str_to_float (TechSkill r),
        to_numeric str_to_float (Motivation r),
        to_numeric str_to_float (Age r) with
  | Some (Finite i), Some h, Some t, Some m, Some a =>
      Some (mkRow (float_to_int64 i) (of_float (Some h)) (of_float (Some t))
                  (of_float (Some m)) (of_float (Some a)) (Internet r)
                  (Device r) (Location r) (OnlineClassPreference r)
                  (DataAccess r))
  | _, _, _, _, _ => None
  end.

Definition kept (str_to_float : string -> option number)
  (r : row cell (option string)) : list (row Z (option string)) :=
  match coerce_row str_to_float r with
  | Some r' => [r']
  | None => []
  end.

(** An identifier that converts to an infinity. *)
Definition infinite_id (str_to_float : string -> option number)
  (r : row cell (option string)) : Prop :=
  exists negative,
    to_numeric str_to_float (StudentID r) = Some (Infinite negative).

(** A 64-bit integer. *)
Definition in_int64 (z : Z) : Prop := (int64_min <= z <= int64_max)%Z.

(** Every numeric column of the row holds a finite number. *)
Definition typed (r : row Z (option string)) : Prop :=
  exists h t m a,
    StudyHoursPerDay r = Num h /\ TechSkill r = Num t /\
    Motivation r = Num m /\ Age r = Num a.

(** A value is observed in a nominal column when some row holds it. *)
Definition observed (c : nomcol) (df : DataFrame Z (option string))
  (v : string) : Prop :=
  In (Some v) (map (get_nom c) df).

Definition str_lt (a b : string) : Prop := String.compare a b = Lt.

(** The columns that [get_dummies] leaves in place. *)
Definition base_columns : list string :=
  ["StudentID"; "StudyHoursPerDay"; "TechSkill"; "Motivation"; "Age";
   "Internet"]%string.

(** The indicator columns as pairs of a nominal column and a value. *)
Definition dummy_keys (df : DataFrame Z (option string))
  : list (nomcol * string) :=
  flat_map (fun c => map (pair c) (categories (map (get_nom c) df)))
           ClusterAnalysis.categorical_features.

(** The float a numeric cell converts to. *)
Definition float_of (c : cell) : option R :=
  match c with
  | Num q => Some (Q2R q)
  | _ => None
  end.

(** A cell the float array accepts: a finite number or the missing
    value. *)
Definition accepted (c : cell) : Prop :=
  match c with
  | Num _ => True
  | NaN => True
  | Inf _ => False
  | Str _ => False
  end.

(** A measurement cell that holds an infinity. *)
Definition holds_infinity (r : row Z (option string)) : Prop :=
  exists c negative, get c r = Inf negative.

(** Mean, variance and standard deviation of a list of reals, in the
    words of the specification: the variance is the mean of the squared
    deviations from the mean, the standard deviation its square root. *)
Definition average (l : list R) : R :=
  (fold_right Rplus 0 l / INR (length l))%R.

Definition variance (l : list R) : R :=
  average (map (fun x => ((x - average l) * (x - average l))%R) l).

Definition std_deviation (l : list R) : R := sqrt (variance l).

(** The float array handed to the scaler: the encoded frame without its
    first column, the identifier. *)
Definition features (original : DataFrame Z (option string))
  : list (list (option R)) :=
  map (fun r => map float_of (tl r)) (values (ClusterAnalysis.encode original)).

(** Labels in row order: the label of each row is the index of its
    nearest centre among [k] centres. *)
Definition assigned (k : nat) (X : list (list R)) (labels : list nat) : Prop :=
  exists centers, length centers = k /\ labels = Sklearn.e_step X centers.




Section Runs.
Variable rng : Type.
Variable seeding_draw : rng -> list (list R) -> list (list R) -> nat * rng.
Variable relocated_center :
  list (list R) -> list nat -> list (list R) -> nat -> list R.




End Runs.

(** A mode of a column: a present value that no value outnumbers. *)
Definition is_mode (col : list (option string)) (v : string) : Prop :=
  In (Some v) col /\
  forall w, (count w (present col) <= count v (present col))%nat.

(** The tie-break of the specification: among the most frequent values,
    the one met first in row order. *)
Definition mode_first_encountered (col : list (option string))
  : option string :=
  let vals := present col in
  let top := fold_right Nat.max O (map (fun v => count v vals) vals) in
  find (fun v => Nat.eqb (count v vals) top) vals.

(** The number in a numeric cell. *)
Definition cell_value (c : cell) : Q :=
  match c with
  | Num q => q
  | _ => 0%Q
  end.

(** A row with at least one categorical value present. *)
Definition has_category (r : row Z (option string)) : Prop :=
  exists c v, get_cat c r = Some v.

(** Whether a value already occurs in a nominal column, and the number of
    nominal values of a row that occur in no row of the table. *)
Definition seen (c : nomcol) (df : DataFrame Z (option string)) (v : string)
  : bool :=
  existsb (fun x => match x with
                    | Some w => String.eqb w v
                    | None => false
                    end) (map (get_nom c) df).

Definition is_new (c : nomcol) (df : DataFrame Z (option string))
  (r : row Z (option string)) : bool :=
  match get_nom c r with
  | Some v => negb (seen c df v)
  | None => false
  end.

Definition new_values (df : DataFrame Z (option string))
  (r : row Z (option string)) : nat :=
  length (filter (fun c => is_new c df r) ClusterAnalysis.categorical_features).

End Reference.

(** ** Further vocabulary *)

Module Derived.
Import Pandas.

(** A coerced row read again as a raw row: the integer identifier as a
    numeric cell. *)
Definition as_raw {O : Type} (r : row Z O) : row cell O :=
  set_id (Num (inject_Z (StudentID r))) r.

(** Reading an indicator group back: the cell that holds 1, the number of
    such cells, and the category they stand for. *)
Definition is_one (c : cell) : bool :=
  match c with
  | Num q => Qeq_bool q 1
  | _ => false
  end.

Definition ones (cells : list cell) : nat := length (filter is_one cells).

Definition decode (cats : list string) (cells : list cell) : option string :=
  option_map fst (find (fun p => is_one (snd p)) (combine cats cells)).

(** The five text columns of a row. *)
Definition text_columns {I : Type} (r : row I (option string))
  : list (option string) :=
  [Internet r; Device r; Location r; OnlineClassPreference r; DataAccess r].

(** A measurement cell that holds a text. *)
Definition holds_text {I O : Type} (r : row I O) : Prop :=
  exists c s, get c r = Str s.

(** A row without any categorical value. *)
Definition no_category (r : row Z (option string)) : Prop :=
  forall c, get_cat c r = None.

(** The place of a measurement column in a line of the profile. *)
Definition numcol_index (c : numcol) : nat :=
  match c with
  | cStudyHoursPerDay => 0
  | cTechSkill => 1
  | cMotivation => 2
  | cAge => 3
  end.

(** The mean of a measurement column in a line of the profile. *)
Definition line_mean (c : numcol)
  (line : nat * (list (option number) * list (option string))) : Q :=
  match nth (numcol_index c) (fst (snd line)) None with
  | Some (Finite q) => q
  | _ => 0%Q
  end.

End Derived.

(** ** Further data for the examples *)

Module Samples.
Import Pandas.

(** A seeding that takes the first row, then the last. *)
Definition ends_seeding_draw (rs : nat) (X chosen : list (list R))
  : nat * nat :=
  (match chosen with
   | [] => O
   | _ => pred (length X)
   end, S rs).


(** Two pairs of equal points on a line. *)
Definition two_pairs : list (list (option R)) :=
  [[Some (-1)%R]; [Some (-1)%R]; [Some 1%R]; [Some 1%R]].

(** A row whose study hours were left as text, and a row without any
    categorical value. *)
Definition texted : row Z (option string) :=
  mkRow 1%Z (Str "lots"%string) (Num 3) (Num 4) (Num 20)
        (Some "Fast"%string) (Some "Phone"%string) (Some "Urban"%string)
        (Some "Yes"%string) (Some "WiFi"%string).

Definition uncategorised (id : Z) (hours : Q) : row Z (option string) :=
  mkRow id (Num hours) (Num 3) (Num 4) (Num 20) None None None None None.

Definition mixed : DataFrame Z (option string) :=
  [ Examples.student 1 2 "Fast" "Phone"; uncategorised 2 4;
    uncategorised 3 1 ]%string.

Definition mixed_labels : list nat := [0; 1; 1]%nat.

(** The example survey with an identifier that reads as an infinity. *)
Definition survey_infinite : DataFrame cell (option string) :=
  [ Examples.raw "1" "2.5" "3" "4" "20" "Fast" "Laptop" "Urban" "Yes" "WiFi";
    Examples.raw "inf" "1" "1" "1" "19" "Slow" "Phone" "Rural" "No" "Mobile";
    Examples.raw "3.7" "4" "5" "2" "22" "Average" "Phone" "Urban" "No" "WiFi"
  ]%string.

(** A survey with an ordinal value outside the table of ranks in a row
    whose study hours read as an infinity. *)
Definition survey_unmapped_infinite : DataFrame cell (option string) :=
  [ Examples.raw "1" "inf" "3" "4" "20" "Medium" "Laptop" "Urban" "Yes" "WiFi";
    Examples.raw "2" "1" "1" "1" "19" "Slow" "Phone" "Rural" "No" "Mobile"
  ]%string.

(** Two students whose study hours differ by rounding noise only: the
    float sum of 0.1 and 0.2, and 0.3. *)
Definition survey_noise : DataFrame cell (option string) :=
  [ Examples.raw "1" "0.30000000000000004" "3" "4" "20" "Fast" "Laptop" "Urban"
                 "Yes" "WiFi";
    Examples.raw "2" "0.3" "3" "4" "20" "Fast" "Laptop" "Urban" "Yes" "WiFi"
  ]%string.

(** A survey of ten clean rows. *)
Definition class_of_ten : DataFrame cell (option string) :=
  [ Examples.raw "1" "2.5" "3" "4" "20" "Fast" "Laptop" "Urban" "Yes" "WiFi";
    Examples.raw "2" "1" "1" "1" "19" "Slow" "Phone" "Rural" "No" "Mobile";
    Examples.raw "3" "4" "5" "2" "22" "Average" "Phone" "Urban" "No" "WiFi";
    Examples.raw "4" "3" "2" "3" "21" "Slow" "Tablet" "Rural" "Yes" "Mobile";
    Examples.raw "5" "6" "4" "5" "23" "Fast" "Laptop" "Urban" "Yes" "WiFi";
    Examples.raw "6" "0.5" "1" "2" "18" "Slow" "Phone" "Rural" "No" "Mobile";
    Examples.raw "7" "5" "5" "5" "24" "Fast" "Laptop" "Urban" "Yes" "WiFi";
    Examples.raw "8" "2" "2" "2" "20" "Average" "Tablet" "Rural" "No" "WiFi";
    Examples.raw "9" "3.5" "3" "4" "22" "Average" "Phone" "Urban" "Yes" "Mobile";
    Examples.raw "10" "1.5" "2" "1" "19" "Slow" "Phone" "Rural" "No" "Mobile"
  ]%string.

End Samples.

(** * Properties *)

(** ** Lists of results *)

Module Results.

Lemma mapM_first_error {A B : Type} (f : A -> result B) (l : list A) (e : error) :
  (forall x e', In x l -> f x = Error e' -> e' = e) ->
  (exists x e', In x l /\ f x = Error e') ->
  mapM f l = Error e.
Proof.
  induction l as [|a l IH]; intros Hkind [x [e' [Hin Hx]]]; [contradiction|].
  cbn [mapM]. destruct (f a) as [b|e0] eqn:Ea.
  - cbn [bind]. rewrite IH; [reflexivity| |].
    + intros y ey Hy. apply Hkind. right. exact Hy.
    + destruct Hin as [->|Hin]; [congruence|]. exists x, e'. split; assumption.
  - cbn [bind]. rewrite (Hkind a e0 (or_introl eq_refl) Ea). reflexivity.
Qed.

Lemma mapM_all_ok {A B : Type} (f : A -> result B) (P : B -> Prop) (l : list A) :
  (forall x, In x l -> exists y, f x = Ok y /\ P y) ->
  exists ys, mapM f l = Ok ys /\ length ys = length l /\ Forall P ys.
Proof.
  induction l as [|a l IH]; intros H.
  - exists []. repeat split. constructor.
  - destruct (H a (or_introl eq_refl)) as [y [Ey Py]].
    destruct IH as [ys [E [Hl HP]]].
    { intros x Hx. apply H. right. exact Hx. }
    exists (y :: ys). cbn [mapM]. rewrite Ey. cbn [bind]. rewrite E.
    cbn [bind]. repeat split; [simpl; lia|constructor; assumption].
Qed.

Lemma mapM_Ok_In {A B : Type} (f : A -> result B) (l : list A) (ys : list B)
  (x : A) :
  mapM f l = Ok ys -> In x l -> exists y, f x = Ok y.
Proof.
  revert ys. induction l as [|a l IH]; intros ys H Hin; [contradiction|].
  cbn [mapM] in H. destruct (f a) as [b|e] eqn:Ea; cbn [bind] in H;
    [|discriminate].
  destruct (mapM f l) as [bs|e] eqn:El; cbn [bind] in H; [|discriminate].
  destruct Hin as [->|Hin]; [exists b; exact Ea|].
  apply (IH bs eq_refl Hin).
Qed.

Lemma mapM_error_In {A B : Type} (f : A -> result B) (l : list A) (e : error) :
  mapM f l = Error e -> exists x, In x l /\ f x = Error e.
Proof.
  induction l as [|a l IH]; cbn [mapM]; intros H; [discriminate|].
  destruct (f a) as [b|e0] eqn:Ea; cbn [bind] in H.
  - destruct (mapM f l) as [bs|e1]; cbn [bind] in H; [discriminate|].
    injection H as <-. destruct (IH eq_refl) as [x [Hx Ex]].
    exists x. split; [right; exact Hx|exact Ex].
  - injection H as <-. exists a. split; [left; reflexivity|exact Ea].
Qed.

End Results.

(** ** Schema coercion *)

Module Coercion.
Import Pandas ClusterAnalysis Reference.

(** *** The 64-bit cast *)

Lemma float_to_int64_range (q : Q) : in_int64 (float_to_int64 q).
Proof.
  unfold float_to_int64, in_int64.
  destruct (Z.leb_spec int64_min (trunc q));
    destruct (Z.leb_spec (trunc q) int64_max); cbn [andb];
    unfold int64_min, int64_max in *; lia.
Qed.

Lemma float_to_int64_exact (q : Q) :
  in_int64 (trunc q) -> float_to_int64 q = trunc q.
Proof.
  unfold float_to_int64, in_int64. intros [Hlo Hhi].
  destruct (Z.leb_spec int64_min (trunc q)); [|lia].
  destruct (Z.leb_spec (trunc q) int64_max); [reflexivity|lia].
Qed.

(** Truncation is toward zero. *)
Lemma trunc_toward_zero (q : Q) :
  (0 <= q -> inject_Z (trunc q) <= q /\ q < inject_Z (trunc q) + 1)%Q /\
  (q <= 0 -> inject_Z (trunc q) - 1 < q /\ q <= inject_Z (trunc q))%Q.
Proof.
  destruct q as [n d]. unfold trunc, Qle, Qlt, inject_Z. simpl.
  pose proof (Z.quot_rem' n (Zpos d)) as E.
  split; intros H.
  - assert (Hn : (0 <= n)%Z) by lia.
    pose proof (Z.rem_bound_pos n (Zpos d) Hn ltac:(lia)). nia.
  - assert (Hn : (n <= 0)%Z) by lia.
    pose proof (Z.rem_bound_pos_neg n (Zpos d) ltac:(lia) Hn). nia.
Qed.

Section WithParser.
Variable str_to_float : string -> option number.

(** *** The identifier column *)

(** The rows that pass the identifier statements, when these return. *)
Lemma clean_student_id_Ok (df : DataFrame cell (option string)) :
  (forall r, In r df -> ~ infinite_id str_to_float r) ->
  clean_student_id str_to_float df =
  Ok (flat_map (fun r => match to_numeric str_to_float (StudentID r) with
                         | Some (Finite q) => [set_id (float_to_int64 q) r]
                         | _ => []
                         end) df).
Proof.
  unfold clean_student_id.
  induction df as [|r df IH]; intros Hfin; simpl; [reflexivity|].
  assert (Hrest : forall r0, In r0 df -> ~ infinite_id str_to_float r0)
    by (intros r0 Hr0; apply Hfin; right; exact Hr0).
  destruct (to_numeric str_to_float (StudentID r)) as [[q|b]|] eqn:Hid; simpl.
  - rewrite (IH Hrest). reflexivity.
  - exfalso. apply (Hfin r (or_introl eq_refl)). exists b. exact Hid.
  - exact (IH Hrest).
Qed.

(** One identifier that converts to an infinity makes the cast of the
    whole column raise. *)
Lemma clean_student_id_Error (df : DataFrame cell (option string)) :
  (exists r, In r df /\ infinite_id str_to_float r) ->
  clean_student_id str_to_float df = Error ValueError.
Proof.
  unfold clean_student_id.
  induction df as [|r df IH]; intros [r0 [Hin [b Hb]]]; [contradiction|].
  simpl.
  destruct (to_numeric str_to_float (StudentID r)) as [[q|b']|] eqn:Hid; simpl.
  - destruct Hin as [->|Hin]; [congruence|].
    rewrite IH; [reflexivity|]. exists r0. split; [exact Hin|exists b; exact Hb].
  - reflexivity.
  - destruct Hin as [->|Hin]; [congruence|].
    apply IH. exists r0. split; [exact Hin|exists b; exact Hb].
Qed.

Lemma infinite_id_decision (df : DataFrame cell (option string)) :
  (exists r, In r df /\ infinite_id str_to_float r) \/
  (forall r, In r df -> ~ infinite_id str_to_float r).
Proof.
  induction df as [|r df [[r0 [Hin H0]]|IH]].
  - right. intros r [].
  - left. exists r0. split; [right; exact Hin|exact H0].
  - destruct (to_numeric str_to_float (StudentID r)) as [[q|b]|] eqn:Hid.
    + right. intros r0 [<-|Hr0]; [|apply IH, Hr0].
      intros [b Hb]. congruence.
    + left. exists r. split; [left; reflexivity|exists b; exact Hid].
    + right. intros r0 [<-|Hr0]; [|apply IH, Hr0].
      intros [b Hb]. congruence.
Qed.

(** *** The measurement columns *)

Lemma convert_numeric_cols_map {I O : Type} (df : DataFrame I O) :
  convert_numeric_cols str_to_float df =
  map (fun r => mkRow (StudentID r)
                      (of_float (to_numeric str_to_float (StudyHoursPerDay r)))
                      (of_float (to_numeric str_to_float (TechSkill r)))
                      (of_float (to_numeric str_to_float (Motivation r)))
                      (of_float (to_numeric str_to_float (Age r)))
                      (Internet r) (Device r) (Location r)
                      (OnlineClassPreference r) (DataAccess r)) df.
Proof.
  unfold convert_numeric_cols. simpl.
  rewrite !map_map. reflexivity.
Qed.

Lemma isna_of_float (x : option number) :
  isna (of_float x) = isna_float x.
Proof. destruct x as [[q|b]|]; reflexivity. Qed.

(** *** The whole coercion *)

Lemma clean_data_flat_map (df : DataFrame cell (option string)) :
  (forall r, In r df -> ~ infinite_id str_to_float r) ->
  clean_data str_to_float df = Ok (flat_map (kept str_to_float) df).
Proof.
  intros Hfin. unfold clean_data.
  rewrite (clean_student_id_Ok df Hfin). cbn [bind].
  rewrite convert_numeric_cols_map. f_equal. clear Hfin.
  induction df as [|r df IH]; simpl; [reflexivity|].
  rewrite map_app. unfold dropna in *. rewrite filter_app, IH. f_equal.
  unfold kept, coerce_row.
  destruct (to_numeric str_to_float (StudentID r)) as [[i|b]|]; simpl;
    [|reflexivity|reflexivity].
  rewrite !isna_of_float.
  destruct (to_numeric str_to_float (StudyHoursPerDay r)); simpl; [|reflexivity].
  destruct (to_numeric str_to_float (TechSkill r)); simpl; [|reflexivity].
  destruct (to_numeric str_to_float (Motivation r)); simpl; [|reflexivity].
  destruct (to_numeric str_to_float (Age r)); simpl; reflexivity.
Qed.

Lemma clean_data_Error (df : DataFrame cell (option string)) :
  (exists r, In r df /\ infinite_id str_to_float r) ->
  clean_data str_to_float df = Error ValueError.
Proof.
  intros H. unfold clean_data. rewrite (clean_student_id_Error df H).
  reflexivity.
Qed.

(** What a coercion that returns has returned, and what it raises. *)
Lemma clean_data_Ok (df : DataFrame cell (option string))
  (out : DataFrame Z (option string)) :
  clean_data str_to_float df = Ok out ->
  out = flat_map (kept str_to_float) df /\
  forall r, In r df -> ~ infinite_id str_to_float r.
Proof.
  intros H. destruct (infinite_id_decision df) as [Hinf|Hfin].
  - rewrite (clean_data_Error df Hinf) in H. discriminate.
  - rewrite (clean_data_flat_map df Hfin) in H. injection H as <-.
    split; [reflexivity|exact Hfin].
Qed.

Lemma clean_data_error_kind (df : DataFrame cell (option string)) (e : error) :
  clean_data str_to_float df = Error e -> e = ValueError.
Proof.
  intros H. destruct (infinite_id_decision df) as [Hinf|Hfin].
  - rewrite (clean_data_Error df Hinf) in H. congruence.
  - rewrite (clean_data_flat_map df Hfin) in H. discriminate.
Qed.

Lemma flat_map_kept_length (df : DataFrame cell (option string)) :
  (length (flat_map (kept str_to_float) df) <= length df)%nat.
Proof.
  induction df as [|r df IH]; simpl; [lia|].
  rewrite length_app. unfold kept at 1.
  destruct (coerce_row str_to_float r); simpl; lia.
Qed.

(** Every kept row is the coercion of an input row. *)
Lemma schema_coercion_rows (df : DataFrame cell (option string)) :
  forall r', In r' (flat_map (kept str_to_float) df) ->
    exists r, In r df /\ coerce_row str_to_float r = Some r'.
Proof.
  intros r' Hin. apply in_flat_map in Hin. destruct Hin as [r [Hr Hk]].
  exists r. split; [exact Hr|]. unfold kept in Hk.
  destruct (coerce_row str_to_float r) as [r0|]; simpl in Hk;
    [|contradiction].
  destruct Hk as [<-|[]]. reflexivity.
Qed.

(** The coercion of one row, spelled out. *)
Lemma coerce_row_Some (r : row cell (option string))
  (r' : row Z (option string)) :
  coerce_row str_to_float r = Some r' ->
  (exists i, to_numeric str_to_float (StudentID r) = Some (Finite i) /\
             StudentID r' = float_to_int64 i) /\
  (forall c, to_numeric str_to_float (get c r) <> None /\
             get c r' = of_float (to_numeric str_to_float (get c r))) /\
  Internet r' = Internet r /\
  (forall c, get_nom c r' = get_nom c r).
Proof.
  unfold coerce_row. intros Hc.
  destruct (to_numeric str_to_float (StudentID r)) as [[i|b]|] eqn:Hi;
    [|discriminate|discriminate].
  destruct (to_numeric str_to_float (StudyHoursPerDay r)) as [h|] eqn:Hh;
    [|discriminate].
  destruct (to_numeric str_to_float (TechSkill r)) as [t|] eqn:Ht;
    [|discriminate].
  destruct (to_numeric str_to_float (Motivation r)) as [m|] eqn:Hm;
    [|discriminate].
  destruct (to_numeric str_to_float (Age r)) as [a|] eqn:Ha;
    [|discriminate].
  injection Hc as <-. split; [exists i; split; reflexivity|]. split.
  - intros []; simpl; rewrite ?Hh, ?Ht, ?Hm, ?Ha; split;
      (discriminate || reflexivity).
  - split; [reflexivity|]. intros []; reflexivity.
Qed.

Lemma coerce_row_None (r : row cell (option string)) :
  (to_numeric str_to_float (StudentID r) = None \/
   exists c, to_numeric str_to_float (get c r) = None) ->
  coerce_row str_to_float r = None.
Proof.
  intros Hfail. unfold coerce_row.
  destruct Hfail as [Hid|[c Hc]].
  - rewrite Hid. reflexivity.
  - destruct (to_numeric str_to_float (StudentID r)) as [[i|b]|];
      [|reflexivity|reflexivity].
    destruct (to_numeric str_to_float (StudyHoursPerDay r)) eqn:Hh;
      [|reflexivity].
    destruct (to_numeric str_to_float (TechSkill r)) eqn:Ht; [|reflexivity].
    destruct (to_numeric str_to_float (Motivation r)) eqn:Hm; [|reflexivity].
    destruct (to_numeric str_to_float (Age r)) eqn:Ha; [|reflexivity].
    destruct c; simpl in Hc; congruence.
Qed.

(** The table that [load_and_prepare_data] returns as the original data
    is the outcome of the coercion. *)
Lemma load_and_prepare_data_original (df : DataFrame cell (option string))
  (scaled_data : list (list (option R)))
  (original_df : DataFrame Z (option string)) (feature_columns : list string) :
  load_and_prepare_data str_to_float (Some df) =
    Ok (Some (scaled_data, original_df, feature_columns)) ->
  clean_data str_to_float df = Ok original_df.
Proof.
  unfold load_and_prepare_data. intros H.
  destruct (clean_data str_to_float df) as [out|e]; cbn [bind] in H;
    [|discriminate].
  destruct (drop "StudentID" _) as [f|e]; cbn [bind] in H; [|discriminate].
  destruct (Sklearn.fit_transform (values f)) as [m|e]; cbn [bind] in H;
    [|discriminate].
  injection H as _ <- _. reflexivity.
Qed.

(** C1, as amended.  On a table none of whose identifiers converts to an
    infinity, schema coercion returns and never adds a row; its output is,
    in input order, exactly the rows whose identifier and four measurements
    all convert to numbers, each with its identifier cast to a 64-bit
    integer (its truncation, when that fits) and its measurements
    converted.  A row with any failing conversion contributes nothing: it
    is dropped whole, not repaired.  This output is the table that
    [load_and_prepare_data] returns as the original data.  On a table with
    an identifier that converts to an infinity, coercion raises a value
    error and returns no table. *)
Theorem schema_coercion_keeps_convertible_rows
  (df : DataFrame cell (option string)) :
  ((exists r, In r df /\ infinite_id str_to_float r) ->
   clean_data str_to_float df = Error ValueError /\
   load_and_prepare_data str_to_float (Some df) = Error ValueError) /\
  ((forall r, In r df -> ~ infinite_id str_to_float r) ->
   exists out,
     clean_data str_to_float df = Ok out /\
     (length out <= length df)%nat /\
     out = flat_map (kept str_to_float) df /\
     (forall r', In r' out ->
        in_int64 (StudentID r') /\
        exists r, In r df /\ coerce_row str_to_float r = Some r' /\
          (exists i, to_numeric str_to_float (StudentID r) = Some (Finite i) /\
                     StudentID r' = float_to_int64 i /\
                     (in_int64 (trunc i) -> StudentID r' = trunc i)) /\
          (forall c, to_numeric str_to_float (get c r) <> None /\
                     get c r' = of_float (to_numeric str_to_float (get c r)))) /\
     (forall r, In r df ->
        (to_numeric str_to_float (StudentID r) = None \/
         exists c, to_numeric str_to_float (get c r) = None) ->
        kept str_to_float r = []) /\
     (forall scaled_data original_df feature_columns,
        load_and_prepare_data str_to_float (Some df) =
          Ok (Some (scaled_data, original_df, feature_columns)) ->
        original_df = out)).
Proof.
  split.
  - intros Hinf. pose proof (clean_data_Error df Hinf) as E.
    split; [exact E|]. unfold load_and_prepare_data. rewrite E. reflexivity.
  - intros Hfin. exists (flat_map (kept str_to_float) df).
    split; [apply clean_data_flat_map, Hfin|].
    split; [apply flat_map_kept_length|].
    split; [reflexivity|].
    split; [|split].
    + intros r' Hin. destruct (schema_coercion_rows df r' Hin) as [r [Hr Hc]].
      destruct (coerce_row_Some r Hc) as [[i [Hi Hid]] [Hcols _]].
      split; [rewrite Hid; apply float_to_int64_range|].
      exists r. split; [exact Hr|]. split; [exact Hc|].
      split; [|exact Hcols].
      exists i. split; [exact Hi|]. split; [exact Hid|].
      intros Hfit. rewrite Hid. apply float_to_int64_exact, Hfit.
    + intros r _ Hfail. unfold kept. rewrite (coerce_row_None r Hfail).
      reflexivity.
    + intros scaled_data original_df feature_columns H.
      apply load_and_prepare_data_original in H.
      rewrite (clean_data_flat_map df Hfin) in H. congruence.
Qed.

(** C10, as amended.  In a table none of whose identifiers converts to an
    infinity, a row whose identifier parses as a number that is not an
    integer passes the identifier test: the three identifier statements
    keep it and store the 64-bit cast of the parsed value, its truncation
    (toward zero) whenever that fits.  In the whole coercion the row is
    then dropped only for an unconvertible measurement, and every row kept
    from it carries the truncated identifier. *)
Theorem fractional_identifier_kept_and_truncated
  (df : DataFrame cell (option string)) (r : row cell (option string)) (q : Q) :
  In r df ->
  to_numeric str_to_float (StudentID r) = Some (Finite q) ->
  ~ (inject_Z (trunc q) == q)%Q ->
  (forall r0, In r0 df -> ~ infinite_id str_to_float r0) ->
  (exists ids, clean_student_id str_to_float df = Ok ids /\
               In (set_id (float_to_int64 q) r) ids) /\
  (in_int64 (trunc q) -> float_to_int64 q = trunc q) /\
  ((0 <= q -> inject_Z (trunc q) <= q /\ q < inject_Z (trunc q) + 1)%Q /\
   (q <= 0 -> inject_Z (trunc q) - 1 < q /\ q <= inject_Z (trunc q))%Q) /\
  (kept str_to_float r = [] <->
   exists c, to_numeric str_to_float (get c r) = None) /\
  (forall r', coerce_row str_to_float r = Some r' ->
     StudentID r' = float_to_int64 q /\
     exists out, clean_data str_to_float df = Ok out /\ In r' out).
Proof.
  intros Hin Hq _ Hfin.
  split; [|split; [apply float_to_int64_exact|
                   split; [apply trunc_toward_zero|split]]].
  - eexists. split; [apply clean_student_id_Ok, Hfin|].
    apply in_flat_map. exists r. split; [exact Hin|].
    rewrite Hq. left. reflexivity.
  - split.
    + intros Hk.
      destruct (coerce_row str_to_float r) as [r'|] eqn:Hc;
        [unfold kept in Hk; rewrite Hc in Hk; discriminate|].
      unfold coerce_row in Hc. rewrite Hq in Hc.
      destruct (to_numeric str_to_float (StudyHoursPerDay r)) eqn:Hh;
        [|exists cStudyHoursPerDay; exact Hh].
      destruct (to_numeric str_to_float (TechSkill r)) eqn:Ht;
        [|exists cTechSkill; exact Ht].
      destruct (to_numeric str_to_float (Motivation r)) eqn:Hm;
        [|exists cMotivation; exact Hm].
      destruct (to_numeric str_to_float (Age r)) eqn:Ha;
        [discriminate|exists cAge; exact Ha].
    + intros Hfail. unfold kept.
      rewrite (coerce_row_None r (or_intror Hfail)). reflexivity.
  - intros r' Hc. split.
    + destruct (coerce_row_Some r Hc) as [[i [Hi Hid]] _]. congruence.
    + eexists. split; [apply clean_data_flat_map, Hfin|].
      apply in_flat_map. exists r. split; [exact Hin|].
      unfold kept. rewrite Hc. left. reflexivity.
Qed.

End WithParser.

(** No identifier of the example survey reads as an infinity. *)
Lemma survey_identifiers_finite :
  forall r, In r Examples.survey -> ~ infinite_id Examples.parse_decimal r.
Proof.
  intros r Hr [b Hb]. simpl in Hr.
  destruct Hr as [<-|[<-|[<-|[<-|[]]]]]; vm_compute in Hb; discriminate.
Qed.

(** Of the four rows of the example survey, the header-like row and the
    row with a bad measurement are dropped. *)
Lemma coercion_example :
  exists out,
    clean_data Examples.parse_decimal Examples.survey = Ok out /\
    (length out <= 4)%nat /\
    map (@StudentID Z (option string)) out = [1%Z; 3%Z] /\
    kept Examples.parse_decimal (nth 1 Examples.survey Examples.blank)
      = [].
Proof.
  destruct (@schema_coercion_keeps_convertible_rows Examples.parse_decimal
              Examples.survey) as [_ H].
  destruct (H survey_identifiers_finite) as [out [H1 [H2 [H3 [_ [H5 _]]]]]].
  exists out. split; [exact H1|]. split; [exact H2|].
  split; [rewrite H3; reflexivity|].
  apply H5; [simpl; auto|]. left. reflexivity.
Defined.

(** C1, counterexample.  The second row of this survey has the identifier
    "inf", which converts to a number, an infinity.  Coercion returns no
    table: the cast of the identifier column raises. *)
Lemma infinite_identifier_stops_coercion :
  to_numeric Examples.parse_decimal
    (StudentID (nth 1 Samples.survey_infinite Examples.blank))
    = Some (Infinite false) /\
  clean_data Examples.parse_decimal Samples.survey_infinite
    = Error ValueError /\
  ~ (exists out,
       clean_data Examples.parse_decimal Samples.survey_infinite = Ok out).
Proof.
  assert (E : clean_data Examples.parse_decimal Samples.survey_infinite
              = Error ValueError) by reflexivity.
  split; [reflexivity|]. split; [exact E|].
  intros [out H]. rewrite E in H. discriminate.
Qed.

(** The row with identifier "3.7" of the example survey is kept with
    identifier 3. *)
Lemma fractional_identifier_example :
  (exists ids, clean_student_id Examples.parse_decimal Examples.survey = Ok ids /\
     In (set_id 3%Z (nth 2 Examples.survey Examples.blank)) ids) /\
  exists out, clean_data Examples.parse_decimal Examples.survey = Ok out /\
     map (@StudentID Z (option string)) out = [1%Z; 3%Z].
Proof.
  pose proof (@fractional_identifier_kept_and_truncated Examples.parse_decimal
                Examples.survey
                (Examples.raw "3.7" "4" "5" "2" "22" "Average" "Phone" "Urban"
                              "No" "WiFi")
                (37 # 10)) as H.
  destruct H as [H1 _].
  - simpl. auto.
  - reflexivity.
  - unfold Qeq. simpl. lia.
  - exact survey_identifiers_finite.
  - split; [exact H1|].
    eexists. split; [apply clean_data_flat_map, survey_identifiers_finite|].
    reflexivity.
Defined.

(** C10, counterexample.  The third row of this survey has the non-integral
    identifier "3.7", but the identifier statements keep no row: the
    identifier "inf" of the second row makes the cast of the column
    raise. *)
Lemma fractional_identifier_lost_beside_infinite_one :
  to_numeric Examples.parse_decimal
    (StudentID (nth 2 Samples.survey_infinite Examples.blank))
    = Some (Finite (37 # 10)) /\
  ~ (inject_Z (trunc (37 # 10)) == 37 # 10)%Q /\
  clean_student_id Examples.parse_decimal Samples.survey_infinite
    = Error ValueError /\
  ~ (exists ids,
       clean_student_id Examples.parse_decimal Samples.survey_infinite
       = Ok ids).
Proof.
  assert (E : clean_student_id Examples.parse_decimal Samples.survey_infinite
              = Error ValueError) by reflexivity.
  split; [reflexivity|]. split; [unfold Qeq; simpl; lia|]. split; [exact E|].
  intros [ids H]. rewrite E in H. discriminate.
Qed.

End Coercion.

(** ** String order and sorted category lists *)

Module Categories.
Import Pandas Reference.

Lemma str_lt_trans (a b c : string) : str_lt a b -> str_lt b c -> str_lt a c.
Proof.
  unfold str_lt. intros Hab Hbc.
  apply String_as_OT.cmp_lt. apply String_as_OT.cmp_lt in Hab, Hbc.
  eapply String_as_OT.lt_trans; eassumption.
Qed.

Lemma str_lt_irrefl (a : string) : ~ str_lt a a.
Proof.
  unfold str_lt. intros H.
  assert (E : String.compare a a = Eq) by (apply String_as_OT.cmp_eq; reflexivity).
  congruence.
Qed.

Lemma compare_gt_lt (a b : string) : String.compare a b = Gt -> str_lt b a.
Proof.
  unfold str_lt. intros H. rewrite String_as_OT.cmp_antisym in H.
  change String_as_OT.cmp with String.compare in H.
  destruct (String.compare b a); simpl in H; congruence.
Qed.

Lemma insert_cat_In (s v : string) (l : list string) :
  In v (insert_cat s l) <-> v = s \/ In v l.
Proof.
  induction l as [|x l IH]; simpl.
  - intuition.
  - destruct (String.compare s x) eqn:E; simpl.
    + apply String_as_OT.cmp_eq in E. subst x. intuition.
    + intuition.
    + rewrite IH. intuition.
Qed.

Lemma insert_cat_sorted (s : string) (l : list string) :
  StronglySorted str_lt l -> StronglySorted str_lt (insert_cat s l).
Proof.
  induction 1 as [|x l Hs IH Hx]; simpl.
  - constructor; constructor.
  - destruct (String.compare s x) eqn:E.
    + constructor; assumption.
    + constructor; [constructor; assumption|].
      constructor; [exact E|].
      eapply Forall_impl; [|exact Hx].
      intros y Hy. eapply str_lt_trans; eassumption.
    + constructor; [exact IH|].
      apply Forall_forall. intros y Hy. apply insert_cat_In in Hy.
      destruct Hy as [->|Hy].
      * apply compare_gt_lt, E.
      * rewrite Forall_forall in Hx. apply Hx, Hy.
Qed.

Lemma sorted_NoDup (l : list string) : StronglySorted str_lt l -> NoDup l.
Proof.
  induction 1 as [|x l Hs IH Hx]; constructor; [|exact IH].
  intros Hin. rewrite Forall_forall in Hx.
  exact (str_lt_irrefl (Hx x Hin)).
Qed.

Lemma categories_sorted (col : list (option string)) :
  StronglySorted str_lt (categories col).
Proof.
  induction col as [|[s|] col IH]; simpl.
  - constructor.
  - apply insert_cat_sorted, IH.
  - exact IH.
Qed.

Lemma categories_In (col : list (option string)) (v : string) :
  In v (categories col) <-> In (Some v) col.
Proof.
  induction col as [|[s|] col IH]; simpl.
  - tauto.
  - rewrite insert_cat_In, IH. split; intros [H|H]; auto.
    + left. congruence.
    + left. congruence.
  - rewrite IH. split; [auto|]. intros [H|H]; [discriminate|exact H].
Qed.

Lemma categories_NoDup (col : list (option string)) : NoDup (categories col).
Proof. apply sorted_NoDup, categories_sorted. Qed.

(** The category list only depends on the set of present values. *)
Lemma categories_length_ext (col col' : list (option string)) :
  (forall v, In (Some v) col <-> In (Some v) col') ->
  length (categories col) = length (categories col').
Proof.
  intros H. apply Permutation_length, NoDup_Permutation;
    try apply categories_NoDup.
  intros v. rewrite !categories_In. apply H.
Qed.

Lemma categories_length_new (col col' : list (option string)) (v : string) :
  ~ In (Some v) col ->
  (forall w, In (Some w) col' <-> w = v \/ In (Some w) col) ->
  length (categories col') = S (length (categories col)).
Proof.
  intros Hnew H.
  change (S (length (categories col))) with (length (v :: categories col)).
  apply Permutation_length, NoDup_Permutation.
  - apply categories_NoDup.
  - constructor; [rewrite categories_In; exact Hnew|apply categories_NoDup].
  - intros w. simpl. rewrite !categories_In, H. intuition.
Qed.

End Categories.

(** ** Feature encoding *)

Module Encoding.
Import Pandas ClusterAnalysis Reference Categories.

Lemma internet_lookup (x : option string) (z : Z) :
  map_dict internet_map x = Some z <->
  (x = Some "Slow"%string /\ z = 1%Z) \/
  (x = Some "Average"%string /\ z = 2%Z) \/
  (x = Some "Fast"%string /\ z = 3%Z).
Proof.
  destruct x as [s|]; unfold internet_map; cbn [map_dict dict_get].
  - destruct (String.eqb_spec "Slow" s) as [<-|H1].
    { split; [intros [= <-]; auto|].
      intros [[_ ->]|[[[=] _]|[[=] _]]]. reflexivity. }
    destruct (String.eqb_spec "Average" s) as [<-|H2].
    { split; [intros [= <-]; auto|].
      intros [[[=] _]|[[_ ->]|[[=] _]]]. reflexivity. }
    destruct (String.eqb_spec "Fast" s) as [<-|H3].
    { split; [intros [= <-]; auto|].
      intros [[[=] _]|[[[=] _]|[_ ->]]]. reflexivity. }
    split; [intros [=]|].
    intros [[[= E] _]|[[[= E] _]|[[= E] _]]]; congruence.
  - split; [discriminate|].
    intros [[[=] _]|[[[=] _]|[[=] _]]].
Qed.

Lemma ordinal_lookup_closed (x : option string) :
  (forall z, map_dict internet_map x = Some z <->
     (x = Some "Slow"%string /\ z = 1%Z) \/
     (x = Some "Average"%string /\ z = 2%Z) \/
     (x = Some "Fast"%string /\ z = 3%Z)) /\
  (x <> Some "Slow"%string -> x <> Some "Average"%string ->
   x <> Some "Fast"%string -> map_dict internet_map x = None).
Proof.
  split; [intros z; apply internet_lookup|].
  intros H1 H2 H3.
  destruct (map_dict internet_map x) as [z|] eqn:E; [|reflexivity].
  apply internet_lookup in E.
  destruct E as [[E _]|[[E _]|[E _]]]; contradiction.
Qed.

Lemma ordinal_column (df : DataFrame Z (option string)) :
  get_column "Internet" (encode df) =
  Ok (map (fun r => rank_cell (map_dict internet_map (Internet r))) df).
Proof.
  unfold get_column, encode, get_dummies, map_internet. simpl.
  rewrite !map_map. reflexivity.
Qed.

(** C2. The ordinal column is encoded row by row through one fixed table:
    the encoded column is the image of the original column, whatever the
    order and number of rows; "Slow", "Average" and "Fast" give 1, 2 and 3,
    and a rank is produced for these three values only: every other value
    gives the missing value. *)
Theorem ordinal_encoding_is_a_closed_lookup (df : DataFrame Z (option string)) :
  map (@Internet Z (option Z)) (map_internet df) =
    map (fun r => map_dict internet_map (Internet r)) df /\
  get_column "Internet" (encode df) =
    Ok (map (fun r => rank_cell (map_dict internet_map (Internet r))) df) /\
  map_dict internet_map (Some "Slow"%string) = Some 1%Z /\
  map_dict internet_map (Some "Average"%string) = Some 2%Z /\
  map_dict internet_map (Some "Fast"%string) = Some 3%Z /\
  (forall x z, map_dict internet_map x = Some z <->
     (x = Some "Slow"%string /\ z = 1%Z) \/
     (x = Some "Average"%string /\ z = 2%Z) \/
     (x = Some "Fast"%string /\ z = 3%Z)) /\
  (forall x, x <> Some "Slow"%string -> x <> Some "Average"%string ->
     x <> Some "Fast"%string ->
     map_dict internet_map x = None /\ rank_cell (map_dict internet_map x) = NaN).
Proof.
  split; [|split; [|split; [|split; [|split; [|split]]]]];
    try reflexivity.
  - unfold map_internet. rewrite map_map. reflexivity.
  - unfold get_column, encode, get_dummies, map_internet. simpl.
    rewrite !map_map. reflexivity.
  - apply internet_lookup.
  - intros x H1 H2 H3.
    assert (E : map_dict internet_map x = None).
    { destruct (map_dict internet_map x) as [z|] eqn:E; [|reflexivity].
      apply internet_lookup in E.
      destruct E as [[E _]|[[E _]|[E _]]]; contradiction. }
    rewrite E. split; reflexivity.
Qed.

Lemma column_of_map_internet (df : DataFrame Z (option string)) (c : nomcol) :
  column_of (map_internet df) c = map (get_nom c) df.
Proof.
  unfold column_of, map_internet. rewrite map_map.
  apply map_ext. intros r. destruct c; reflexivity.
Qed.

Lemma dummy_name_inj (c c' : nomcol) (v v' : string) :
  dummy_name c v = dummy_name c' v' -> c = c' /\ v = v'.
Proof.
  unfold dummy_name.
  destruct c, c'; simpl; intros H; try discriminate H;
    (split; [reflexivity|congruence]).
Qed.

Lemma columns_encode (df : DataFrame Z (option string)) :
  columns (encode df) =
  base_columns
    ++ flat_map (fun c => map (dummy_name c) (categories (map (get_nom c) df)))
                categorical_features.
Proof.
  unfold encode, get_dummies, dummy_columns. simpl.
  rewrite !column_of_map_internet. reflexivity.
Qed.

Lemma n_columns_encode (df : DataFrame Z (option string)) :
  length (columns (encode df)) =
  (6 + (length (categories (map (get_nom cDevice) df))
        + length (categories (map (get_nom cLocation) df))
        + length (categories (map (get_nom cOnlineClassPreference) df))
        + length (categories (map (get_nom cDataAccess) df))))%nat.
Proof.
  rewrite columns_encode. simpl.
  rewrite !length_app, !length_map. simpl. lia.
Qed.

Lemma dummy_not_base (c : nomcol) (v : string) :
  ~ In (dummy_name c v) base_columns /\
  (forall c', dummy_name c v <> nomcol_name c').
Proof.
  split.
  - unfold base_columns, dummy_name. simpl.
    intros H. destruct c; simpl in H;
      repeat (destruct H as [H|H]; [discriminate H|]); exact H.
  - intros c'. unfold dummy_name.
    destruct c, c'; simpl; discriminate.
Qed.

Lemma dummy_group_NoDup (c : nomcol) (col : list (option string)) :
  NoDup (map (dummy_name c) (categories col)).
Proof.
  apply NoDup_map_NoDup_ForallPairs; [|apply categories_NoDup].
  intros v v' _ _ H. apply dummy_name_inj in H. tauto.
Qed.

Lemma dummy_groups_disjoint (c c' : nomcol) (l l' : list string) (a : string) :
  c <> c' -> In a (map (dummy_name c) l) -> ~ In a (map (dummy_name c') l').
Proof.
  intros Hc H H'. apply in_map_iff in H, H'.
  destruct H as [v [<- _]], H' as [v' [E _]].
  apply dummy_name_inj in E. destruct E as [E _]. congruence.
Qed.

Lemma columns_encode_NoDup (df : DataFrame Z (option string)) :
  NoDup (columns (encode df)).
Proof.
  rewrite columns_encode. simpl. rewrite app_nil_r.
  change (NoDup (base_columns ++
    map (dummy_name cDevice) (categories (map (get_nom cDevice) df)) ++
    map (dummy_name cLocation) (categories (map (get_nom cLocation) df)) ++
    map (dummy_name cOnlineClassPreference)
        (categories (map (get_nom cOnlineClassPreference) df)) ++
    map (dummy_name cDataAccess) (categories (map (get_nom cDataAccess) df)))).
  apply NoDup_app.
  - unfold base_columns.
    repeat (constructor; [simpl; intros H;
      repeat (destruct H as [H|H]; [discriminate H|]); exact H|]).
    constructor.
  - repeat (apply NoDup_app; [apply dummy_group_NoDup| |]);
      try apply dummy_group_NoDup;
      intros a Ha Hb; repeat (apply in_app_or in Hb; destruct Hb as [Hb|Hb]);
      revert Hb; apply dummy_groups_disjoint with (2 := Ha); discriminate.
  - intros a Ha Hb.
    repeat (apply in_app_or in Hb; destruct Hb as [Hb|Hb]);
      apply in_map_iff in Hb; destruct Hb as [v [<- _]];
      exact (proj1 (dummy_not_base _ v) Ha).
Qed.

Lemma columns_as_keys (df : DataFrame Z (option string)) :
  columns (encode df) =
  base_columns ++ map (fun k => dummy_name (fst k) (snd k)) (dummy_keys df).
Proof.
  rewrite columns_encode. unfold dummy_keys. simpl.
  rewrite !map_app, !map_map. reflexivity.
Qed.

Lemma values_as_keys (df : DataFrame Z (option string)) :
  values (encode df) =
  map (fun r =>
         [Num (inject_Z (StudentID r)); StudyHoursPerDay r; TechSkill r;
          Motivation r; Age r; rank_cell (map_dict internet_map (Internet r))]
           ++ map (fun k => indicator (get_nom (fst k) r) (snd k))
                  (dummy_keys df)) df.
Proof.
  unfold encode, get_dummies, dummy_cells, dummy_keys. simpl.
  rewrite !column_of_map_internet. unfold map_internet. rewrite map_map.
  apply map_ext. intros r. simpl.
  rewrite !map_app, !map_map. reflexivity.
Qed.

Lemma index_of_app_r (name : string) (l1 l2 : list string) :
  ~ In name l1 ->
  index_of name (l1 ++ l2) = option_map (Nat.add (length l1)) (index_of name l2).
Proof.
  induction l1 as [|x l1 IH]; simpl; intros Hn.
  - destruct (index_of name l2); reflexivity.
  - destruct (String.eqb_spec x name) as [->|_]; [tauto|].
    rewrite IH by tauto. destruct (index_of name l2); reflexivity.
Qed.

Lemma index_of_map_inj {K : Type} (f : K -> string) (keys : list K) (k : K) :
  (forall k', In k' keys -> f k' = f k -> k' = k) ->
  In k keys ->
  exists i, index_of (f k) (map f keys) = Some i /\
            forall (B : Type) (g : K -> B) (d : B), nth i (map g keys) d = g k.
Proof.
  induction keys as [|a keys IH]; simpl; intros Hinj Hin; [contradiction|].
  destruct (String.eqb_spec (f a) (f k)) as [E|N].
  - exists O. split; [reflexivity|]. intros B g d.
    rewrite (Hinj a (or_introl eq_refl) E). reflexivity.
  - destruct Hin as [->|Hin]; [congruence|].
    destruct (IH (fun k' H => Hinj k' (or_intror H)) Hin) as [i [Hi Hg]].
    exists (S i). rewrite Hi. split; [reflexivity|exact Hg].
Qed.

Lemma dummy_keys_In (df : DataFrame Z (option string)) (c : nomcol) (v : string) :
  In (c, v) (dummy_keys df) <-> observed c df v.
Proof.
  unfold dummy_keys, observed. rewrite in_flat_map. split.
  - intros [c' [_ H]]. apply in_map_iff in H. destruct H as [w [[= -> ->] H]].
    apply categories_In, H.
  - intros H. exists c. split; [destruct c; simpl; auto|].
    apply in_map, categories_In, H.
Qed.

Lemma observed_insert (c : nomcol) (df1 df2 : DataFrame Z (option string))
  (r : row Z (option string)) (w : string) :
  In (Some w) (map (get_nom c) (df1 ++ r :: df2)) <->
  Some w = get_nom c r \/ In (Some w) (map (get_nom c) (df1 ++ df2)).
Proof.
  rewrite !map_app, !in_app_iff. simpl. intuition congruence.
Qed.

Lemma seen_observed (c : nomcol) (df : DataFrame Z (option string)) (v : string) :
  seen c df v = true <-> observed c df v.
Proof.
  unfold seen, observed. rewrite existsb_exists. split.
  - intros [[w|] [Hin H]]; [|discriminate].
    apply String.eqb_eq in H. subst w. exact Hin.
  - intros H. exists (Some v). split; [exact H|apply String.eqb_refl].
Qed.

(** Inserting a row lengthens the category list of a column by one when
    the row holds a value new to the column, and not at all otherwise. *)
Lemma categories_length_insert (c : nomcol)
  (df1 df2 : DataFrame Z (option string)) (r : row Z (option string)) :
  length (categories (map (get_nom c) (df1 ++ r :: df2))) =
  (length (categories (map (get_nom c) (df1 ++ df2)))
   + if is_new c (df1 ++ df2) r then 1 else 0)%nat.
Proof.
  unfold is_new. destruct (get_nom c r) as [v|] eqn:Ev.
  - destruct (seen c (df1 ++ df2) v) eqn:Es; simpl.
    + rewrite Nat.add_0_r. apply categories_length_ext. intros w.
      rewrite observed_insert, Ev. split; [|auto].
      intros [[= ->]|H]; [|exact H]. apply seen_observed, Es.
    + rewrite Nat.add_1_r.
      apply categories_length_new with (v := v).
      * intros H. apply seen_observed in H. congruence.
      * intros w. rewrite observed_insert, Ev. intuition congruence.
  - simpl. rewrite Nat.add_0_r. apply categories_length_ext. intros w.
    rewrite observed_insert, Ev. intuition discriminate.
Qed.

Lemma n_columns_insert (df1 df2 : DataFrame Z (option string))
  (r : row Z (option string)) :
  length (columns (encode (df1 ++ r :: df2))) =
  (length (columns (encode (df1 ++ df2))) + new_values (df1 ++ df2) r)%nat.
Proof.
  rewrite !n_columns_encode, !categories_length_insert.
  unfold new_values, categorical_features. cbn [filter].
  destruct (is_new cDevice (df1 ++ df2) r),
           (is_new cLocation (df1 ++ df2) r),
           (is_new cOnlineClassPreference (df1 ++ df2) r),
           (is_new cDataAccess (df1 ++ df2) r); cbn [length]; lia.
Qed.

(** C3. In the encoded frame each nominal column has given way to one
    indicator column per value observed in it: the column named after a
    nominal column and a value exists exactly when some row holds the
    value, no name occurs twice, every category (the first included) has
    its column, and the column holds 1 in the rows holding the value and 0
    elsewhere.  Hence the frame has six columns plus, per nominal column,
    as many as it has distinct values, and inserting anywhere a row that
    holds one value never seen in its column (its other nominal values
    seen before, or missing) adds exactly one column; in general the
    insertion adds as many columns as the row holds values new to their
    columns. *)
Theorem nominal_encoding_one_column_per_observed_value
  (df : DataFrame Z (option string)) :
  columns (encode df) =
    base_columns
      ++ flat_map (fun c => map (dummy_name c) (categories (map (get_nom c) df)))
                  categorical_features /\
  NoDup (columns (encode df)) /\
  (forall c, ~ In (nomcol_name c) (columns (encode df))) /\
  (forall c, NoDup (categories (map (get_nom c) df)) /\
             forall v, In v (categories (map (get_nom c) df)) <-> observed c df v) /\
  (forall c v, In (dummy_name c v) (columns (encode df)) <-> observed c df v) /\
  (forall c v, observed c df v ->
     get_column (dummy_name c v) (encode df) =
       Ok (map (fun r => indicator (get_nom c r) v) df)) /\
  (forall x v, indicator x v = Num 1 <-> x = Some v) /\
  length (columns (encode df)) =
    (6 + (length (categories (map (get_nom cDevice) df))
          + length (categories (map (get_nom cLocation) df))
          + length (categories (map (get_nom cOnlineClassPreference) df))
          + length (categories (map (get_nom cDataAccess) df))))%nat /\
  (forall df1 df2 r c v,
     df = df1 ++ df2 ->
     get_nom c r = Some v ->
     ~ observed c df v ->
     (forall c' v', c' <> c -> get_nom c' r = Some v' -> observed c' df v') ->
     length (columns (encode (df1 ++ r :: df2))) =
       S (length (columns (encode df)))) /\
  (forall df1 df2 r,
     df = df1 ++ df2 ->
     length (columns (encode (df1 ++ r :: df2))) =
       (length (columns (encode df)) + new_values df r)%nat).
Proof.
  split; [apply columns_encode|].
  split; [apply columns_encode_NoDup|].
  assert (HD : forall c v,
             In (dummy_name c v) (columns (encode df)) <-> observed c df v).
  { intros c v. rewrite columns_as_keys, in_app_iff, <- dummy_keys_In. split.
    - intros [H|H]; [destruct (proj1 (dummy_not_base c v) H)|].
      apply in_map_iff in H. destruct H as [[c' v'] [E H]]. simpl in E.
      apply dummy_name_inj in E. destruct E as [-> ->]. exact H.
    - intros H. right. apply in_map_iff. exists (c, v). split; [reflexivity|exact H]. }
  split.
  { intros c. rewrite columns_as_keys, in_app_iff. intros [H|H].
    - unfold base_columns in H. destruct c; simpl in H;
        repeat (destruct H as [H|H]; [discriminate H|]); exact H.
    - apply in_map_iff in H. destruct H as [[c' v'] [E _]]. simpl in E.
      exact (proj2 (dummy_not_base c' v') c E). }
  split.
  { intros c. split; [apply categories_NoDup|]. intros v. apply categories_In. }
  split; [exact HD|].
  split.
  { intros c v Hobs. unfold get_column.
    rewrite columns_as_keys, values_as_keys.
    rewrite index_of_app_r by apply dummy_not_base.
    destruct (@index_of_map_inj _ (fun k => dummy_name (fst k) (snd k))
                (dummy_keys df) (c, v)) as [i [Hi Hg]].
    - intros [c' v'] _ E. simpl in E. apply dummy_name_inj in E.
      destruct E as [-> ->]. reflexivity.
    - apply dummy_keys_In, Hobs.
    - simpl in Hi. rewrite Hi. simpl. rewrite map_map. f_equal.
      apply map_ext. intros r.
      exact (Hg _ (fun k => indicator (get_nom (fst k) r) (snd k)) NaN). }
  split.
  { intros x v. unfold indicator. destruct x as [s|].
    - destruct (String.eqb_spec s v) as [->|N].
      + split; reflexivity.
      + split; [discriminate|]. intros [= E]. contradiction.
    - split; discriminate. }
  split; [apply n_columns_encode|].
  split; [|intros df1 df2 r ->; apply n_columns_insert].
  intros df1 df2 r c v -> Hv Hnew Hold.
  rewrite !n_columns_encode.
  assert (Hsame : forall c', c' <> c ->
            length (categories (map (get_nom c') (df1 ++ r :: df2))) =
            length (categories (map (get_nom c') (df1 ++ df2)))).
  { intros c' Hc. apply categories_length_ext. intros w.
    rewrite observed_insert. split; [|auto].
    intros [E|H]; [|exact H]. apply (Hold c' w Hc). symmetry. exact E. }
  assert (Hone : length (categories (map (get_nom c) (df1 ++ r :: df2))) =
                 S (length (categories (map (get_nom c) (df1 ++ df2))))).
  { apply categories_length_new with (v := v); [exact Hnew|].
    intros w. rewrite observed_insert, Hv. intuition congruence. }
  destruct c; rewrite Hone, !Hsame by discriminate; lia.
Qed.

(** The ranks of the four example students. *)
Lemma ordinal_example :
  get_column "Internet" (encode Examples.students) =
  Ok [Num 3; Num 3; Num 1; Num 1].
Proof.
  destruct (@ordinal_encoding_is_a_closed_lookup Examples.students)
    as [_ [H _]].
  rewrite H. reflexivity.
Defined.

(** The example students give twelve columns; a fifth student with a device
    not seen before gives thirteen. *)
Lemma new_category_example :
  length (columns (encode Examples.students)) = 12%nat /\
  length (columns (encode (Examples.students
                             ++ [Examples.student 5 3 "Fast" "Desktop"]))) = 13%nat.
Proof.
  destruct (@nominal_encoding_one_column_per_observed_value Examples.students)
    as [_ [_ [_ [_ [_ [_ [_ [H8 [H9 _]]]]]]]]].
  split; [rewrite H8; reflexivity|].
  rewrite (H9 Examples.students [] (Examples.student 5 3 "Fast" "Desktop")
              cDevice "Desktop"%string).
  - rewrite H8. reflexivity.
  - rewrite app_nil_r. reflexivity.
  - reflexivity.
  - unfold observed. simpl. intuition discriminate.
  - intros c' v' Hc Hv. unfold observed.
    destruct c'; try congruence; simpl in Hv; injection Hv as <-;
      simpl; auto.
Defined.

End Encoding.

(** ** Sums, means and variances of real lists *)

Module Stats.
Import Pandas Sklearn.

Local Open Scope R_scope.

Lemma Rsum_app (l m : list R) : Rsum (l ++ m) = Rsum l + Rsum m.
Proof. induction l as [|x l IH]; simpl; [ring|rewrite IH; ring]. Qed.

Lemma Rsum_shift_scale (m c : R) (l : list R) :
  Rsum (map (fun x => (x - m) * c) l) = (Rsum l - INR (length l) * m) * c.
Proof.
  induction l as [|x l IH].
  - simpl. ring.
  - change (Rsum (map (fun x => (x - m) * c) (x :: l)))
      with ((x - m) * c + Rsum (map (fun x => (x - m) * c) l)).
    rewrite IH. change (length (x :: l)) with (S (length l)).
    rewrite S_INR. simpl. ring.
Qed.

Lemma Rsum_scale (c : R) (f : R -> R) (l : list R) :
  Rsum (map (fun x => c * f x) l) = c * Rsum (map f l).
Proof. induction l as [|x l IH]; simpl; [ring|rewrite IH; ring]. Qed.

Lemma Rsum_nonneg (f : R -> R) (l : list R) :
  (forall x, 0 <= f x) -> 0 <= Rsum (map f l).
Proof.
  intros Hf. induction l as [|x l IH]; simpl; [lra|].
  specialize (Hf x). lra.
Qed.

Lemma Rsum_nonneg_zero (f : R -> R) (l : list R) :
  (forall x, 0 <= f x) -> Rsum (map f l) = 0 -> forall x, In x l -> f x = 0.
Proof.
  intros Hf. induction l as [|y l IH]; simpl; intros H x Hin; [contradiction|].
  pose proof (Hf y). pose proof (Rsum_nonneg f l Hf).
  destruct Hin as [->|Hin]; [lra|]. apply IH; [lra|exact Hin].
Qed.

Lemma INR_length_pos {A : Type} (l : list A) : l <> [] -> 0 < INR (length l).
Proof.
  destruct l; [congruence|]. intros _. apply lt_0_INR. simpl. lia.
Qed.

Lemma Rvar_nonneg (l : list R) : l <> [] -> 0 <= Rvar l.
Proof.
  intros Hl. unfold Rvar. apply Rmult_le_pos.
  - apply Rsum_nonneg with (f := fun x => (x - Rmean l) ^ 2).
    intros x. apply pow2_ge_0.
  - left. apply Rinv_0_lt_compat, INR_length_pos, Hl.
Qed.

(** A list of zero variance is constant. *)
Lemma Rvar_zero_constant (l : list R) :
  l <> [] -> Rvar l = 0 -> forall x, In x l -> x = Rmean l.
Proof.
  intros Hl Hv x Hin. pose proof (INR_length_pos Hl) as Hn.
  unfold Rvar in Hv.
  assert (Hs : Rsum (map (fun x => (x - Rmean l) ^ 2) l) = 0).
  { apply Rmult_integral in Hv. destruct Hv as [Hv|Hv]; [exact Hv|].
    pose proof (Rinv_0_lt_compat _ Hn). lra. }
  pose proof (@Rsum_nonneg_zero (fun x => (x - Rmean l) ^ 2) l
                (fun x => pow2_ge_0 _) Hs x Hin) as H.
  simpl in H. nra.
Qed.

Section Standardized.
Variable l : list R.
Hypothesis nonempty : l <> [].
Hypothesis varying : Rvar l <> 0.

Let z : list R := map (fun x => (x - Rmean l) / sqrt (Rvar l)) l.

Lemma sqrt_Rvar_pos : 0 < sqrt (Rvar l).
Proof.
  apply sqrt_lt_R0. pose proof (Rvar_nonneg nonempty). lra.
Qed.

Lemma standardized_mean : Rmean z = 0.
Proof.
  pose proof (INR_length_pos nonempty) as Hn.
  unfold Rmean at 1, z. rewrite length_map.
  unfold Rdiv at 2. rewrite Rsum_shift_scale.
  pose proof sqrt_Rvar_pos as Hs. unfold Rmean. field. split; lra.
Qed.

Lemma standardized_var : Rvar z = 1.
Proof.
  pose proof (INR_length_pos nonempty) as Hn.
  pose proof sqrt_Rvar_pos as Hs.
  pose proof (Rvar_nonneg nonempty) as Hv.
  unfold Rvar at 1. rewrite standardized_mean.
  unfold z. rewrite map_map, length_map.
  rewrite (map_ext _ (fun x => (/ Rvar l) * (x - Rmean l) ^ 2)).
  - rewrite Rsum_scale with (f := fun x => (x - Rmean l) ^ 2).
    unfold Rvar. unfold Rvar in varying, Hv. field. split; [lra|].
    intros H. apply varying. rewrite H. unfold Rdiv. ring.
  - intros x.
    replace (/ Rvar l) with (/ (sqrt (Rvar l) * sqrt (Rvar l)))
      by (rewrite sqrt_sqrt by exact Hv; reflexivity).
    field. lra.
Qed.

End Standardized.

End Stats.

(** ** Feature scaling *)

Module Scaling.
Import Pandas Sklearn ClusterAnalysis Reference Stats Results Coercion Encoding.

Local Open Scope R_scope.

(** *** The reference statistics *)

Lemma average_Rmean (l : list R) : average l = Rmean l.
Proof. reflexivity. Qed.

Lemma variance_Rvar (l : list R) : variance l = Rvar l.
Proof.
  unfold variance, average, Rvar, Rmean, Rsum. rewrite length_map.
  f_equal. f_equal. apply map_ext. intros x. ring.
Qed.

Lemma std_deviation_Rvar (l : list R) : std_deviation l = sqrt (Rvar l).
Proof. unfold std_deviation. rewrite variance_Rvar. reflexivity. Qed.

Lemma Rvar_nil : Rvar [] = 0.
Proof. unfold Rvar. simpl. unfold Rdiv. ring. Qed.

Lemma Rvar_nonneg_any (l : list R) : 0 <= Rvar l.
Proof.
  destruct l as [|x l]; [rewrite Rvar_nil; lra|].
  apply Rvar_nonneg. discriminate.
Qed.

(** *** One column of the scaled matrix *)

Lemma nth_transform_row (ms ss : list R) (r : list (option R)) (j : nat) :
  (j < length ms)%nat -> (j < length ss)%nat ->
  nth j (transform_row ms ss r) None =
  standardize (nth j ms 0) (nth j ss 0) (nth j r None).
Proof.
  revert ss r j. induction ms as [|m ms IH]; intros ss r j Hm Hs;
    [simpl in Hm; lia|].
  destruct ss as [|s ss]; [simpl in Hs; lia|].
  destruct r as [|x r]; simpl.
  - destruct j; reflexivity.
  - destruct j as [|j]; [reflexivity|].
    apply IH; simpl in Hm, Hs; lia.
Qed.

Lemma nth_map_seq {A : Type} (f : nat -> A) (w j : nat) (d : A) :
  (j < w)%nat -> nth j (map f (seq 0 w)) d = f j.
Proof.
  intros H. rewrite (nth_indep _ d (f O)) by (rewrite length_map, length_seq; exact H).
  rewrite map_nth, seq_nth by exact H. reflexivity.
Qed.

Lemma column_transform (X : list (list (option R))) (j : nat) :
  (j < n_features X)%nat ->
  column j (transform (fit X) X) =
  map (standardize (nanmean (column j X)) (column_scale (column j X)))
      (column j X).
Proof.
  intros Hj.
  unfold column, transform. rewrite !map_map.
  apply map_ext. intros r.
  rewrite nth_transform_row
    by (unfold fit; simpl; rewrite length_map, length_seq; exact Hj).
  unfold fit. simpl. rewrite !nth_map_seq by exact Hj. reflexivity.
Qed.

Lemma present_standardize (m s : R) (col : list (option R)) :
  present (map (standardize m s) col) = map (fun v => (v - m) / s) (present col).
Proof.
  unfold present. induction col as [|[x|] col IH]; simpl; congruence.
Qed.

Lemma present_In {A : Type} (col : list (option A)) (x : A) :
  In x (present col) <-> In (Some x) col.
Proof.
  unfold present. rewrite in_flat_map. split.
  - intros [[y|] [Hy Hx]]; simpl in Hx; [|contradiction].
    destruct Hx as [->|[]]. exact Hy.
  - intros H. exists (Some x). split; [exact H|left; reflexivity].
Qed.

(** The constant-feature test, read as an inequality. *)
Lemma is_constant_feature_true (var mean : R) (n : nat) :
  is_constant_feature var mean n = true <->
  var <= INR n * eps * var + (INR n * mean * eps) ^ 2.
Proof.
  unfold is_constant_feature. destruct (Rle_dec _ _); split; intros H;
    (reflexivity || assumption || discriminate || contradiction).
Qed.

Lemma is_constant_feature_false (var mean : R) (n : nat) :
  is_constant_feature var mean n = false <->
  INR n * eps * var + (INR n * mean * eps) ^ 2 < var.
Proof.
  unfold is_constant_feature. destruct (Rle_dec _ _) as [H|H]; split; intros H';
    try reflexivity; try discriminate; lra.
Qed.

(** A column of zero variance passes the test. *)
Lemma zero_variance_is_constant (mean : R) (n : nat) :
  is_constant_feature 0 mean n = true.
Proof.
  apply is_constant_feature_true.
  pose proof (pow2_ge_0 (INR n * mean * eps)). lra.
Qed.

(** A column that fails the constant-feature test is standardised to mean
    0 and variance 1. *)
Lemma varying_column (col : list (option R)) :
  is_constant_feature (nanvar col) (nanmean col) (length (present col))
    = false ->
  let out := map (standardize (nanmean col) (column_scale col)) col in
  out = map (option_map (fun v => (v - nanmean col) / sqrt (nanvar col))) col /\
  nanmean out = 0 /\ nanvar out = 1.
Proof.
  intros Hc out.
  assert (Hv : nanvar col <> 0).
  { intros E. rewrite E in Hc. rewrite zero_variance_is_constant in Hc.
    discriminate. }
  assert (Hne : present col <> []).
  { intros E. apply Hv. unfold nanvar. rewrite E. apply Rvar_nil. }
  assert (Hout : out = map (option_map
                   (fun v => (v - nanmean col) / sqrt (nanvar col))) col).
  { unfold out, column_scale, handle_zeros_in_scale. rewrite Hc. reflexivity. }
  split; [exact Hout|].
  assert (Hp : present out =
               map (fun x => (x - Rmean (present col)) / sqrt (Rvar (present col)))
                   (present col)).
  { rewrite Hout. apply (present_standardize (nanmean col) (sqrt (nanvar col))). }
  unfold nanmean at 1, nanvar at 1. rewrite Hp.
  pose proof (standardized_mean Hne Hv) as Hm.
  pose proof (standardized_var Hne Hv) as Hs.
  simpl in Hm, Hs. rewrite Hm, Hs.
  split; reflexivity.
Qed.

(** A column that passes the test is only centred. *)
Lemma centred_column (col : list (option R)) :
  is_constant_feature (nanvar col) (nanmean col) (length (present col))
    = true ->
  map (standardize (nanmean col) (column_scale col)) col =
  map (option_map (fun v => v - nanmean col)) col.
Proof.
  intros Hc. unfold column_scale, handle_zeros_in_scale. rewrite Hc.
  apply map_ext. intros [x|]; [|reflexivity]. simpl. f_equal. field.
Qed.

(** A constant column is standardised to zero in every row. *)
Lemma constant_column (col : list (option R)) :
  nanvar col = 0 ->
  map (standardize (nanmean col) (column_scale col)) col =
  map (option_map (fun _ => 0)) col.
Proof.
  intros Hv. rewrite centred_column
    by (rewrite Hv; apply zero_variance_is_constant).
  apply map_ext_in. intros [x|] Hin; [|reflexivity]. simpl. f_equal.
  assert (Hne : present col <> []).
  { intros E. apply present_In in Hin. rewrite E in Hin. exact Hin. }
  rewrite (@Rvar_zero_constant (present col) Hne Hv x)
    by (apply present_In; exact Hin).
  unfold nanmean. ring.
Qed.

(** *** The array handed to the scaler *)

Lemma drop_student_id (original : DataFrame Z (option string)) :
  drop "StudentID" (encode original) =
  Ok (mkFrame (tl (columns (encode original)))
              (map (@tl cell) (values (encode original)))).
Proof.
  unfold drop. rewrite columns_as_keys. reflexivity.
Qed.

Lemma to_float_ok (X : list (list cell)) :
  Forall (Forall accepted) X ->
  mapM (mapM to_float) X = Ok (map (map float_of) X).
Proof.
  induction 1 as [|r X Hr _ IH]; simpl; [reflexivity|].
  assert (E : mapM to_float r = Ok (map float_of r)).
  { induction Hr as [|c r Hc _ IHr]; simpl; [reflexivity|].
    rewrite IHr. destruct c; simpl in *;
      [reflexivity|contradiction|contradiction|reflexivity]. }
  rewrite E, IH. reflexivity.
Qed.

Lemma to_float_error_kind (c : cell) (e : error) :
  to_float c = Error e -> e = ValueError.
Proof. destruct c; simpl; intros H; congruence. Qed.

(** One infinite cell makes the conversion of the frame raise. *)
Lemma to_float_infinite (X : list (list cell)) (r : list cell) (b : bool) :
  In r X -> In (Inf b) r ->
  mapM (mapM to_float) X = Error ValueError.
Proof.
  intros Hr Hc.
  assert (Hkind : forall (x : list cell) e',
            mapM to_float x = Error e' -> e' = ValueError).
  { intros x e' H. apply mapM_error_In in H. destruct H as [c [_ H]].
    apply (to_float_error_kind _ H). }
  apply mapM_first_error.
  - intros x e' _ H. apply (Hkind x e' H).
  - exists r, ValueError. split; [exact Hr|].
    apply mapM_first_error.
    + intros c e' _ H. apply (to_float_error_kind _ H).
    + exists (Inf b), ValueError. split; [exact Hc|reflexivity].
Qed.

Lemma encoded_cells_numeric (original : DataFrame Z (option string)) :
  Forall typed original ->
  Forall (Forall accepted) (map (@tl cell) (values (encode original))).
Proof.
  intros Ht. rewrite values_as_keys, map_map. apply Forall_map.
  eapply Forall_impl; [|exact Ht].
  intros r [h [t [m [a [Eh [Et [Em Ea]]]]]]]. simpl.
  rewrite Eh, Et, Em, Ea.
  repeat (constructor; [exact I|]).
  constructor.
  { unfold rank_cell. destruct (map_dict internet_map (Internet r)); exact I. }
  apply Forall_map, Forall_forall. intros k _. unfold indicator.
  destruct (get_nom (fst k) r) as [s|]; [|exact I].
  destruct (String.eqb s (snd k)); exact I.
Qed.

Lemma encoded_cells_infinite (original : DataFrame Z (option string))
  (r : row Z (option string)) :
  In r original -> holds_infinity r ->
  exists cells b,
    In cells (map (@tl cell) (values (encode original))) /\ In (Inf b) cells.
Proof.
  intros Hin [c [b Hc]]. rewrite values_as_keys, map_map.
  eexists. exists b. split.
  - apply in_map_iff. exists r. split; [reflexivity|exact Hin].
  - cbn [tl app]. rewrite <- Hc. destruct c; simpl; auto.
Qed.

(** The measurements of a coerced row are finite numbers or infinities. *)
Lemma coerced_row_typed_or_infinite (str_to_float : string -> option number)
  (r : row cell (option string)) (r' : row Z (option string)) :
  coerce_row str_to_float r = Some r' -> typed r' \/ holds_infinity r'.
Proof.
  intros Hc. destruct (coerce_row_Some _ _ Hc) as [_ [Hcols _]].
  assert (Hcell : forall c, (exists q, get c r' = Num q) \/
                            (exists b, get c r' = Inf b)).
  { intros c. destruct (Hcols c) as [Hn ->].
    destruct (to_numeric str_to_float (get c r)) as [[q|b]|];
      [left; exists q; reflexivity|right; exists b; reflexivity|congruence]. }
  destruct (Hcell cStudyHoursPerDay) as [[h Hh]|[b Hb]];
    [|right; exists cStudyHoursPerDay, b; exact Hb].
  destruct (Hcell cTechSkill) as [[t Ht]|[b Hb]];
    [|right; exists cTechSkill, b; exact Hb].
  destruct (Hcell cMotivation) as [[m Hm]|[b Hb]];
    [|right; exists cMotivation, b; exact Hb].
  destruct (Hcell cAge) as [[a Ha]|[b Hb]];
    [|right; exists cAge, b; exact Hb].
  left. exists h, t, m, a. simpl in *. repeat split; assumption.
Qed.

Lemma typed_not_infinite (r : row Z (option string)) :
  typed r -> ~ holds_infinity r.
Proof.
  intros [h [t [m [a [Eh [Et [Em Ea]]]]]]] [c [b Hc]].
  destruct c; simpl in Hc; congruence.
Qed.

Lemma features_length (original : DataFrame Z (option string)) :
  length (features original) = length original /\
  Forall (fun r => length r = length (tl (columns (encode original))))
         (features original).
Proof.
  unfold features. rewrite values_as_keys, map_map, length_map.
  split; [reflexivity|].
  apply Forall_map, Forall_forall. intros r _.
  rewrite columns_as_keys. simpl. rewrite !length_map. reflexivity.
Qed.

Lemma transform_row_length (ms ss : list R) (r : list (option R)) :
  length ms = length r -> length ss = length r ->
  length (transform_row ms ss r) = length r.
Proof.
  revert ss r. induction ms as [|m ms IH]; intros ss r Hm Hs.
  - destruct r; [reflexivity|discriminate].
  - destruct r as [|x r]; [discriminate|].
    destruct ss as [|s ss]; [discriminate|].
    simpl in *. f_equal. apply IH; lia.
Qed.

Lemma transform_features_shape (original : DataFrame Z (option string)) :
  original <> [] ->
  let X := features original in
  n_features X = length (tl (columns (encode original))) /\
  length (transform (fit X) X) = length original /\
  Forall (fun r => length r = length (tl (columns (encode original))))
         (transform (fit X) X).
Proof.
  intros Hne X. destruct (features_length original) as [Hlen Hrows].
  fold X in Hlen, Hrows.
  assert (Hw : n_features X = length (tl (columns (encode original)))).
  { destruct X as [|r X'] eqn:E.
    - destruct original; [congruence|discriminate].
    - simpl. inversion Hrows. assumption. }
  split; [exact Hw|]. unfold transform. rewrite length_map.
  split; [exact Hlen|].
  apply Forall_map. eapply Forall_impl; [|exact Hrows].
  intros r Hr. cbv beta in Hr.
  rewrite transform_row_length; unfold fit; cbn [mean_ scale_];
    rewrite ?length_map, ?length_seq; congruence.
Qed.

Section WithParser.
Variable str_to_float : string -> option number.

(** The rows that coercion returns are typed, or one of them holds an
    infinity. *)
Lemma coerced_typed_or_infinite (df : DataFrame cell (option string))
  (original : DataFrame Z (option string)) :
  clean_data str_to_float df = Ok original ->
  Forall typed original \/
  exists r, In r original /\ holds_infinity r.
Proof.
  intros Hclean. apply clean_data_Ok in Hclean. destruct Hclean as [-> _].
  induction df as [|r0 df IH]; [left; constructor|].
  cbn [flat_map]. destruct IH as [IH|[r [Hr Hi]]].
  - unfold kept at 1.
    destruct (coerce_row str_to_float r0) as [r'|] eqn:Hc; [|left; exact IH].
    cbn [app].
    destruct (coerced_row_typed_or_infinite _ _ Hc) as [Ht|Hi].
    + left. constructor; assumption.
    + right. exists r'. split; [|exact Hi].
      apply in_or_app. left. unfold kept. rewrite Hc. left. reflexivity.
  - right. exists r. split; [apply in_or_app; right; exact Hr|exact Hi].
Qed.

(** The function returns when coercion returns at least one row and no
    measurement is infinite; the frame it scales is the encoded frame
    without the identifier column. *)
Lemma load_and_prepare_data_ok (df : DataFrame cell (option string))
  (original : DataFrame Z (option string)) :
  clean_data str_to_float df = Ok original ->
  original <> [] ->
  Forall typed original ->
  load_and_prepare_data str_to_float (Some df) =
  Ok (Some (transform (fit (features original)) (features original),
            original, tl (columns (encode original)))).
Proof.
  intros Hclean Hne Ht. unfold load_and_prepare_data.
  rewrite Hclean. cbn [bind].
  rewrite drop_student_id. cbn [bind columns values].
  unfold fit_transform, check_array_allow_nan.
  rewrite to_float_ok by apply encoded_cells_numeric, Ht.
  rewrite map_map. fold (features original). cbn [bind].
  assert (E : nonempty (features original) = Ok (features original)).
  { unfold features. rewrite values_as_keys.
    destruct original as [|r rest]; [congruence|]. reflexivity. }
  rewrite E. reflexivity.
Qed.

Lemma load_and_prepare_data_empty (df : DataFrame cell (option string)) :
  clean_data str_to_float df = Ok [] ->
  load_and_prepare_data str_to_float (Some df) = Error ValueError.
Proof.
  intros E. unfold load_and_prepare_data. rewrite E. reflexivity.
Qed.

Lemma load_and_prepare_data_unclean (df : DataFrame cell (option string))
  (e : error) :
  clean_data str_to_float df = Error e ->
  load_and_prepare_data str_to_float (Some df) = Error ValueError.
Proof.
  intros E. unfold load_and_prepare_data.
  rewrite E, (clean_data_error_kind _ _ E). reflexivity.
Qed.

(** An infinite measurement in a kept row makes the scaler raise. *)
Lemma load_and_prepare_data_infinite (df : DataFrame cell (option string))
  (original : DataFrame Z (option string)) (r : row Z (option string)) :
  clean_data str_to_float df = Ok original ->
  In r original -> holds_infinity r ->
  load_and_prepare_data str_to_float (Some df) = Error ValueError.
Proof.
  intros Hclean Hin Hinf. unfold load_and_prepare_data.
  rewrite Hclean. cbn [bind].
  rewrite drop_student_id. cbn [bind columns values].
  unfold fit_transform, check_array_allow_nan.
  destruct (encoded_cells_infinite original Hin Hinf) as [cells [b [Hc Hb]]].
  rewrite (to_float_infinite _ _ b Hc Hb). reflexivity.
Qed.

(** The outcomes of the function on a file. *)
Lemma load_and_prepare_data_cases (df : DataFrame cell (option string)) :
  load_and_prepare_data str_to_float (Some df) = Error ValueError \/
  exists original,
    clean_data str_to_float df = Ok original /\
    original <> [] /\ Forall typed original /\
    load_and_prepare_data str_to_float (Some df) =
    Ok (Some (transform (fit (features original)) (features original),
              original, tl (columns (encode original)))).
Proof.
  destruct (clean_data str_to_float df) as [original|e] eqn:Hclean;
    [|left; apply (load_and_prepare_data_unclean _ Hclean)].
  destruct original as [|r0 rest] eqn:Eo;
    [left; apply load_and_prepare_data_empty, Hclean|].
  rewrite <- Eo in *.
  destruct (coerced_typed_or_infinite _ Hclean) as [Ht|[r [Hr Hi]]].
  - right. exists original. split; [reflexivity|].
    split; [rewrite Eo; discriminate|]. split; [exact Ht|].
    apply load_and_prepare_data_ok; [exact Hclean| |exact Ht].
    rewrite Eo. discriminate.
  - left. apply (load_and_prepare_data_infinite _ Hclean Hr Hi).
Qed.

(** C4, as amended.  When coercion leaves at least one row, the function
    scales the encoded frame without its identifier column: "StudentID" is
    the first encoded column and is not among the feature columns.  If a
    kept measurement is infinite the scaler refuses the frame with a value
    error.  Otherwise the scaled matrix has one row per kept row, and for
    each column, with mean and variance taken over its present values:
    when the variance exceeds the scaler's constant-feature bound
    n * eps * variance + (n * mean * eps)^2, the column is replaced by
    (value - mean) / standard deviation and the result has mean 0 and
    standard deviation 1; when it does not, the column counts as constant
    and is only centred, value - mean; a column of zero variance is
    replaced by 0 in each row.  A missing value stays missing. *)
Theorem scaler_standardizes_every_column
  (df : DataFrame cell (option string))
  (original : DataFrame Z (option string)) :
  clean_data str_to_float df = Ok original ->
  original <> [] ->
  let X := features original in
  let scaled := transform (fit X) X in
  hd_error (columns (encode original)) = Some "StudentID"%string /\
  ~ In "StudentID"%string (tl (columns (encode original))) /\
  ((exists r, In r original /\ holds_infinity r) ->
   load_and_prepare_data str_to_float (Some df) = Error ValueError) /\
  (Forall typed original ->
   load_and_prepare_data str_to_float (Some df) =
     Ok (Some (scaled, original, tl (columns (encode original)))) /\
   n_features X = length (tl (columns (encode original))) /\
   length scaled = length original /\
   forall j, (j < n_features X)%nat ->
     let values := present (column j X) in
     let bound :=
       INR (length values) * eps * variance values
       + (INR (length values) * average values * eps) ^ 2 in
     (bound < variance values ->
        column j scaled =
          map (option_map (fun v => (v - average values) / std_deviation values))
              (column j X) /\
        average (present (column j scaled)) = 0 /\
        std_deviation (present (column j scaled)) = 1) /\
     (variance values <= bound ->
        column j scaled =
          map (option_map (fun v => v - average values)) (column j X)) /\
     (variance values = 0 ->
        column j scaled = map (option_map (fun _ => 0)) (column j X))).
Proof.
  intros Hclean Hne X scaled.
  split; [rewrite columns_as_keys; reflexivity|].
  split.
  { pose proof (columns_encode_NoDup original) as Hnd.
    rewrite columns_as_keys in *. simpl in *. inversion Hnd. assumption. }
  split.
  { intros [r [Hr Hi]]. apply (load_and_prepare_data_infinite _ Hclean Hr Hi). }
  intros Ht.
  split; [apply load_and_prepare_data_ok; assumption|].
  destruct (transform_features_shape Hne) as [Hw [Hlen _]].
  split; [exact Hw|]. split; [exact Hlen|].
  intros j Hj values bound. unfold scaled. rewrite (column_transform X Hj).
  unfold bound. rewrite !variance_Rvar, !std_deviation_Rvar, !average_Rmean.
  fold (nanvar (column j X)) (nanmean (column j X)).
  split; [|split].
  - intros Hb. apply is_constant_feature_false in Hb.
    destruct (varying_column _ Hb) as [Hout [Hm Hv]].
    split; [exact Hout|]. split; [exact Hm|].
    unfold nanvar in Hv. rewrite Hv. apply sqrt_1.
  - intros Hb. apply is_constant_feature_true in Hb.
    exact (centred_column _ Hb).
  - intros Hv. exact (@constant_column (column j X) Hv).
Qed.

End WithParser.

(** The example survey keeps two rows; its scaled matrix has two rows and
    no identifier column. *)
Lemma scaler_example :
  exists scaled original feature_columns,
    load_and_prepare_data Examples.parse_decimal (Some Examples.survey) =
      Ok (Some (scaled, original, feature_columns)) /\
    length scaled = 2%nat /\
    ~ In "StudentID"%string feature_columns.
Proof.
  destruct (@scaler_standardizes_every_column Examples.parse_decimal
              Examples.survey
              (flat_map (kept Examples.parse_decimal) Examples.survey))
    as [_ [H2 [_ H4]]].
  - apply clean_data_flat_map, survey_identifiers_finite.
  - discriminate.
  - destruct H4 as [H1 [_ [H5 _]]].
    + repeat constructor; do 4 eexists; repeat split; reflexivity.
    + do 3 eexists. split; [exact H1|]. split; [exact H5|exact H2].
Defined.

(** C4, counterexample.  The study hours of the two students differ, so
    the column has a variance that is not zero; but the variance is below
    the scaler's constant-feature bound, and the scaler only centres the
    column: its scaled values are 2e-17 and -2e-17, with a standard
    deviation that is not 1. *)
Lemma near_constant_column_is_only_centred :
  exists scaled original feature_columns,
    load_and_prepare_data Examples.parse_decimal (Some Samples.survey_noise) =
      Ok (Some (scaled, original, feature_columns)) /\
    nth_error feature_columns 0 = Some "StudyHoursPerDay"%string /\
    map (get cStudyHoursPerDay) original =
      [Num (30000000000000004 # 100000000000000000); Num (3 # 10)] /\
    variance [Q2R (30000000000000004 # 100000000000000000); Q2R (3 # 10)]
      <> 0 /\
    column 0 scaled =
      [Some (2 / 100000000000000000); Some (- 2 / 100000000000000000)] /\
    std_deviation (present (column 0 scaled)) <> 1.
Proof.
  set (original := flat_map (kept Examples.parse_decimal) Samples.survey_noise).
  assert (Hclean : clean_data Examples.parse_decimal Samples.survey_noise
                   = Ok original).
  { apply clean_data_flat_map. intros r Hr [b Hb]. simpl in Hr.
    destruct Hr as [<-|[<-|[]]]; vm_compute in Hb; discriminate. }
  assert (Ht : Forall typed original)
    by (repeat constructor; do 4 eexists; repeat split; reflexivity).
  assert (Hne : original <> []) by discriminate.
  pose proof (@load_and_prepare_data_ok Examples.parse_decimal
                Samples.survey_noise original Hclean Hne Ht) as Hok.
  destruct (transform_features_shape Hne) as [Hw _].
  set (X := features original) in *.
  assert (Hj : (0 < n_features X)%nat).
  { rewrite Hw, columns_as_keys. simpl. lia. }
  set (A := Q2R (30000000000000004 # 100000000000000000)).
  set (B := Q2R (3 # 10)).
  assert (HA : A = 30000000000000004 / 100000000000000000)
    by (unfold A, Q2R; simpl; reflexivity).
  assert (HB : B = 3 / 10) by (unfold B, Q2R; simpl; reflexivity).
  assert (Ecol : column 0 X = [Some A; Some B]).
  { unfold column, X, features. rewrite values_as_keys. reflexivity. }
  assert (Em : nanmean (column 0 X) = (A + B) / 2).
  { rewrite Ecol. unfold nanmean, Rmean. simpl. field. }
  assert (Ev : nanvar (column 0 X) = ((A - B) / 2) ^ 2).
  { unfold nanvar. rewrite Ecol. unfold Rvar, Rmean. simpl. field. }
  assert (Hconst : is_constant_feature (nanvar (column 0 X))
                     (nanmean (column 0 X))
                     (length (present (column 0 X))) = true).
  { apply is_constant_feature_true. rewrite Ev, Em, Ecol.
    cbn [present flat_map app length INR]. unfold eps. rewrite HA, HB. lra. }
  assert (Eout : column 0 (transform (fit X) X) =
                 [Some (2 / 100000000000000000);
                  Some (- 2 / 100000000000000000)]).
  { rewrite (column_transform X Hj), (centred_column _ Hconst), Em, Ecol.
    cbn [map option_map]. rewrite HA, HB.
    f_equal; [f_equal; lra|]. f_equal. f_equal. lra. }
  exists (transform (fit X) X), original, (tl (columns (encode original))).
  split; [exact Hok|].
  split; [rewrite columns_as_keys; reflexivity|].
  split; [reflexivity|].
  split.
  - fold A B. rewrite variance_Rvar. unfold Rvar, Rmean. simpl.
    rewrite HA, HB. lra.
  - split; [exact Eout|].
    rewrite Eout, std_deviation_Rvar. cbn [present flat_map app].
    set (v := Rvar [2 / 100000000000000000; - 2 / 100000000000000000]).
    assert (Hv : v = (2 / 100000000000000000) ^ 2)
      by (unfold v, Rvar, Rmean; simpl; field).
    intros H.
    assert (Hpos : 0 <= v) by apply Rvar_nonneg_any.
    pose proof (sqrt_sqrt v Hpos) as Hs. rewrite H in Hs. lra.
Qed.

End Scaling.

(** ** Cluster fitting *)

Module Fitting.
Import Pandas Sklearn ClusterAnalysis Reference.

Lemma mapM_length {A B : Type} (f : A -> result B) (l : list A) (l' : list B) :
  mapM f l = Ok l' -> length l' = length l.
Proof.
  revert l'. induction l as [|a l IH]; simpl; intros l' H.
  - injection H as <-. reflexivity.
  - destruct (f a) as [b|e]; simpl in H; [|discriminate].
    destruct (mapM f l) as [bs|e]; simpl in H; [|discriminate].
    injection H as <-. simpl. f_equal. apply IH. reflexivity.
Qed.

Lemma nonempty_Ok {A : Type} (X Y : list (list A)) :
  nonempty X = Ok Y -> Y = X /\ X <> [].
Proof.
  destruct X as [|[|x r] X]; simpl; intros H; try discriminate.
  injection H as <-. split; [reflexivity|discriminate].
Qed.

Lemma check_array_length (X : list (list (option R))) (Xc : list (list R)) :
  check_array X = Ok Xc -> length Xc = length X /\ Xc <> [].
Proof.
  unfold check_array. intros H.
  destruct (mapM (mapM finite) X) as [M|e] eqn:E; simpl in H; [|discriminate].
  apply nonempty_Ok in H. destruct H as [-> Hne].
  split; [eapply mapM_length; exact E|exact Hne].
Qed.

Lemma check_array_Error (X : list (list (option R))) (e : error) :
  check_array X = Error e -> e = ValueError.
Proof.
  unfold check_array. intros Ec.
  destruct (mapM (mapM finite) X) as [M|e'] eqn:Em.
  - destruct M as [|[|x r] M]; simpl in Ec; try discriminate;
      injection Ec as <-; reflexivity.
  - simpl in Ec. injection Ec as <-.
    assert (He : forall (l : list (option R)) e0,
              mapM finite l = Error e0 -> e0 = ValueError).
    { induction l as [|[v|] l IH]; simpl; intros e0 H0;
        [discriminate| |injection H0 as <-; reflexivity].
      destruct (mapM finite l); simpl in H0; [discriminate|].
      injection H0 as <-. apply IH. reflexivity. }
    revert e' Em. induction X as [|r X IH]; simpl; intros e' Em;
      [discriminate|].
    destruct (mapM finite r) eqn:Er; simpl in Em.
    + destruct (mapM (mapM finite) X); simpl in Em; [discriminate|].
      injection Em as <-. apply IH. reflexivity.
    + injection Em as <-. apply (He r e Er).
Qed.

Lemma argmin_from_bound (best : nat) (bestv : R) (i : nat) (l : list R) :
  (best < i)%nat -> (argmin_from best bestv i l < i + length l)%nat.
Proof.
  revert best bestv i. induction l as [|v l IH]; simpl; intros best bestv i H.
  - lia.
  - destruct (Rlt_dec v bestv).
    + specialize (IH i v (S i)). lia.
    + specialize (IH best bestv (S i)). lia.
Qed.

Lemma argmin_lt (l : list R) : l <> [] -> (argmin l < length l)%nat.
Proof.
  destruct l as [|v l]; [congruence|]. intros _. simpl.
  pose proof (@argmin_from_bound O v 1 l). lia.
Qed.

Lemma nearest_lt (centers : list (list R)) (x : list R) :
  centers <> [] -> (nearest centers x < length centers)%nat.
Proof.
  intros H. unfold nearest.
  rewrite <- (length_map (sqdist x) centers). apply argmin_lt.
  destruct centers; [congruence|discriminate].
Qed.

Lemma e_step_shape (X centers : list (list R)) :
  centers <> [] ->
  length (e_step X centers) = length X /\
  Forall (fun l => (l < length centers)%nat) (e_step X centers).
Proof.
  intros H. unfold e_step. rewrite length_map. split; [reflexivity|].
  apply Forall_map, Forall_forall. intros x _. apply nearest_lt, H.
Qed.

Section WithGenerator.
Variable rng : Type.
Variable RandomState : Z -> rng.
Variable seeding_draw : rng -> list (list R) -> list (list R) -> nat * rng.
Variable relocated_center :
  list (list R) -> list nat -> list (list R) -> nat -> list R.

Lemma kmeans_plusplus_length (k : nat) (X chosen : list (list R)) (rs : rng) :
  length (fst (kmeans_plusplus seeding_draw k X chosen rs)) =
  (length chosen + k)%nat.
Proof.
  revert chosen rs. induction k as [|k IH]; intros chosen rs; simpl.
  - lia.
  - destruct (seeding_draw rs X chosen) as [i rs'].
    rewrite IH, length_app. simpl. lia.
Qed.

Lemma m_step_length (k : nat) (X : list (list R)) (labels : list nat)
  (centers : list (list R)) :
  length (m_step relocated_center k X labels centers) = k.
Proof.
  unfold m_step.
  destruct (forallb _ _); rewrite length_map, length_seq; reflexivity.
Qed.

Lemma lloyd_assigned (n_iter k : nat) (t : R) (X centers : list (list R))
  (old : option (list nat)) :
  length centers = k ->
  assigned k X (snd (lloyd relocated_center n_iter k t X centers old)).
Proof.
  revert centers old. induction n_iter as [|n IH]; intros centers old Hc; simpl.
  - exists centers. split; [exact Hc|reflexivity].
  - destruct (same_labels (e_step X centers) old).
    + exists centers. split; [exact Hc|reflexivity].
    + destruct (Rle_dec _ t).
      * eexists. split; [apply m_step_length|reflexivity].
      * apply IH, m_step_length.
Qed.

Lemma restarts_assigned (n k : nat) (t : R) (X : list (list R)) (rs : rng)
  (best : option Fitted) :
  (forall b, best = Some b -> assigned k X (labels_ b)) ->
  (best <> None \/ n <> O) ->
  exists b,
    fst (restarts seeding_draw relocated_center n k t X rs best) = Some b /\
    assigned k X (labels_ b).
Proof.
  revert rs best. induction n as [|n IH]; intros rs best Hb Hn; cbn [restarts].
  - cbn [fst]. destruct best as [b|]; [|destruct Hn; congruence].
    exists b. split; [reflexivity|apply Hb; reflexivity].
  - destruct (kmeans_plusplus seeding_draw k X [] rs) as [init rs'] eqn:Ei.
    destruct (lloyd relocated_center max_iter k t X init None)
      as [centers labels] eqn:El.
    assert (Hrun : assigned k X labels).
    { pose proof (@lloyd_assigned max_iter k t X init None) as H.
      rewrite El in H. apply H.
      pose proof (kmeans_plusplus_length k X [] rs) as Hk.
      rewrite Ei in Hk. exact Hk. }
    apply IH.
    + intros b Eb. destruct best as [b0|].
      * simpl in Eb. destruct (Rlt_dec _ _).
        -- destruct (is_same_clustering [] labels (labels_ b0));
             injection Eb as <-; [apply Hb; reflexivity|exact Hrun].
        -- injection Eb as <-. apply Hb; reflexivity.
      * injection Eb as <-. exact Hrun.
    + left. destruct best as [b0|]; [|discriminate].
      destruct (Rlt_dec _ _); [|discriminate].
      destruct (is_same_clustering [] labels (labels_ b0)); discriminate.
Qed.

Lemma assigned_shape (k : nat) (X : list (list R)) (labels : list nat) :
  (0 < k)%nat -> assigned k X labels ->
  length labels = length X /\ Forall (fun l => (l < k)%nat) labels.
Proof.
  intros Hk [centers [Hc ->]]. rewrite <- Hc. apply e_step_shape.
  destruct centers; [simpl in Hc; lia|discriminate].
Qed.

(** What a successful fit returns. *)
Lemma KMeans_fit_Ok (est : KMeans) (global : rng) (X : list (list (option R)))
  (fitted : Fitted) :
  KMeans_fit RandomState seeding_draw relocated_center est global X = Ok fitted ->
  (1 <= n_clusters est <= Z.of_nat (length X))%Z /\
  exists points, length points = length X /\
    assigned (Z.to_nat (n_clusters est)) points (labels_ fitted).
Proof.
  unfold KMeans_fit. intros H.
  destruct (Z.ltb_spec (n_clusters est) 1) as [|Hk]; [discriminate|].
  destruct (Nat.eqb_spec (n_init est) 0) as [|Hi]; [discriminate|].
  destruct (check_array X) as [Xc|e] eqn:Ec; simpl in H; [|discriminate].
  destruct (check_array_length _ Ec) as [Hlen _].
  destruct (Z.ltb_spec (Z.of_nat (length Xc)) (n_clusters est)) as [|Hn];
    [discriminate|].
  set (Xm := map (fun r => zip_with Rminus r (map Rmean (columns_of Xc))) Xc) in *.
  set (t := (Rmean (map Rvar (columns_of Xm)) * tol)%R) in *.
  destruct (@restarts_assigned (n_init est) (Z.to_nat (n_clusters est)) t Xm
              (check_random_state RandomState (random_state est) global) None)
    as [b [Eb Hb]]; [discriminate|right; exact Hi|].
  rewrite Eb in H. injection H as <-. simpl.
  split; [lia|]. exists Xm. split; [|exact Hb].
  unfold Xm. rewrite length_map. exact Hlen.
Qed.

(** A fit with valid parameters on a finite array returns. *)
Lemma KMeans_fit_total (est : KMeans) (global : rng)
  (X : list (list (option R))) (Xc : list (list R)) :
  check_array X = Ok Xc ->
  (1 <= n_clusters est <= Z.of_nat (length X))%Z ->
  n_init est <> O ->
  exists fitted,
    KMeans_fit RandomState seeding_draw relocated_center est global X = Ok fitted.
Proof.
  intros Ec Hk Hi. unfold KMeans_fit.
  destruct (Z.ltb_spec (n_clusters est) 1) as [|_]; [lia|].
  destruct (Nat.eqb_spec (n_init est) 0) as [|_]; [contradiction|].
  rewrite Ec. simpl.
  destruct (check_array_length _ Ec) as [Hlen _].
  destruct (Z.ltb_spec (Z.of_nat (length Xc)) (n_clusters est)) as [|_]; [lia|].
  match goal with
  | |- context [restarts _ _ ?n ?k ?t ?Xm ?rs None] =>
      destruct (@restarts_assigned n k t Xm rs None) as [b [Eb _]];
        [discriminate|right; exact Hi|rewrite Eb]
  end.
  eexists. reflexivity.
Qed.


End WithGenerator.


End Fitting.

(** ** Cluster quality score *)

Module Scoring.
Import Pandas Sklearn ClusterAnalysis Reference Stats Fitting.

Local Open Scope R_scope.

Lemma Rdiv_nonneg (x y : R) : 0 <= x -> 0 <= y -> 0 <= x / y.
Proof.
  intros Hx Hy. unfold Rdiv. destruct (Req_dec_T y 0) as [->|Hn].
  - rewrite Rinv_0. lra.
  - apply Rmult_le_pos; [exact Hx|]. left. apply Rinv_0_lt_compat. lra.
Qed.

Lemma Rsum_Forall_nonneg (l : list R) : Forall (Rle 0) l -> 0 <= Rsum l.
Proof. induction 1; simpl; lra. Qed.

Lemma Rmin_list_nonneg (l : list R) : Forall (Rle 0) l -> 0 <= Rmin_list l.
Proof.
  destruct 1 as [|v l Hv Hl]; simpl; [lra|].
  revert v Hv. induction Hl as [|w l Hw _ IH]; simpl; intros v Hv; [exact Hv|].
  apply IH. apply Rmin_glb; assumption.
Qed.

Lemma dist_sum_nonneg (X : list (list R)) (labels : list nat) (x : list R)
  (l : nat) : 0 <= dist_sum X labels x l.
Proof.
  unfold dist_sum. apply Rsum_Forall_nonneg, Forall_map, Forall_forall.
  intros y _. apply sqrt_pos.
Qed.

Lemma quotient_bound (a b : R) :
  0 <= a -> 0 <= b -> Rmax a b <> 0 -> -1 <= (b - a) / Rmax a b <= 1.
Proof.
  intros Ha Hb Hm.
  assert (Hpos : 0 < Rmax a b).
  { pose proof (Rmax_l a b). pose proof (Rmax_r a b). lra. }
  pose proof (Rmax_l a b) as Hl. pose proof (Rmax_r a b) as Hr.
  split.
  - apply Rmult_le_reg_r with (Rmax a b); [exact Hpos|].
    unfold Rdiv. rewrite Rmult_assoc, Rinv_l by exact Hm. lra.
  - apply Rmult_le_reg_r with (Rmax a b); [exact Hpos|].
    unfold Rdiv. rewrite Rmult_assoc, Rinv_l by exact Hm. lra.
Qed.

Lemma silhouette_sample_bound (X : list (list R)) (labels : list nat)
  (x : list R) (l : nat) :
  -1 <= silhouette_sample X labels x l <= 1.
Proof.
  unfold silhouette_sample.
  destruct (Nat.eqb (cluster_size X labels l) 1); [lra|].
  destruct (Req_dec_T _ 0) as [|Hm]; [lra|].
  apply quotient_bound; [| |exact Hm].
  - unfold intra. apply Rdiv_nonneg; [apply dist_sum_nonneg|apply pos_INR].
  - unfold inter. apply Rmin_list_nonneg, Forall_map, Forall_forall.
    intros l' _. apply Rdiv_nonneg; [apply dist_sum_nonneg|apply pos_INR].
Qed.

Lemma zip_with_Forall {A B C : Type} (P : C -> Prop) (f : A -> B -> C)
  (l : list A) (m : list B) :
  (forall a b, P (f a b)) -> Forall P (zip_with f l m).
Proof.
  intros H. revert m. induction l as [|a l IH]; intros [|b m]; simpl;
    constructor; auto.
Qed.

Lemma Rmean_bound (l : list R) :
  Forall (fun x => -1 <= x <= 1) l -> -1 <= Rmean l <= 1.
Proof.
  intros H. unfold Rmean.
  assert (Hs : - INR (length l) <= Rsum l <= INR (length l)).
  { induction H as [|x l Hx _ IH].
    - simpl. lra.
    - change (length (x :: l)) with (S (length l)). rewrite S_INR. simpl. lra. }
  destruct l as [|x l].
  - simpl. unfold Rdiv. rewrite Rinv_0. lra.
  - assert (Hn : 0 < INR (length (x :: l))) by (apply INR_length_pos; discriminate).
    split.
    + apply Rmult_le_reg_r with (INR (length (x :: l))); [exact Hn|].
      unfold Rdiv. rewrite Rmult_assoc, Rinv_l by lra. lra.
    + apply Rmult_le_reg_r with (INR (length (x :: l))); [exact Hn|].
      unfold Rdiv. rewrite Rmult_assoc, Rinv_l by lra. lra.
Qed.

(** When the score is defined. *)
Lemma silhouette_score_Ok (X : list (list (option R))) (labels : list nat)
  (s : R) :
  silhouette_score X labels = Ok s <->
  exists Xc, check_array X = Ok Xc /\ length labels = length X /\
    (2 <= length (group_keys labels) <= length X - 1)%nat /\
    s = Rmean (silhouette_samples Xc labels).
Proof.
  unfold silhouette_score. split.
  - intros H. destruct (check_array X) as [Xc|e] eqn:Ec; simpl in H;
      [|discriminate].
    destruct (check_array_length _ Ec) as [Hlen _].
    destruct (Nat.eqb_spec (length labels) (length Xc)) as [El|]; simpl in H;
      [|discriminate].
    destruct (Nat.ltb_spec 1 (length (group_keys labels))); simpl in H;
      [|discriminate].
    destruct (Nat.ltb_spec (length (group_keys labels)) (length Xc));
      simpl in H; [|discriminate].
    injection H as <-. exists Xc. repeat split; (lia || congruence).
  - intros [Xc [Ec [El [Hk ->]]]]. rewrite Ec. simpl.
    destruct (check_array_length _ Ec) as [Hlen _].
    destruct (Nat.eqb_spec (length labels) (length Xc)) as [_|N]; [|lia].
    simpl.
    destruct (Nat.ltb_spec 1 (length (group_keys labels))); [|lia].
    destruct (Nat.ltb_spec (length (group_keys labels)) (length Xc)); [|lia].
    reflexivity.
Qed.

Lemma silhouette_score_Error (X : list (list (option R))) (labels : list nat) :
  (forall s, silhouette_score X labels <> Ok s) ->
  silhouette_score X labels = Error ValueError.
Proof.
  unfold silhouette_score. intros H.
  destruct (check_array X) as [Xc|e] eqn:Ec.
  - simpl in *. destruct (negb _); [reflexivity|].
    destruct (_ && _); [|reflexivity]. exfalso. eapply H. reflexivity.
  - simpl. rewrite (check_array_Error _ Ec). reflexivity.
Qed.

Lemma group_keys_single (labels : list nat) :
  Forall (fun l => (l < 1)%nat) labels -> labels <> [] ->
  group_keys labels = [O].
Proof.
  induction 1 as [|l labels Hl Hrest IH]; [congruence|]. intros _.
  assert (l = O) by lia. subst l. unfold group_keys in *. simpl.
  destruct labels as [|l' labels]; [reflexivity|].
  rewrite IH by discriminate. reflexivity.
Qed.

Section WithGenerator.
Variable rng : Type.
Variable RandomState : Z -> rng.
Variable seeding_draw : rng -> list (list R) -> list (list R) -> nat * rng.
Variable relocated_center :
  list (list R) -> list nat -> list (list R) -> nat -> list R.

(** With one cluster the labels are all equal, the score is undefined, and
    the function raises instead of returning the labels. *)
Lemma run_kmeans_one_cluster (global : rng) (scaled_data : list (list (option R))) :
  exists e,
    run_kmeans RandomState seeding_draw relocated_center global scaled_data 1
    = Error e.
Proof.
  unfold run_kmeans.
  destruct (KMeans_fit RandomState seeding_draw relocated_center
              (mkKMeans 1 (Some 42%Z) 10) global scaled_data)
    as [fitted|e] eqn:Hf; simpl; [|exists e; reflexivity].
  destruct (@KMeans_fit_Ok _ _ _ _ _ _ _ _ Hf) as [Hk [points [Hp Ha]]]. simpl in Hk, Ha.
  assert (Hpos : (0 < Z.to_nat 1)%nat) by (simpl; lia).
  destruct (assigned_shape Hpos Ha) as [Hl Hr].
  assert (Hne : labels_ fitted <> []).
  { intros E. rewrite E in Hl. simpl in Hl. lia. }
  assert (Hs : silhouette_score scaled_data (labels_ fitted) = Error ValueError).
  { apply silhouette_score_Error. intros s Hs.
    apply silhouette_score_Ok in Hs. destruct Hs as [_ [_ [_ [Hn _]]]].
    rewrite (group_keys_single Hr Hne) in Hn. simpl in Hn. lia. }
  rewrite Hs. exists ValueError. reflexivity.
Qed.

(** C6 (as amended). The score is defined exactly for a finite array with
    one label per row and from 2 to n - 1 distinct labels; it is then the
    mean of the per-row coefficients and lies in [-1, 1].  The coefficient
    of a row is (b - a) / max(a, b), and 0 for a row alone in its cluster
    (and where max(a, b) is 0).  With a single label, or with as many
    labels as rows, no score is produced: the scorer raises a value error,
    and [run_kmeans] with one cluster raises instead of returning labels. *)
Theorem silhouette_score_range_and_domain
  (scaled_data : list (list (option R))) (labels : list nat) :
  (forall s, silhouette_score scaled_data labels = Ok s <->
     exists Xc, check_array scaled_data = Ok Xc /\
       length labels = length scaled_data /\
       (2 <= length (group_keys labels) <= length scaled_data - 1)%nat /\
       s = Rmean (silhouette_samples Xc labels)) /\
  (forall s, silhouette_score scaled_data labels = Ok s -> -1 <= s <= 1) /\
  (forall Xc x l, -1 <= silhouette_sample Xc labels x l <= 1) /\
  (forall Xc x l, cluster_size Xc labels l = 1%nat ->
     silhouette_sample Xc labels x l = 0) /\
  (forall Xc x l, cluster_size Xc labels l <> 1%nat ->
     Rmax (intra Xc labels x l) (inter Xc labels x l) <> 0 ->
     silhouette_sample Xc labels x l =
       (inter Xc labels x l - intra Xc labels x l)
       / Rmax (intra Xc labels x l) (inter Xc labels x l)) /\
  (length (group_keys labels) = 1%nat \/
   length (group_keys labels) = length scaled_data ->
   silhouette_score scaled_data labels = Error ValueError) /\
  (forall global, exists e,
     run_kmeans RandomState seeding_draw relocated_center global scaled_data 1
     = Error e).
Proof.
  split; [intros s; apply silhouette_score_Ok|].
  split.
  { intros s Hs. apply silhouette_score_Ok in Hs.
    destruct Hs as [Xc [_ [_ [_ ->]]]]. apply Rmean_bound.
    unfold silhouette_samples. apply zip_with_Forall.
    intros x l. apply silhouette_sample_bound. }
  split; [intros; apply silhouette_sample_bound|].
  split.
  { intros Xc x l H. unfold silhouette_sample. rewrite H. reflexivity. }
  split.
  { intros Xc x l H Hm. unfold silhouette_sample.
    destruct (Nat.eqb_spec (cluster_size Xc labels l) 1); [contradiction|].
    destruct (Req_dec_T _ 0); [contradiction|reflexivity]. }
  split.
  { intros H. apply silhouette_score_Error. intros s Hs.
    apply silhouette_score_Ok in Hs. destruct Hs as [_ [_ [_ [Hn _]]]].
    destruct H as [H|H]; rewrite H in Hn; lia. }
  intros global. apply run_kmeans_one_cluster.
Qed.

End WithGenerator.

(** C6, counterexample. On three points, the assignment with one label
    and the assignment into three singleton clusters do not score 0: the
    scorer raises a value error for both. *)
Lemma degenerate_partitions_have_no_score :
  silhouette_score Examples.three_points [0; 0; 0]%nat = Error ValueError /\
  silhouette_score Examples.three_points [0; 1; 2]%nat = Error ValueError /\
  silhouette_score Examples.three_points [0; 0; 0]%nat <> Ok 0 /\
  silhouette_score Examples.three_points [0; 1; 2]%nat <> Ok 0.
Proof.
  assert (H1 : silhouette_score Examples.three_points [0; 0; 0]%nat
               = Error ValueError) by reflexivity.
  assert (H2 : silhouette_score Examples.three_points [0; 1; 2]%nat
               = Error ValueError) by reflexivity.
  rewrite H1, H2. repeat split; discriminate.
Qed.

(** Three points in two clusters have a score, and it lies in [-1, 1]. *)
Lemma score_example :
  exists s, silhouette_score Examples.three_points [0; 0; 1]%nat = Ok s /\
            (-1 <= s <= 1)%R.
Proof.
  destruct (@silhouette_score_range_and_domain
              Examples.toy_rng Examples.toy_RandomState
              Examples.toy_seeding_draw Examples.toy_relocated_center
              Examples.three_points [0; 0; 1]%nat) as [H1 [H2 _]].
  assert (E : silhouette_score Examples.three_points [0; 0; 1]%nat =
              Ok (Rmean (silhouette_samples [[0%R]; [1%R]; [5%R]] [0; 0; 1]%nat))).
  { apply H1. eexists. split; [reflexivity|]. repeat split; simpl; lia. }
  eexists. split; [exact E|]. apply H2, E.
Defined.

End Scoring.

(** ** Cluster profiles *)

Module Profiling.
Import Pandas ClusterAnalysis Reference Categories.

Lemma insert_key_In (k x : nat) (l : list nat) :
  In x (insert_key k l) <-> x = k \/ In x l.
Proof.
  induction l as [|y l IH]; simpl.
  - intuition.
  - destruct (Nat.compare_spec k y) as [->|H|H]; simpl.
    + intuition.
    + intuition.
    + rewrite IH. intuition.
Qed.

Lemma insert_key_sorted (k : nat) (l : list nat) :
  StronglySorted lt l -> StronglySorted lt (insert_key k l).
Proof.
  induction 1 as [|y l Hs IH Hy]; simpl.
  - constructor; constructor.
  - destruct (Nat.compare_spec k y) as [->|H|H].
    + constructor; assumption.
    + constructor; [constructor; assumption|].
      constructor; [exact H|].
      eapply Forall_impl; [|exact Hy]. intros z Hz. simpl in Hz. lia.
    + constructor; [exact IH|].
      apply Forall_forall. intros z Hz. apply insert_key_In in Hz.
      destruct Hz as [->|Hz]; [exact H|].
      rewrite Forall_forall in Hy. apply Hy, Hz.
Qed.

Lemma group_keys_In (labels : list nat) (k : nat) :
  In k (group_keys labels) <-> In k labels.
Proof.
  unfold group_keys. induction labels as [|l labels IH]; simpl; [tauto|].
  rewrite insert_key_In, IH. intuition.
Qed.

Lemma group_keys_sorted (labels : list nat) :
  StronglySorted lt (group_keys labels).
Proof.
  unfold group_keys. induction labels as [|l labels IH]; simpl.
  - constructor.
  - apply insert_key_sorted, IH.
Qed.

Lemma group_keys_NoDup (labels : list nat) : NoDup (group_keys labels).
Proof.
  pose proof (group_keys_sorted labels) as H.
  induction H as [|x l Hs IH Hx]; constructor; [|exact IH].
  intros Hin. rewrite Forall_forall in Hx. specialize (Hx x Hin). lia.
Qed.

(** *** Modes *)

Lemma count_zero (w : string) (l : list string) :
  ~ In w l -> count w l = O.
Proof.
  unfold count. induction l as [|x l IH]; simpl; intros H; [reflexivity|].
  destruct (String.eqb_spec w x) as [->|_]; [tauto|]. apply IH. tauto.
Qed.

Lemma count_pos (w : string) (l : list string) :
  In w l -> (0 < count w l)%nat.
Proof.
  unfold count. induction l as [|x l IH]; simpl; intros H; [contradiction|].
  destruct (String.eqb_spec w x) as [->|N]; simpl; [lia|].
  destruct H as [->|H]; [congruence|]. apply IH, H.
Qed.

Lemma max_list_ge (f : string -> nat) (l : list string) (v : string) :
  In v l -> (f v <= fold_right Nat.max O (map f l))%nat.
Proof.
  induction l as [|x l IH]; simpl; intros H; [contradiction|].
  destruct H as [->|H]; [lia|]. specialize (IH H). lia.
Qed.

Lemma max_list_attained (f : string -> nat) (l : list string) :
  l <> [] -> exists v, In v l /\ f v = fold_right Nat.max O (map f l).
Proof.
  induction l as [|x l IH]; [congruence|]. intros _. simpl.
  destruct l as [|y l].
  - exists x. split; [left; reflexivity|]. simpl. lia.
  - destruct IH as [v [Hv Ev]]; [discriminate|].
    destruct (Nat.le_ge_cases (f x) (fold_right Nat.max O (map f (y :: l)))).
    + exists v. split; [right; exact Hv|]. lia.
    + exists x. split; [left; reflexivity|]. lia.
Qed.

Lemma present_Some {A : Type} (col : list (option A)) (x : A) :
  In x (present col) <-> In (Some x) col.
Proof.
  unfold present. rewrite in_flat_map. split.
  - intros [[y|] [Hy Hx]]; simpl in Hx; [|contradiction].
    destruct Hx as [->|[]]. exact Hy.
  - intros H. exists (Some x). split; [exact H|left; reflexivity].
Qed.

Lemma Series_mode_In (col : list (option string)) (v : string) :
  In v (Series_mode col) <-> is_mode col v.
Proof.
  unfold Series_mode, is_mode. rewrite filter_In, categories_In.
  set (cnt := fun w => count w (present col)).
  set (top := fold_right Nat.max O (map cnt (categories col))).
  change (In (Some v) col /\ Nat.eqb (cnt v) top = true <->
          In (Some v) col /\ forall w, (cnt w <= cnt v)%nat).
  split; intros [Hin H]; (split; [exact Hin|]).
  - apply Nat.eqb_eq in H. intros w.
    destruct (in_dec string_dec w (categories col)) as [Hw|Hw].
    + rewrite H. apply max_list_ge, Hw.
    + unfold cnt at 1. rewrite count_zero; [lia|].
      rewrite present_Some, <- categories_In. exact Hw.
  - apply Nat.eqb_eq.
    assert (Hv : In v (categories col)) by (apply categories_In; exact Hin).
    pose proof (max_list_ge cnt _ _ Hv) as Hle.
    destruct (@max_list_attained cnt (categories col)) as [u [_ Eu]].
    { intros E. rewrite E in Hv. exact Hv. }
    specialize (H u). fold top in Hle, Eu. lia.
Qed.

Lemma filter_sorted (f : string -> bool) (l : list string) :
  StronglySorted str_lt l -> StronglySorted str_lt (filter f l).
Proof.
  induction 1 as [|x l Hs IH Hx]; simpl; [constructor|].
  destruct (f x); [|exact IH].
  constructor; [exact IH|].
  apply Forall_forall. intros y Hy. apply filter_In in Hy.
  rewrite Forall_forall in Hx. apply Hx, Hy.
Qed.

(** The first entry of [Series.mode()] is the least of the modes in the
    order of strings; there is none exactly when the column has no
    present value. *)
Lemma first_mode_is_least (col : list (option string)) :
  (forall v, hd_error (Series_mode col) = Some v ->
     is_mode col v /\ forall w, is_mode col w -> v = w \/ str_lt v w) /\
  (hd_error (Series_mode col) = None <-> present col = []).
Proof.
  split.
  - intros v Hv.
    assert (Hs : StronglySorted str_lt (Series_mode col)).
    { unfold Series_mode. apply filter_sorted, categories_sorted. }
    destruct (Series_mode col) as [|x l] eqn:E; [discriminate|].
    injection Hv as ->. split.
    + apply Series_mode_In. rewrite E. left. reflexivity.
    + intros w Hw. apply Series_mode_In in Hw. rewrite E in Hw.
      destruct Hw as [->|Hw]; [left; reflexivity|right].
      inversion Hs as [|? ? _ Hall]; subst.
      rewrite Forall_forall in Hall. apply Hall, Hw.
  - split.
    + intros H. destruct (present col) as [|x l] eqn:Ep; [reflexivity|].
      exfalso.
      assert (Hc : categories col <> []).
      { intros E. assert (Hx : In x (categories col)).
        { apply categories_In, present_Some. rewrite Ep. left. reflexivity. }
        rewrite E in Hx. exact Hx. }
      destruct (@max_list_attained (fun w => count w (present col))
                  (categories col) Hc) as [u [Hu Eu]].
      assert (Hm : In u (Series_mode col)).
      { unfold Series_mode. apply filter_In. split; [exact Hu|].
        apply Nat.eqb_eq. exact Eu. }
      destruct (Series_mode col); [exact Hm|discriminate].
    + intros Ep. destruct (Series_mode col) as [|x l] eqn:E; [reflexivity|].
      exfalso. assert (Hx : In x (Series_mode col)) by (rewrite E; left; reflexivity).
      apply Series_mode_In in Hx. destruct Hx as [Hx _].
      apply present_Some in Hx. rewrite Ep in Hx. exact Hx.
Qed.

(** *** Means *)

Lemma numbers_typed (col : list cell) :
  Forall (fun c => exists q, c = Num q) col ->
  numbers col = Ok (map Finite (map cell_value col)).
Proof.
  induction 1 as [|c col [q ->] _ IH]; simpl; [reflexivity|].
  rewrite IH. reflexivity.
Qed.

Lemma finite_values_map (l : list Q) : finite_values (map Finite l) = l.
Proof.
  unfold finite_values. induction l as [|q l IH]; simpl; congruence.
Qed.

Lemma has_infinity_map (negative : bool) (l : list Q) :
  has_infinity negative (map Finite l) = false.
Proof.
  unfold has_infinity. induction l as [|q l IH]; simpl;
    [reflexivity|assumption].
Qed.

Lemma mean_typed (col : list cell) :
  col <> [] ->
  Forall (fun c => exists q, c = Num q) col ->
  Pandas.mean col =
  Ok (Some (Finite (Qsum (map cell_value col)
                    / inject_Z (Z.of_nat (length col)))%Q)).
Proof.
  intros Hne H. unfold Pandas.mean. rewrite (numbers_typed H). cbn [bind].
  rewrite !has_infinity_map, finite_values_map, !length_map.
  destruct col as [|c col]; [congruence|]. reflexivity.
Qed.

Lemma typed_get (r : row Z (option string)) (c : numcol) :
  typed r -> exists q, get c r = Num q.
Proof.
  intros [h [t [m [a [Eh [Et [Em Ea]]]]]]].
  destruct c; simpl; eauto.
Qed.

(** *** Groups *)

Lemma group_rows_In {A : Type} (df : list A) (labels : list nat) (k : nat)
  (r : A) :
  In r (group_rows (combine df labels) k) -> In r df.
Proof.
  unfold group_rows. intros H. apply in_map_iff in H.
  destruct H as [[r' l] [<- H]]. apply filter_In in H. destruct H as [H _].
  eapply in_combine_l, H.
Qed.

Lemma group_rows_nonempty {A : Type} (df : list A) (labels : list nat) (k : nat) :
  length labels = length df -> In k labels ->
  group_rows (combine df labels) k <> [].
Proof.
  unfold group_rows. revert labels.
  induction df as [|r df IH]; intros [|l labels] Hlen Hin; simpl in *;
    try discriminate; try contradiction.
  destruct (Nat.eqb_spec l k) as [->|N]; simpl; [discriminate|].
  destruct Hin as [->|Hin]; [congruence|]. apply IH; [lia|exact Hin].
Qed.

Lemma mapM_map {A B : Type} (f : A -> result B) (g : A -> B) (l : list A) :
  (forall x, In x l -> f x = Ok (g x)) -> mapM f l = Ok (map g l).
Proof.
  induction l as [|a l IH]; simpl; intros H; [reflexivity|].
  rewrite (H a) by (left; reflexivity). simpl.
  rewrite IH by (intros x Hx; apply H; right; exact Hx). reflexivity.
Qed.

Lemma combine_map_key {A B C : Type} (f : A -> B) (g : A -> C) (l : list A) :
  combine l (combine (map f l) (map g l)) = map (fun k => (k, (f k, g k))) l.
Proof. induction l as [|a l IH]; simpl; [reflexivity|rewrite IH; reflexivity]. Qed.

Lemma max_lengths_pos (modes : list (list string)) :
  (exists m, In m modes /\ m <> []) ->
  exists h, fold_right Nat.max O (map (@length string) modes) = S h.
Proof.
  intros [m [Hin Hne]].
  assert (H : (1 <= fold_right Nat.max O (map (@length string) modes))%nat).
  { induction modes as [|x modes IH]; [contradiction|].
    cbn [map fold_right]. destruct Hin as [->|Hin].
    - destruct m as [|v m]; [congruence|]. cbn [length]. lia.
    - specialize (IH Hin). lia. }
  destruct (fold_right Nat.max O (map (@length string) modes)) as [|h];
    [lia|]. exists h. reflexivity.
Qed.

Lemma DataFrame_mode_first_row (cols : list (list (option string))) :
  (exists col, In col cols /\ present col <> []) ->
  iloc0 (DataFrame_mode cols) =
  Ok (map (fun col => hd_error (Series_mode col)) cols).
Proof.
  intros [col [Hin Hp]]. unfold DataFrame_mode.
  destruct (@max_lengths_pos (map Series_mode cols)) as [h Eh].
  { exists (Series_mode col). split; [apply in_map, Hin|].
    intros E. apply Hp. apply first_mode_is_least. rewrite E. reflexivity. }
  rewrite Eh. simpl. f_equal. rewrite map_map.
  apply map_ext. intros c. destruct (Series_mode c); reflexivity.
Qed.

Lemma map_snd_combine {A B : Type} (l : list A) (m : list B) :
  length m = length l -> map snd (combine l m) = m.
Proof.
  revert m. induction l as [|a l IH]; intros [|b m] H; simpl in *;
    try discriminate; [reflexivity|].
  f_equal. apply IH. lia.
Qed.

Lemma group_rows_nth {A : Type} (df : list A) (labels : list nat) (k : nat)
  (r : A) :
  In r (group_rows (combine df labels) k) <->
  exists i, nth_error df i = Some r /\ nth_error labels i = Some k.
Proof.
  unfold group_rows. revert labels.
  induction df as [|a df IH]; intros labels.
  - simpl. split; [contradiction|]. intros [[|i] [H _]]; discriminate.
  - destruct labels as [|l labels].
    + simpl. split; [contradiction|]. intros [[|i] [_ H]]; discriminate.
    + simpl. destruct (Nat.eqb_spec l k) as [->|N]; simpl.
      * rewrite IH. split.
        -- intros [->|[i Hi]]; [exists O; split; reflexivity|].
           exists (S i). exact Hi.
        -- intros [[|i] [H1 H2]]; simpl in *.
           ++ left. congruence.
           ++ right. exists i. split; assumption.
      * rewrite IH. split.
        -- intros [i Hi]. exists (S i). exact Hi.
        -- intros [[|i] [H1 H2]]; simpl in *; [congruence|].
           exists i. split; assumption.
Qed.

(** C7 (as amended). For labels aligned with typed rows, where every
    cluster has a row holding some categorical value, the profiler returns
    one line per distinct label, in increasing order of the labels.  The line of a label holds,
    for each measurement column, the arithmetic mean over the rows with
    that label, and, for each of the five text columns, the most frequent
    value among those rows; among equally frequent values it is the least
    in the order of strings.  The value is one of the original texts of the
    column, and the entry is missing only when the column has no value in
    the group. *)
Theorem cluster_profile_means_and_least_modes
  (original_data : DataFrame Z (option string)) (labels : list nat) :
  length labels = length original_data ->
  Forall typed original_data ->
  (forall k, In k labels ->
     exists r, In r (group_rows (combine original_data labels) k) /\
               has_category r) ->
  let rows := fun k => group_rows (combine original_data labels) k in
  analyze_clusters original_data labels =
    Ok (map (fun k =>
               (k,
                (map (fun c =>
                        Some (Finite
                                (Qsum (map (fun r => cell_value (get c r))
                                           (rows k))
                                 / inject_Z (Z.of_nat (length (rows k))))%Q))
                     numeric_cols,
                 map (fun c => hd_error (Series_mode (map (get_cat c) (rows k))))
                     categorical_cols)))
            (group_keys labels)) /\
  NoDup (group_keys labels) /\
  StronglySorted lt (group_keys labels) /\
  (forall k, In k (group_keys labels) <-> In k labels) /\
  (forall k r, In r (rows k) <->
     exists i, nth_error original_data i = Some r /\ nth_error labels i = Some k) /\
  (forall k, In k labels -> rows k <> []) /\
  (forall k c v,
     hd_error (Series_mode (map (get_cat c) (rows k))) = Some v ->
     is_mode (map (get_cat c) (rows k)) v /\
     (forall w, is_mode (map (get_cat c) (rows k)) w -> v = w \/ str_lt v w) /\
     In (Some v) (map (get_cat c) original_data)) /\
  (forall k c,
     hd_error (Series_mode (map (get_cat c) (rows k))) = None <->
     forall r, In r (rows k) -> get_cat c r = None).
Proof.
  intros Hlen Htyped Hcat rows.
  assert (Hne : forall k, In k labels -> rows k <> []).
  { intros k Hk. apply group_rows_nonempty; assumption. }
  assert (Hsub : forall k r, In r (rows k) -> In r original_data).
  { intros k r. apply group_rows_In. }
  split.
  { unfold analyze_clusters, assign_labels.
    rewrite Hlen, Nat.eqb_refl. cbn [bind].
    rewrite (map_snd_combine _ _ Hlen). fold rows.
    rewrite (@mapM_map _ _ _
               (fun k => map (fun c =>
                  Some (Finite
                          (Qsum (map (fun r => cell_value (get c r)) (rows k))
                           / inject_Z (Z.of_nat (length (rows k))))%Q))
                  numeric_cols)).
    2:{ intros k Hk. rewrite group_keys_In in Hk. apply mapM_map.
        intros c _. fold (rows k).
        rewrite mean_typed.
        - rewrite map_map, length_map. reflexivity.
        - intros E. apply map_eq_nil in E. exact (Hne k Hk E).
        - apply Forall_map, Forall_forall. intros r Hr. apply typed_get.
          rewrite Forall_forall in Htyped. apply Htyped, (Hsub k), Hr. }
    cbn [bind].
    rewrite (@mapM_map _ _ _
               (fun k => map (fun c =>
                  hd_error (Series_mode (map (get_cat c) (rows k))))
                  categorical_cols)).
    2:{ intros k Hk. rewrite group_keys_In in Hk. fold (rows k).
        rewrite DataFrame_mode_first_row; [rewrite map_map; reflexivity|].
        destruct (Hcat k Hk) as [r [Hr [c [v Hv]]]]. fold (rows k) in Hr.
        exists (map (get_cat c) (rows k)). split.
        - apply in_map_iff. exists c. split; [reflexivity|].
          destruct c; simpl; auto 6.
        - intros E. assert (Hin : In v (present (map (get_cat c) (rows k)))).
          { apply present_Some, in_map_iff. exists r. split; assumption. }
          rewrite E in Hin. exact Hin. }
    cbn [bind]. rewrite combine_map_key. reflexivity. }
  split; [apply group_keys_NoDup|].
  split; [apply group_keys_sorted|].
  split; [apply group_keys_In|].
  split; [intros k r; apply group_rows_nth|].
  split; [exact Hne|].
  split.
  - intros k c v Hv.
    destruct (first_mode_is_least (map (get_cat c) (rows k))) as [H _].
    destruct (H v Hv) as [Hm Hleast].
    split; [exact Hm|]. split; [exact Hleast|].
    destruct Hm as [Hin _]. apply in_map_iff in Hin.
    destruct Hin as [r [Er Hr]]. apply in_map_iff. exists r.
    split; [exact Er|]. apply (Hsub k), Hr.
  - intros k c.
    destruct (first_mode_is_least (map (get_cat c) (rows k))) as [_ H].
    rewrite H. split.
    + intros E r Hr. destruct (get_cat c r) as [v|] eqn:Ev; [|reflexivity].
      exfalso. assert (Hin : In v (present (map (get_cat c) (rows k)))).
      { apply present_Some, in_map_iff. exists r. split; assumption. }
      rewrite E in Hin. exact Hin.
    + intros Hall. destruct (present (map (get_cat c) (rows k))) as [|v l] eqn:E;
        [reflexivity|]. exfalso.
      assert (Hin : In v (present (map (get_cat c) (rows k))))
        by (rewrite E; left; reflexivity).
      apply present_Some, in_map_iff in Hin. destruct Hin as [r [Er Hr]].
      rewrite (Hall r Hr) in Er. discriminate.
Qed.

(** The example profile: two lines, for the labels 0 and 1. *)
Lemma profile_example :
  exists summary,
    analyze_clusters Examples.students Examples.students_labels = Ok summary /\
    map fst summary = [0; 1]%nat.
Proof.
  destruct (@cluster_profile_means_and_least_modes
              Examples.students Examples.students_labels) as [H _].
  - reflexivity.
  - repeat constructor; do 4 eexists; repeat split; reflexivity.
  - intros k Hk.
    assert (E : k = 0%nat \/ k = 1%nat) by (simpl in Hk; intuition).
    destruct E as [-> | ->]; eexists; (split; [left; reflexivity|]);
      exists kDevice; eexists; reflexivity.
  - eexists. split; [exact H|]. rewrite map_map. reflexivity.
Defined.

(** C7, counterexample. In cluster 0 of the example the devices "Phone"
    and "Laptop" occur once each and "Phone" comes first in row order; the
    profile shows "Laptop". *)
Lemma mode_tie_is_not_first_encountered :
  (exists means modes rest,
     analyze_clusters Examples.students Examples.students_labels
       = Ok ((O, (means, modes)) :: rest) /\
     nth_error modes 0 = Some (Some "Laptop"%string) /\
     nth_error modes 0 <>
       Some (mode_first_encountered
               (map (get_cat kDevice)
                    (group_rows (combine Examples.students
                                         Examples.students_labels) 0)))) /\
  mode_first_encountered
    (map (get_cat kDevice)
         (group_rows (combine Examples.students Examples.students_labels) 0))
    = Some "Phone"%string /\
  str_lt "Laptop" "Phone".
Proof.
  split; [|split; reflexivity].
  do 3 eexists. split; [reflexivity|]. split; [reflexivity|discriminate].
Qed.

End Profiling.

(** * Properties across the stages of the script *)

(** ** The outcomes of [load_and_prepare_data] *)

Module Pipeline.
Import Pandas Sklearn ClusterAnalysis Reference Derived Coercion Encoding Scaling.

Section WithParser.
Variable str_to_float : string -> option number.

(** The function has one way to return nothing and four outcomes on a
    file.  Without a file it returns its triple of [None]s.  With a file it
    raises a value error when an identifier converts to an infinity (the
    cast to integers fails), when coercion leaves no row (the scaler
    refuses an empty array) and when a kept measurement is infinite (the
    scaler refuses it); otherwise it returns the scaled matrix, with one
    row per kept row and one cell per feature column, together with the
    kept rows.  These cases are all there are, and a value error is the
    only error. *)
Theorem load_and_prepare_data_outcomes (df : DataFrame cell (option string)) :
  load_and_prepare_data str_to_float None = Ok None /\
  ((exists r, In r df /\ infinite_id str_to_float r) ->
   load_and_prepare_data str_to_float (Some df) = Error ValueError) /\
  (forall original,
     clean_data str_to_float df = Ok original ->
     (original = [] ->
      load_and_prepare_data str_to_float (Some df) = Error ValueError) /\
     ((exists r, In r original /\ holds_infinity r) ->
      load_and_prepare_data str_to_float (Some df) = Error ValueError) /\
     (original <> [] -> Forall typed original ->
      exists scaled_data feature_columns,
        load_and_prepare_data str_to_float (Some df) =
          Ok (Some (scaled_data, original, feature_columns)) /\
        length scaled_data = length original /\
        Forall (fun row => length row = length feature_columns) scaled_data)) /\
  ((exists r, In r df /\ infinite_id str_to_float r) \/
   exists original,
     clean_data str_to_float df = Ok original /\
     (original = [] \/
      (exists r, In r original /\ holds_infinity r) \/
      (original <> [] /\ Forall typed original))) /\
  (forall e, load_and_prepare_data str_to_float (Some df) = Error e ->
             e = ValueError).
Proof.
  split; [reflexivity|]. split; [|split; [|split]].
  - intros Hinf.
    apply (@load_and_prepare_data_unclean str_to_float df _
             (@clean_data_Error str_to_float df Hinf)).
  - intros original Hclean. split; [|split].
    + intros ->. apply load_and_prepare_data_empty, Hclean.
    + intros [r [Hr Hi]]. apply (@load_and_prepare_data_infinite str_to_float df original r
                    Hclean Hr Hi).
    + intros Hne Ht. do 2 eexists.
      split; [apply (@load_and_prepare_data_ok str_to_float df original
                      Hclean Hne Ht)|].
      destruct (transform_features_shape Hne) as [_ [Hlen Hrows]].
      split; [exact Hlen|exact Hrows].
  - destruct (infinite_id_decision str_to_float df) as [Hinf|Hfin];
      [left; exact Hinf|].
    right. exists (flat_map (kept str_to_float) df).
    pose proof (@clean_data_flat_map str_to_float df Hfin) as Hclean.
    split; [exact Hclean|].
    destruct (flat_map (kept str_to_float) df) as [|r0 rest] eqn:E;
      [left; reflexivity|]. right.
    destruct (@coerced_typed_or_infinite str_to_float df _ Hclean) as [Ht|Hi];
      [right; split; [discriminate|exact Ht]|left; exact Hi].
  - intros e H.
    destruct (load_and_prepare_data_cases str_to_float df)
      as [E|[original [_ [_ [_ E]]]]]; rewrite E in H; congruence.
Qed.

(** A row that is dropped: its identifier does not convert, or converts to
    a finite number while a measurement does not convert. *)
Lemma dropped_row_clean_data
  (df1 df2 : DataFrame cell (option string)) (r : row cell (option string)) :
  to_numeric str_to_float (StudentID r) = None \/
  ((exists i, to_numeric str_to_float (StudentID r) = Some (Finite i)) /\
   exists c, to_numeric str_to_float (get c r) = None) ->
  clean_data str_to_float (df1 ++ r :: df2) =
  clean_data str_to_float (df1 ++ df2).
Proof.
  intros H.
  assert (Hr : ~ infinite_id str_to_float r).
  { intros [b Hb]. destruct H as [H|[[i H] _]]; congruence. }
  assert (Hk : kept str_to_float r = []).
  { unfold kept. rewrite coerce_row_None; [reflexivity|].
    destruct H as [H|[_ H]]; [left; exact H|right; exact H]. }
  destruct (infinite_id_decision str_to_float (df1 ++ df2)) as [Hinf|Hfin].
  - rewrite (@clean_data_Error str_to_float _ Hinf).
    apply clean_data_Error. destruct Hinf as [r0 [Hin H0]].
    exists r0. split; [|exact H0].
    apply in_app_or in Hin. apply in_or_app.
    destruct Hin as [Hin|Hin]; [left; exact Hin|right; right; exact Hin].
  - rewrite (@clean_data_flat_map str_to_float _ Hfin).
    rewrite clean_data_flat_map.
    + rewrite !flat_map_app. cbn [flat_map]. rewrite Hk. reflexivity.
    + intros r0 Hin. apply in_app_or in Hin.
      destruct Hin as [Hin|[<-|Hin]]; [|exact Hr|];
        apply Hfin, in_or_app; [left|right]; exact Hin.
Qed.

(** A dropped row adds nothing: with the row or without it, wherever it
    stands, the function raises the same error or returns the same feature
    columns, as many scaled rows and the same kept rows as far as their
    text columns show.  (The stored numbers are not compared: in pandas a
    row with an unreadable cell turns its whole column into floats.) *)
Theorem dropped_row_adds_no_row_and_no_column
  (df1 df2 : DataFrame cell (option string)) (r : row cell (option string)) :
  to_numeric str_to_float (StudentID r) = None \/
  ((exists i, to_numeric str_to_float (StudentID r) = Some (Finite i)) /\
   exists c, to_numeric str_to_float (get c r) = None) ->
  match load_and_prepare_data str_to_float (Some (df1 ++ r :: df2)),
        load_and_prepare_data str_to_float (Some (df1 ++ df2)) with
  | Ok (Some (scaled_with, original_with, columns_with)),
    Ok (Some (scaled_without, original_without, columns_without)) =>
      columns_with = columns_without /\
      length scaled_with = length scaled_without /\
      map text_columns original_with = map text_columns original_without
  | Error e_with, Error e_without => e_with = e_without
  | _, _ => False
  end.
Proof.
  intros H.
  assert (E : load_and_prepare_data str_to_float (Some (df1 ++ r :: df2)) =
              load_and_prepare_data str_to_float (Some (df1 ++ df2))).
  { unfold load_and_prepare_data. rewrite (@dropped_row_clean_data df1 df2 r H).
    reflexivity. }
  rewrite E.
  destruct (load_and_prepare_data_cases str_to_float (df1 ++ df2))
    as [E'|[original [_ [_ [_ E']]]]]; unfold DataFrame in *; rewrite E'.
  - reflexivity.
  - repeat split.
Qed.

Lemma trunc_inject_Z (z : Z) : trunc (inject_Z z) = z.
Proof. unfold trunc, inject_Z. simpl. apply Z.quot_1_r. Qed.

(** A coerced row, read again as a raw row, is coerced to itself. *)
Lemma coerce_row_as_raw (r : row cell (option string))
  (r' : row Z (option string)) :
  coerce_row str_to_float r = Some r' ->
  coerce_row str_to_float (as_raw r') = Some r'.
Proof.
  intros Hc. destruct (@coerce_row_Some str_to_float r r' Hc) as [[i [_ Hid]] [Hcols _]].
  assert (Hcell : forall c, to_numeric str_to_float (get c r') <> None /\
                            of_float (to_numeric str_to_float (get c r'))
                            = get c r').
  { intros c. destruct (Hcols c) as [Hn E]. rewrite E.
    destruct (to_numeric str_to_float (get c r)) as [[q|b]|];
      [split; [discriminate|reflexivity]|split; [discriminate|reflexivity]|
       congruence]. }
  unfold coerce_row, as_raw. cbn [StudentID set_id StudyHoursPerDay TechSkill
                                    Motivation Age Internet Device Location
                                    OnlineClassPreference DataAccess to_numeric].
  rewrite float_to_int64_exact
    by (rewrite trunc_inject_Z, Hid; apply float_to_int64_range).
  rewrite trunc_inject_Z.
  destruct (Hcell cStudyHoursPerDay) as [N1 E1].
  destruct (Hcell cTechSkill) as [N2 E2].
  destruct (Hcell cMotivation) as [N3 E3].
  destruct (Hcell cAge) as [N4 E4].
  cbn [get] in *.
  destruct (to_numeric str_to_float (StudyHoursPerDay r')) as [h|];
    [|congruence].
  destruct (to_numeric str_to_float (TechSkill r')) as [t|]; [|congruence].
  destruct (to_numeric str_to_float (Motivation r')) as [m|]; [|congruence].
  destruct (to_numeric str_to_float (Age r')) as [a|]; [|congruence].
  rewrite E1, E2, E3, E4. destruct r'; reflexivity.
Qed.

(** Coercion is idempotent: the rows it returns, read again as raw rows,
    all pass it and come back unchanged. *)
Theorem coercion_is_idempotent
  (df : DataFrame cell (option string)) (out : DataFrame Z (option string)) :
  clean_data str_to_float df = Ok out ->
  clean_data str_to_float (map as_raw out) = Ok out.
Proof.
  intros H. apply clean_data_Ok in H. destruct H as [E _].
  assert (Hrows : forall r', In r' out ->
                    exists r, coerce_row str_to_float r = Some r').
  { intros r' Hin. rewrite E in Hin.
    destruct (@schema_coercion_rows str_to_float df r' Hin) as [r [_ Hc]].
    exists r. exact Hc. }
  clear E. rewrite clean_data_flat_map.
  - apply f_equal. induction out as [|r' out IH]; [reflexivity|].
    cbn [map flat_map].
    destruct (Hrows r' (or_introl eq_refl)) as [r Hc].
    unfold kept at 1. rewrite (@coerce_row_as_raw r r' Hc).
    cbn [app]. f_equal. apply IH. intros r0 Hr0. apply Hrows. right. exact Hr0.
  - intros r0 Hin [b Hb]. apply in_map_iff in Hin.
    destruct Hin as [r' [<- _]]. discriminate.
Qed.

End WithParser.

(** The example survey, with and without its header-like row. *)
Lemma dropped_row_example :
  match load_and_prepare_data Examples.parse_decimal (Some Examples.survey),
        load_and_prepare_data Examples.parse_decimal
          (Some (firstn 1 Examples.survey ++ skipn 2 Examples.survey)) with
  | Ok (Some (scaled_with, original_with, columns_with)),
    Ok (Some (scaled_without, original_without, columns_without)) =>
      columns_with = columns_without /\
      length scaled_with = length scaled_without /\
      map text_columns original_with = map text_columns original_without
  | Error e_with, Error e_without => e_with = e_without
  | _, _ => False
  end.
Proof.
  apply (@dropped_row_adds_no_row_and_no_column Examples.parse_decimal
           (firstn 1 Examples.survey) (skipn 2 Examples.survey)
           (nth 1 Examples.survey Examples.blank)).
  left. reflexivity.
Defined.

(** The two rows kept from the example survey pass coercion again. *)
Lemma idempotent_example :
  exists out,
    clean_data Examples.parse_decimal Examples.survey = Ok out /\
    length out = 2%nat /\
    clean_data Examples.parse_decimal (map as_raw out) = Ok out.
Proof.
  eexists.
  split; [apply clean_data_flat_map, survey_identifiers_finite|].
  split; [reflexivity|].
  apply (@coercion_is_idempotent Examples.parse_decimal Examples.survey).
  apply clean_data_flat_map, survey_identifiers_finite.
Defined.

(** The example survey is scaled; a survey of rejected rows only is not,
    and neither is the survey with the identifier "inf". *)
Lemma outcomes_example :
  (exists scaled_data original_df feature_columns,
     load_and_prepare_data Examples.parse_decimal (Some Examples.survey) =
       Ok (Some (scaled_data, original_df, feature_columns)) /\
     length scaled_data = 2%nat) /\
  load_and_prepare_data Examples.parse_decimal
    (Some (firstn 1 (skipn 1 Examples.survey))) = Error ValueError /\
  load_and_prepare_data Examples.parse_decimal (Some Samples.survey_infinite)
  = Error ValueError.
Proof.
  split; [|split].
  - destruct (@load_and_prepare_data_outcomes Examples.parse_decimal
                Examples.survey) as [_ [_ [H _]]].
    destruct (H (flat_map (kept Examples.parse_decimal) Examples.survey))
      as [_ [_ Hok]];
      [apply clean_data_flat_map, survey_identifiers_finite|].
    destruct Hok as [scaled [cols [H1 [H2 _]]]]; [discriminate| |].
    + repeat constructor; do 4 eexists; repeat split; reflexivity.
    + do 3 eexists. split; [exact H1|exact H2].
  - destruct (@load_and_prepare_data_outcomes Examples.parse_decimal
                (firstn 1 (skipn 1 Examples.survey))) as [_ [_ [H _]]].
    destruct (H []) as [Hempty _]; [reflexivity|].
    apply Hempty. reflexivity.
  - destruct (@load_and_prepare_data_outcomes Examples.parse_decimal
                Samples.survey_infinite) as [_ [H _]].
    apply H. exists (nth 1 Samples.survey_infinite Examples.blank).
    split; [simpl; auto|]. exists false. reflexivity.
Defined.

End Pipeline.

(** ** Indicator groups *)

Module OneHot.
Import Pandas ClusterAnalysis Reference Derived Categories Encoding.

Lemma is_one_indicator (x : option string) (w : string) :
  is_one (indicator x w) =
  match x with
  | Some v => String.eqb v w
  | None => false
  end.
Proof.
  unfold indicator. destruct x as [v|]; [|reflexivity].
  destruct (String.eqb v w); reflexivity.
Qed.

Lemma ones_indicator (x : option string) (l : list string) :
  ones (map (indicator x) l) =
  match x with
  | Some v => length (filter (String.eqb v) l)
  | None => O
  end.
Proof.
  unfold ones. induction l as [|w l IH]; [destruct x; reflexivity|].
  cbn [map filter]. rewrite is_one_indicator. destruct x as [v|].
  - destruct (String.eqb v w); cbn [length]; rewrite IH; reflexivity.
  - exact IH.
Qed.

Lemma filter_eqb_NoDup (v : string) (l : list string) :
  NoDup l -> In v l -> length (filter (String.eqb v) l) = 1%nat.
Proof.
  induction 1 as [|w l Hw Hnd IH]; intros Hin; [contradiction|].
  cbn [filter]. destruct (String.eqb_spec v w) as [<-|N].
  - cbn [length]. f_equal.
    assert (E : filter (String.eqb v) l = []).
    { clear -Hw. induction l as [|u l IHl]; [reflexivity|]. cbn [filter].
      destruct (String.eqb_spec v u) as [<-|_].
      - exfalso. apply Hw. left. reflexivity.
      - apply IHl. intros H. apply Hw. right. exact H. }
    rewrite E. reflexivity.
  - apply IH. destruct Hin as [->|Hin]; [congruence|exact Hin].
Qed.

Lemma decode_indicator (x : option string) (l : list string) :
  decode l (map (indicator x) l) =
  match x with
  | Some v => if in_dec string_dec v l then Some v else None
  | None => None
  end.
Proof.
  unfold decode. induction l as [|w l IH]; [destruct x; reflexivity|].
  cbn [map combine find snd]. rewrite is_one_indicator. destruct x as [v|].
  - destruct (String.eqb_spec v w) as [<-|N].
    + cbn. destruct (string_dec v v); [reflexivity|congruence].
    + rewrite IH. cbn [in_dec].
      destruct (in_dec string_dec v (w :: l)) as [Hin|Hout];
        destruct (in_dec string_dec v l) as [Hin'|Hout']; try reflexivity.
      * destruct Hin as [->|Hin]; [congruence|contradiction].
      * exfalso. apply Hout. right. exact Hin'.
  - exact IH.
Qed.

(** In every row of the table handed to [get_dummies], the indicator group
    of a nominal column has one cell per indicator column and is one-hot:
    exactly one cell holds 1 when the row has a value in the column, none
    when the value is missing; and the group can be read back: the category
    of the cell that holds 1 is the value of the row. *)
Theorem indicator_group_is_one_hot_and_decodes
  (df : DataFrame Z (option Z)) (r : row Z (option Z)) (c : nomcol) :
  In r df ->
  length (dummy_cells df r c) = length (dummy_columns df c) /\
  ones (dummy_cells df r c) =
    match get_nom c r with
    | Some _ => 1%nat
    | None => O
    end /\
  decode (categories (column_of df c)) (dummy_cells df r c) = get_nom c r.
Proof.
  intros Hin. unfold dummy_cells, dummy_columns.
  split; [rewrite !length_map; reflexivity|].
  rewrite ones_indicator, decode_indicator.
  destruct (get_nom c r) as [v|] eqn:Ev; [|split; reflexivity].
  assert (Hv : In v (categories (column_of df c))).
  { apply categories_In. unfold column_of. rewrite <- Ev. apply in_map, Hin. }
  split.
  - apply filter_eqb_NoDup; [apply categories_NoDup|exact Hv].
  - destruct (in_dec string_dec v (categories (column_of df c)));
      [reflexivity|contradiction].
Qed.

(** The second example student holds "Laptop": its device group reads
    back as "Laptop". *)
Lemma one_hot_example :
  let df := map_internet Examples.students in
  ones (dummy_cells df (nth 1 df (set_internet None (Examples.student 0 0 "a" "b")))
                    cDevice) = 1%nat /\
  decode (categories (column_of df cDevice))
         (dummy_cells df (nth 1 df (set_internet None (Examples.student 0 0 "a" "b")))
                      cDevice) = Some "Laptop"%string.
Proof.
  intros df.
  destruct (@indicator_group_is_one_hot_and_decodes df
              (nth 1 df (set_internet None (Examples.student 0 0 "a" "b")))
              cDevice) as [_ [H1 H2]].
  - simpl. auto.
  - split; [exact H1|exact H2].
Defined.

(** *** The columns do not depend on the order of the rows *)

Lemma sorted_ext (l l' : list string) :
  StronglySorted str_lt l -> StronglySorted str_lt l' ->
  (forall v, In v l <-> In v l') -> l = l'.
Proof.
  intros Hl. revert l'. induction Hl as [|x l Hs IH Hx]; intros l' Hl' H.
  - destruct l' as [|y l']; [reflexivity|].
    exfalso. apply (H y). left. reflexivity.
  - destruct Hl' as [|y l' Hs' Hy].
    + exfalso. apply (H x). left. reflexivity.
    + rewrite Forall_forall in Hx, Hy.
      assert (E : x = y).
      { destruct (proj1 (H x) (or_introl eq_refl)) as [E|Hin]; [auto|].
        destruct (proj2 (H y) (or_introl eq_refl)) as [E|Hin']; [auto|].
        exfalso. apply (@str_lt_irrefl x).
        apply str_lt_trans with y; [apply Hx, Hin'|apply Hy, Hin]. }
      subst y. f_equal. apply IH; [exact Hs'|].
      intros v. split; intros Hv.
      * destruct (proj1 (H v) (or_intror Hv)) as [E|Hin]; [|exact Hin].
        subst v. exfalso. exact (str_lt_irrefl (Hx x Hv)).
      * destruct (proj2 (H v) (or_intror Hv)) as [E|Hin]; [|exact Hin].
        subst v. exfalso. exact (str_lt_irrefl (Hy x Hv)).
Qed.

Lemma categories_ext (col col' : list (option string)) :
  (forall v, In (Some v) col <-> In (Some v) col') ->
  categories col = categories col'.
Proof.
  intros H. apply sorted_ext; try apply categories_sorted.
  intros v. rewrite !categories_In. apply H.
Qed.

(** The columns of the encoded frame are determined by the set of values
    of each nominal column: two tables that hold the same values, in
    particular two orderings of the same rows, give the same columns in the
    same order. *)
Theorem encoded_columns_ignore_row_order (df df' : DataFrame Z (option string)) :
  ((forall c v, observed c df v <-> observed c df' v) ->
   columns (encode df) = columns (encode df')) /\
  (Permutation df df' -> columns (encode df) = columns (encode df')).
Proof.
  assert (H : (forall c v, observed c df v <-> observed c df' v) ->
              columns (encode df) = columns (encode df')).
  { intros Hobs. rewrite !columns_encode. f_equal.
    unfold categorical_features. cbn [flat_map].
    rewrite (@categories_ext (map (get_nom cDevice) df)
               (map (get_nom cDevice) df')) by apply Hobs.
    rewrite (@categories_ext (map (get_nom cLocation) df)
               (map (get_nom cLocation) df')) by apply Hobs.
    rewrite (@categories_ext (map (get_nom cOnlineClassPreference) df)
               (map (get_nom cOnlineClassPreference) df')) by apply Hobs.
    rewrite (@categories_ext (map (get_nom cDataAccess) df)
               (map (get_nom cDataAccess) df')) by apply Hobs.
    reflexivity. }
  split; [exact H|].
  intros Hp. apply H. intros c v. unfold observed.
  split; apply Permutation_in, Permutation_map;
    [exact Hp|apply Permutation_sym, Hp].
Qed.

(** The example students in reverse order give the same columns. *)
Lemma row_order_example :
  columns (encode (rev Examples.students)) = columns (encode Examples.students).
Proof.
  apply (proj2 (@encoded_columns_ignore_row_order
                  (rev Examples.students) Examples.students)).
  apply Permutation_sym, Permutation_rev.
Defined.

End OneHot.

(** ** Scaling a single row *)

Module Degenerate.
Import Pandas Sklearn ClusterAnalysis Reference Stats Coercion Encoding Scaling.

Local Open Scope R_scope.

Lemma nanvar_short (col : list (option R)) :
  (length (present col) <= 1)%nat -> nanvar col = 0.
Proof.
  unfold nanvar. destruct (present col) as [|a [|b l]]; simpl; intros H.
  - apply Rvar_nil.
  - unfold Rvar, Rmean. simpl. field.
  - lia.
Qed.

Lemma transform_single_row (x : list (option R)) :
  transform (fit [x]) [x] = [map (option_map (fun _ => 0)) x].
Proof.
  unfold transform. cbn [map]. f_equal.
  apply nth_ext with (d := None) (d' := None).
  - rewrite transform_row_length, length_map;
      unfold fit; cbn [mean_ scale_ n_features];
      rewrite ?length_map, ?length_seq; reflexivity.
  - intros j Hj.
    assert (Hx : (j < length x)%nat).
    { rewrite transform_row_length in Hj;
        unfold fit; cbn [mean_ scale_ n_features];
        rewrite ?length_map, ?length_seq; auto. }
    rewrite nth_transform_row
      by (unfold fit; cbn [mean_ scale_ n_features];
          rewrite length_map, length_seq; exact Hx).
    unfold fit. cbn [mean_ scale_ n_features].
    rewrite !nth_map_seq by exact Hx.
    change (nth j (map (option_map (fun _ : R => 0)) x) None)
      with (nth j (map (option_map (fun _ : R => 0)) x)
                (option_map (fun _ : R => 0) None)).
    rewrite map_nth.
    assert (Hv : nanvar (column j [x]) = 0).
    { apply nanvar_short. unfold column. cbn [map present flat_map].
      destruct (nth j x None); simpl; lia. }
    pose proof (constant_column Hv) as Hc.
    unfold column in Hc at 3 4. cbn [map] in Hc.
    injection Hc as Hc. exact Hc.
Qed.

Section WithParser.
Variable str_to_float : string -> option number.

(** When exactly one row survives coercion, with finite measurements,
    every column is constant, and the scaled matrix is its one row with 0 in
    every present cell: the features carry no information. *)
Theorem single_row_scales_to_zero
  (df : DataFrame cell (option string)) (r : row Z (option string)) :
  clean_data str_to_float df = Ok [r] ->
  typed r ->
  exists scaled_row feature_columns,
    load_and_prepare_data str_to_float (Some df) =
      Ok (Some ([scaled_row], [r], feature_columns)) /\
    length scaled_row = length feature_columns /\
    Forall (fun x => x = Some 0 \/ x = None) scaled_row.
Proof.
  intros Hclean Ht.
  assert (Hne : [r] <> []) by discriminate.
  pose proof (@load_and_prepare_data_ok str_to_float df [r] Hclean Hne
                (Forall_cons r Ht (Forall_nil _))) as Hok.
  destruct (transform_features_shape Hne) as [_ [_ Hrows]].
  cbv zeta in Hrows.
  assert (Hx : exists x, features [r] = [x]).
  { unfold features. rewrite values_as_keys. eexists. reflexivity. }
  destruct Hx as [x Hx]. rewrite Hx, transform_single_row in Hok, Hrows.
  do 2 eexists. split; [exact Hok|]. split.
  - inversion Hrows. assumption.
  - apply Forall_map, Forall_forall. intros [v|] _; [left|right]; reflexivity.
Qed.

End WithParser.

(** A survey with one clean row. *)
Lemma single_row_example :
  exists scaled_row original_df feature_columns,
    load_and_prepare_data Examples.parse_decimal
      (Some (firstn 2 Examples.survey)) =
      Ok (Some ([scaled_row], original_df, feature_columns)) /\
    Forall (fun x => x = Some 0 \/ x = None) scaled_row.
Proof.
  edestruct (@single_row_scales_to_zero Examples.parse_decimal
               (firstn 2 Examples.survey)) as [row [cols [H1 [_ H3]]]].
  - reflexivity.
  - do 4 eexists; repeat split; reflexivity.
  - do 3 eexists. split; [exact H1|exact H3].
Defined.

End Degenerate.

(** ** The elbow sweep and the fit *)

Module Sweep.
Import Pandas Sklearn ClusterAnalysis Reference Derived Stats Results Fitting
       Scoring.

Local Open Scope R_scope.

Lemma sqdist_nonneg (x y : list R) : 0 <= sqdist x y.
Proof.
  unfold sqdist. apply Rsum_Forall_nonneg, zip_with_Forall.
  intros a b. apply pow2_ge_0.
Qed.

Lemma inertia_nonneg (X centers : list (list R)) (labels : list nat) :
  0 <= inertia X centers labels.
Proof.
  unfold inertia. apply Rsum_Forall_nonneg, zip_with_Forall.
  intros x l. apply sqdist_nonneg.
Qed.

Section WithGenerator.
Variable rng : Type.
Variable RandomState : Z -> rng.
Variable seeding_draw : rng -> list (list R) -> list (list R) -> nat * rng.
Variable relocated_center :
  list (list R) -> list nat -> list (list R) -> nat -> list R.

(** Whatever holds of every single run holds of the run that is kept. *)
Lemma restarts_invariant (P : Fitted -> Prop) (n k : nat) (t : R)
  (X : list (list R)) (rs : rng) (best : option Fitted) (b : Fitted) :
  (forall labels centers, P (mkFitted labels (inertia X centers labels) centers)) ->
  (forall b0, best = Some b0 -> P b0) ->
  fst (restarts seeding_draw relocated_center n k t X rs best) = Some b ->
  P b.
Proof.
  intros Hrun. revert rs best. induction n as [|n IH]; intros rs best Hb;
    cbn [restarts].
  - cbn [fst]. intros E. apply Hb, E.
  - destruct (kmeans_plusplus seeding_draw k X [] rs) as [init rs'].
    destruct (lloyd relocated_center max_iter k t X init None)
      as [centers labels].
    apply IH. intros b0 Eb. destruct best as [b1|].
    + cbn in Eb. destruct (Rlt_dec _ _).
      * destruct (is_same_clustering [] labels (labels_ b1));
          injection Eb as <-; [apply Hb; reflexivity|apply Hrun].
      * injection Eb as <-. apply Hb; reflexivity.
    + injection Eb as <-. apply Hrun.
Qed.

Lemma KMeans_fit_inertia (est : KMeans) (global : rng)
  (X : list (list (option R))) (fitted : Fitted) :
  KMeans_fit RandomState seeding_draw relocated_center est global X = Ok fitted ->
  0 <= inertia_ fitted.
Proof.
  unfold KMeans_fit. intros H.
  destruct (Z.ltb (n_clusters est) 1); [discriminate|].
  destruct (Nat.eqb (n_init est) 0); [discriminate|].
  destruct (check_array X) as [Xc|e]; cbn [bind] in H; [|discriminate].
  destruct (Z.ltb (Z.of_nat (length Xc)) (n_clusters est)); [discriminate|].
  match type of H with
  | context [restarts _ _ ?n ?k ?t ?Xm ?rs None] =>
      destruct (fst (restarts seeding_draw relocated_center n k t Xm rs None))
        as [b|] eqn:Eb; [|discriminate];
      pose proof (@restarts_invariant (fun f => 0 <= inertia_ f)
                    n k t Xm rs None b) as Hinv
  end.
  injection H as <-. cbn [inertia_]. apply Hinv; [|discriminate|exact Eb].
  intros labels centers. cbn [inertia_]. apply inertia_nonneg.
Qed.

(** A fit with a cluster count of at least 1 and some restarts can only
    fail with a value error. *)
Lemma KMeans_fit_error_kind (est : KMeans) (global : rng)
  (X : list (list (option R))) (e : error) :
  (1 <= n_clusters est)%Z -> n_init est <> O ->
  KMeans_fit RandomState seeding_draw relocated_center est global X = Error e ->
  e = ValueError.
Proof.
  intros Hk Hi H.
  destruct (check_array X) as [Xc|e0] eqn:Ec.
  - destruct (Z_le_gt_dec (n_clusters est) (Z.of_nat (length X))) as [Hn|Hn].
    + destruct (@KMeans_fit_total _ RandomState seeding_draw relocated_center
                  est global X Xc Ec (conj Hk Hn) Hi) as [fitted Hf].
      congruence.
    + unfold KMeans_fit in H.
      destruct (Z.ltb_spec (n_clusters est) 1); [lia|].
      destruct (Nat.eqb_spec (n_init est) 0); [contradiction|].
      rewrite Ec in H. cbn [bind] in H.
      destruct (check_array_length _ Ec) as [Hlen _].
      destruct (Z.ltb_spec (Z.of_nat (length Xc)) (n_clusters est)); [|lia].
      congruence.
  - unfold KMeans_fit in H.
    destruct (Z.ltb_spec (n_clusters est) 1); [lia|].
    destruct (Nat.eqb_spec (n_init est) 0); [contradiction|].
    rewrite Ec in H. cbn [bind] in H. injection H as <-.
    apply (check_array_Error _ Ec).
Qed.

Lemma KMeans_fit_too_many (est : KMeans) (global : rng)
  (X : list (list (option R))) :
  (1 <= n_clusters est)%Z -> n_init est <> O ->
  (Z.of_nat (length X) < n_clusters est)%Z ->
  KMeans_fit RandomState seeding_draw relocated_center est global X
  = Error ValueError.
Proof.
  intros Hk Hi Hn. unfold KMeans_fit.
  destruct (Z.ltb_spec (n_clusters est) 1); [lia|].
  destruct (Nat.eqb_spec (n_init est) 0); [contradiction|].
  destruct (check_array X) as [Xc|e] eqn:Ec; cbn [bind].
  - destruct (check_array_length _ Ec) as [Hlen _].
    destruct (Z.ltb_spec (Z.of_nat (length Xc)) (n_clusters est)); [reflexivity|lia].
  - rewrite (check_array_Error _ Ec). reflexivity.
Qed.

Lemma sweep_error_kind (global : rng) (scaled_data : list (list (option R)))
  (x : nat) (e' : error) :
  In x (seq 1 10) ->
  (kmeans <- KMeans_fit RandomState seeding_draw relocated_center
               (mkKMeans (Z.of_nat x) (Some 42%Z) 10) global scaled_data ;;
   Ok (inertia_ kmeans)) = Error e' -> e' = ValueError.
Proof.
  intros Hx H. apply in_seq in Hx.
  destruct (KMeans_fit RandomState seeding_draw relocated_center
              (mkKMeans (Z.of_nat x) (Some 42%Z) 10) global scaled_data)
    as [f|e0] eqn:Ef; cbn [bind] in H; [discriminate|].
  injection H as <-.
  apply (@KMeans_fit_error_kind _ global scaled_data e0) in Ef;
    [exact Ef|cbn; lia|discriminate].
Qed.

Lemma find_optimal_k_short (global : rng) (scaled_data : list (list (option R))) :
  (length scaled_data < 10)%nat ->
  find_optimal_k RandomState seeding_draw relocated_center global scaled_data
  = Error ValueError.
Proof.
  intros Hn. unfold find_optimal_k.
  apply mapM_first_error; [apply sweep_error_kind|].
  exists (S (length scaled_data)), ValueError. split; [apply in_seq; lia|].
  rewrite KMeans_fit_too_many; [reflexivity|cbn; lia|discriminate|cbn; lia].
Qed.

Lemma find_optimal_k_missing (global : rng)
  (scaled_data : list (list (option R))) (e : error) :
  check_array scaled_data = Error e ->
  find_optimal_k RandomState seeding_draw relocated_center global scaled_data
  = Error ValueError.
Proof.
  intros Ec. unfold find_optimal_k.
  apply mapM_first_error; [apply sweep_error_kind|].
  exists 1%nat, ValueError. split; [apply in_seq; lia|].
  unfold KMeans_fit. cbn [n_clusters n_init Z.of_nat Z.ltb Z.compare Nat.eqb
                          Pos.of_succ_nat].
  rewrite Ec. cbn [bind]. rewrite (check_array_Error _ Ec). reflexivity.
Qed.

(** The sweep fits every cluster count from 1 to 10, whatever the size of
    the data: on fewer than ten rows, or on an array with a missing value,
    it raises a value error and returns nothing; on at least ten rows
    without missing values it returns ten inertias, none negative. *)
Theorem elbow_sweep_needs_ten_rows
  (global : rng) (scaled_data : list (list (option R))) :
  ((length scaled_data < 10)%nat ->
     find_optimal_k RandomState seeding_draw relocated_center global scaled_data
     = Error ValueError) /\
  (forall e, check_array scaled_data = Error e ->
     find_optimal_k RandomState seeding_draw relocated_center global scaled_data
     = Error ValueError) /\
  (forall Xc, check_array scaled_data = Ok Xc ->
     (10 <= length scaled_data)%nat ->
     exists inertias,
       find_optimal_k RandomState seeding_draw relocated_center global scaled_data
       = Ok inertias /\
       length inertias = 10%nat /\
       Forall (Rle 0) inertias).
Proof.
  split; [apply find_optimal_k_short|].
  split; [apply find_optimal_k_missing|].
  intros Xc Ec Hn. unfold find_optimal_k.
  destruct (@mapM_all_ok _ _
              (fun k => kmeans <- KMeans_fit RandomState seeding_draw
                                    relocated_center
                                    (mkKMeans (Z.of_nat k) (Some 42%Z) 10)
                                    global scaled_data ;;
                        Ok (inertia_ kmeans))
              (Rle 0) (seq 1 10)) as [ys [E [Hl HP]]].
  - intros x Hx. apply in_seq in Hx.
    destruct (@KMeans_fit_total _ RandomState seeding_draw relocated_center
                (mkKMeans (Z.of_nat x) (Some 42%Z) 10) global scaled_data Xc Ec)
      as [fitted Hf]; [cbn; lia|discriminate|].
    exists (inertia_ fitted). rewrite Hf. split; [reflexivity|].
    apply (KMeans_fit_inertia _ _ _ Hf).
  - exists ys. split; [exact E|]. split; [exact Hl|exact HP].
Qed.

End WithGenerator.

(** Three points are too few for the sweep. *)
Lemma sweep_example :
  find_optimal_k Examples.toy_RandomState Examples.toy_seeding_draw
    Examples.toy_relocated_center O Examples.three_points = Error ValueError.
Proof.
  apply (proj1 (@elbow_sweep_needs_ten_rows Examples.toy_rng
                  Examples.toy_RandomState Examples.toy_seeding_draw
                  Examples.toy_relocated_center O Examples.three_points)).
  simpl. lia.
Defined.

End Sweep.

(** ** What [run_kmeans] returns *)

Module Running.
Import Pandas Sklearn ClusterAnalysis Reference Derived Stats Results Fitting
       Scoring Sweep.

Local Open Scope R_scope.

Section WithGenerator.
Variable rng : Type.
Variable RandomState : Z -> rng.
Variable seeding_draw : rng -> list (list R) -> list (list R) -> nat * rng.
Variable relocated_center :
  list (list R) -> list nat -> list (list R) -> nat -> list R.

(** The labels come back only after the silhouette score has been
    computed from them, so the function returns only assignments the score
    is defined for: at least 2 and at most n - 1 distinct labels.  Hence it
    needs at least three rows and a cluster count from 2 to n.  Every other
    call raises, and the labels of the fit are lost; in particular every
    call on fewer than three rows raises. *)
Theorem run_kmeans_returns_only_scored_labels
  (global : rng) (scaled_data : list (list (option R))) (k : Z) :
  (forall labels,
     run_kmeans RandomState seeding_draw relocated_center global scaled_data k
       = Ok labels ->
     (2 <= length (group_keys labels) <= length scaled_data - 1)%nat /\
     (3 <= length scaled_data)%nat /\
     (2 <= k <= Z.of_nat (length scaled_data))%Z /\
     exists s, silhouette_score scaled_data labels = Ok s) /\
  ((length scaled_data < 3)%nat ->
     exists e,
       run_kmeans RandomState seeding_draw relocated_center global scaled_data k
       = Error e).
Proof.
  assert (H : forall labels,
     run_kmeans RandomState seeding_draw relocated_center global scaled_data k
       = Ok labels ->
     (2 <= length (group_keys labels) <= length scaled_data - 1)%nat /\
     (3 <= length scaled_data)%nat /\
     (2 <= k <= Z.of_nat (length scaled_data))%Z /\
     exists s, silhouette_score scaled_data labels = Ok s).
  { intros labels Hrun. unfold run_kmeans in Hrun.
    destruct (KMeans_fit RandomState seeding_draw relocated_center
                (mkKMeans k (Some 42%Z) 10) global scaled_data)
      as [fitted|e] eqn:Hf; cbn [bind] in Hrun; [|discriminate].
    destruct (silhouette_score scaled_data (labels_ fitted)) as [s|e] eqn:Hs;
      cbn [bind] in Hrun; [|discriminate].
    injection Hrun as <-.
    pose proof Hs as Hs'. apply silhouette_score_Ok in Hs'.
    destruct Hs' as [Xc [_ [_ [Hn _]]]].
    destruct (@KMeans_fit_Ok _ _ _ _ _ _ _ _ Hf) as [Hk [points [Hp Ha]]].
    cbn [n_clusters] in Hk, Ha.
    split; [exact Hn|]. split; [lia|]. split; [|exists s; exact Hs].
    split; [|lia].
    destruct (Z.eq_dec k 1) as [->|Hk1]; [|lia]. exfalso.
    assert (Hpos : (0 < Z.to_nat 1)%nat) by (simpl; lia).
    destruct (assigned_shape Hpos Ha) as [Hl Hr].
    assert (Hne : labels_ fitted <> []).
    { intros E. rewrite E in Hn. simpl in Hn. lia. }
    rewrite (group_keys_single Hr Hne) in Hn. simpl in Hn. lia. }
  split; [exact H|].
  intros Hn.
  destruct (run_kmeans RandomState seeding_draw relocated_center global
              scaled_data k) as [labels|e] eqn:E; [|exists e; reflexivity].
  destruct (H labels eq_refl) as [_ [H3 _]]. lia.
Qed.

End WithGenerator.

(** *** A run that returns *)

Lemma nearest_two (c0 c1 x : list R) :
  nearest [c0; c1] x = if Rlt_dec (sqdist x c1) (sqdist x c0) then 1%nat else O.
Proof. reflexivity. Qed.

Lemma sqdist_one (x y : R) : sqdist [x] [y] = (x - y) ^ 2 + 0.
Proof. reflexivity. Qed.

Section TwoPairs.
Variables a b t : R.
Hypothesis apart : a < b.
Hypothesis slack : 0 <= t.

Let X : list (list R) := [[a]; [a]; [b]; [b]].

Lemma e_step_two_pairs : e_step X [[a]; [b]] = [0; 0; 1; 1]%nat.
Proof.
  unfold e_step, X. cbn [map]. rewrite !nearest_two, !sqdist_one.
  destruct (Rlt_dec ((a - b) ^ 2 + 0) ((a - a) ^ 2 + 0)) as [H|_];
    [exfalso; nra|].
  destruct (Rlt_dec ((b - b) ^ 2 + 0) ((b - a) ^ 2 + 0)) as [_|H];
    [reflexivity|exfalso; apply H; nra].
Qed.

Lemma m_step_two_pairs
  (relocated_center : list (list R) -> list nat -> list (list R) -> nat -> list R)
  (centers : list (list R)) :
  m_step relocated_center 2 X [0; 0; 1; 1]%nat centers = [[a]; [b]].
Proof.
  unfold m_step, X, members, centroid, vsum, n_features. cbn.
  repeat f_equal; field.
Qed.

Lemma lloyd_two_pairs
  (relocated_center : list (list R) -> list nat -> list (list R) -> nat -> list R)
  (n : nat) :
  lloyd relocated_center (S n) 2 t X [[a]; [b]] None
  = ([[a]; [b]], [0; 0; 1; 1]%nat).
Proof.
  cbn [lloyd]. rewrite e_step_two_pairs, m_step_two_pairs.
  cbn [same_labels].
  destruct (Rle_dec (center_shift [[a]; [b]] [[a]; [b]]) t) as [_|H].
  - rewrite e_step_two_pairs. reflexivity.
  - exfalso. apply H. unfold center_shift. cbn [zip_with Rsum fold_right].
    rewrite !sqdist_one. nra.
Qed.




End TwoPairs.

Lemma restarts_same_run {rng : Type}
  (seeding_draw : rng -> list (list R) -> list (list R) -> nat * rng)
  (relocated_center : list (list R) -> list nat -> list (list R) -> nat -> list R)
  (k : nat) (t : R) (X init centers : list (list R)) (labels : list nat) :
  (forall rs, fst (kmeans_plusplus seeding_draw k X [] rs) = init) ->
  lloyd relocated_center max_iter k t X init None = (centers, labels) ->
  forall n rs best,
    (best = None \/
     best = Some (mkFitted labels (inertia X centers labels) centers)) ->
    (best <> None \/ n <> O) ->
    fst (restarts seeding_draw relocated_center n k t X rs best)
    = Some (mkFitted labels (inertia X centers labels) centers).
Proof.
  intros Hinit Hrun. induction n as [|n IH]; intros rs best Hb Hn;
    cbn [restarts].
  - cbn [fst]. destruct Hb as [Hb|Hb]; subst best;
      [destruct Hn; congruence|reflexivity].
  - specialize (Hinit rs).
    destruct (kmeans_plusplus seeding_draw k X [] rs) as [init' rs'].
    cbn [fst] in Hinit. subst init'. rewrite Hrun.
    apply IH; [|left].
    + right. destruct Hb as [Hb|Hb]; subst best; [reflexivity|].
      cbn [inertia_ labels_].
      destruct (Rlt_dec _ _) as [Hlt|_]; [|reflexivity].
      exfalso. exact (Rlt_irrefl _ Hlt).
    + destruct Hb as [Hb|Hb]; subst best; [discriminate|].
      cbn [inertia_ labels_]. destruct (Rlt_dec _ _) as [Hlt|_]; [|discriminate].
      exfalso. exact (Rlt_irrefl _ Hlt).
Qed.

Lemma tolerance_nonneg (cols : list (list R)) :
  0 <= Rmean (map Rvar cols) * tol.
Proof.
  apply Rmult_le_pos; [|unfold tol; lra].
  unfold Rmean. apply Rdiv_nonneg; [|apply pos_INR].
  apply Rsum_Forall_nonneg, Forall_map, Forall_forall. intros l _.
  destruct l as [|x l]; [rewrite Scaling.Rvar_nil; lra|].
  apply Rvar_nonneg. discriminate.
Qed.

Lemma max_iter_succ : exists n, max_iter = S n.
Proof. exists 299%nat. with_strategy transparent [max_iter] reflexivity. Qed.

(** On two pairs of equal points, seeded with the first and the last row,
    the fit with two clusters returns the two pairs, and [run_kmeans]
    returns its labels. *)
Lemma two_pairs_run :
  run_kmeans Examples.toy_RandomState Samples.ends_seeding_draw
    Examples.toy_relocated_center O Samples.two_pairs 2
  = Ok [0; 0; 1; 1]%nat.
Proof.
  set (Xc := [[-1]; [-1]; [1]; [1]] : list (list R)).
  assert (Ec : check_array Samples.two_pairs = Ok Xc) by reflexivity.
  set (m := Rmean [-1; -1; 1; 1]).
  set (Xm := [[-1 - m]; [-1 - m]; [1 - m]; [1 - m]]).
  assert (EX : map (fun r => zip_with Rminus r (map Rmean (columns_of Xc))) Xc
               = Xm) by reflexivity.
  set (t := Rmean (map Rvar (columns_of Xm)) * tol).
  assert (Ht : 0 <= t) by apply tolerance_nonneg.
  assert (Hab : -1 - m < 1 - m) by lra.
  destruct max_iter_succ as [n En].
  assert (Hrun : lloyd Examples.toy_relocated_center max_iter 2 t Xm
                   [[-1 - m]; [1 - m]] None
                 = ([[-1 - m]; [1 - m]], [0; 0; 1; 1]%nat)).
  { rewrite En. apply lloyd_two_pairs; assumption. }
  assert (Hbest :
    fst (restarts Samples.ends_seeding_draw Examples.toy_relocated_center
           10 2 t Xm (Examples.toy_RandomState 42) None)
    = Some (mkFitted [0; 0; 1; 1]%nat
              (inertia Xm [[-1 - m]; [1 - m]] [0; 0; 1; 1]%nat)
              [[-1 - m]; [1 - m]])).
  { apply (@restarts_same_run _ Samples.ends_seeding_draw
             Examples.toy_relocated_center 2%nat t Xm
             [[-1 - m]; [1 - m]] [[-1 - m]; [1 - m]] [0; 0; 1; 1]%nat).
    - intros rs. reflexivity.
    - exact Hrun.
    - left. reflexivity.
    - right. discriminate. }
  assert (Hf : exists fitted,
    KMeans_fit Examples.toy_RandomState Samples.ends_seeding_draw
      Examples.toy_relocated_center (mkKMeans 2 (Some 42%Z) 10) O
      Samples.two_pairs = Ok fitted /\
    labels_ fitted = [0; 0; 1; 1]%nat).
  { unfold KMeans_fit. cbn [n_clusters n_init random_state Z.ltb Z.compare
                            Pos.compare Pos.compare_cont Nat.eqb].
    rewrite Ec. cbn [bind]. cbn [Xc length Z.of_nat Pos.of_succ_nat Pos.succ
                                 Z.ltb Z.compare Pos.compare Pos.compare_cont].
    fold Xc. rewrite EX. fold t.
    change (Z.to_nat 2) with 2%nat.
    change (check_random_state Examples.toy_RandomState (Some 42%Z) O)
      with (Examples.toy_RandomState 42).
    match goal with
    | |- context [match ?f with Some _ => _ | None => _ end] =>
        replace f with
          (Some (mkFitted [0; 0; 1; 1]%nat
                   (inertia Xm [[-1 - m]; [1 - m]] [0; 0; 1; 1]%nat)
                   [[-1 - m]; [1 - m]]))
          by (symmetry; exact Hbest)
    end.
    eexists. split; reflexivity. }
  destruct Hf as [fitted [Hf Hl]].
  unfold run_kmeans. rewrite Hf. cbn [bind]. rewrite Hl.
  assert (Hs : exists s, silhouette_score Samples.two_pairs [0; 0; 1; 1]%nat
                         = Ok s).
  { eexists. apply silhouette_score_Ok. exists Xc.
    split; [exact Ec|]. split; [reflexivity|]. split; [|reflexivity].
    cbn. lia. }
  destruct Hs as [s Hs]. rewrite Hs. reflexivity.
Qed.

(** The labels that [run_kmeans] returns for the two pairs name two
    clusters among four rows. *)
Lemma scored_labels_example :
  (2 <= length (group_keys [0; 0; 1; 1]%nat) <= length Samples.two_pairs - 1)%nat /\
  (3 <= length Samples.two_pairs)%nat.
Proof.
  destruct (@run_kmeans_returns_only_scored_labels
              Examples.toy_rng Examples.toy_RandomState
              Samples.ends_seeding_draw Examples.toy_relocated_center
              O Samples.two_pairs 2) as [H _].
  destruct (H _ two_pairs_run) as [H1 [H2 _]].
  split; [exact H1|exact H2].
Defined.

End Running.

(** ** Reproducible fits *)

Module Determinism.
Import Pandas Sklearn ClusterAnalysis Reference Derived Stats Results Fitting
       Scoring Sweep Running.

Local Open Scope R_scope.



Section WithGenerator.
Variable rng : Type.
Variable RandomState : Z -> rng.
Variable seeding_draw : rng -> list (list R) -> list (list R) -> nat * rng.
Variable relocated_center :
  list (list R) -> list nat -> list (list R) -> nat -> list R.







(** A seeded fit does not depend on the global generator. *)
Lemma seeded_fit_ignores_global (global1 global2 : rng)
  (X : list (list (option R))) (k seed : Z) (n : nat) :
  KMeans_fit RandomState seeding_draw relocated_center
    (mkKMeans k (Some seed) n) global1 X =
  KMeans_fit RandomState seeding_draw relocated_center
    (mkKMeans k (Some seed) n) global2 X.
Proof. reflexivity. Qed.


End WithGenerator.

(** *** Two pairs of points, seeded from either end *)







End Determinism.

(** ** The whole pipeline *)

Module Whole.
Import Pandas Sklearn ClusterAnalysis Reference Derived Results Coercion
       Encoding Scaling Fitting Sweep.

(** An array with a missing cell is refused. *)
Lemma check_array_missing (X : list (list (option R))) (row : list (option R)) :
  In row X -> In None row -> check_array X = Error ValueError.
Proof.
  intros Hrow Hnone.
  destruct (check_array X) as [Xc|e] eqn:Ec.
  - exfalso. unfold check_array in Ec.
    destruct (mapM (mapM finite) X) as [M|e] eqn:Em; cbn [bind] in Ec;
      [|discriminate].
    destruct (mapM_Ok_In _ _ _ Em Hrow) as [r' Hr'].
    destruct (mapM_Ok_In _ _ _ Hr' Hnone) as [v Hv]. discriminate.
  - rewrite (check_array_Error _ Ec). reflexivity.
Qed.

(** The scaled row of a row with an unmapped ordinal value holds a missing
    cell, in the "Internet" column. *)
Lemma scaled_cell_missing (original : DataFrame Z (option string))
  (i : nat) (r : row Z (option string)) :
  nth_error original i = Some r ->
  map_dict internet_map (Internet r) = None ->
  exists row,
    nth_error (transform (fit (features original)) (features original)) i
      = Some row /\
    nth_error row 4 = Some None.
Proof.
  intros Hi Hnone.
  assert (Hne : original <> []) by (intros ->; destruct i; discriminate).
  destruct (transform_features_shape Hne) as [Hw [_ Hrows]].
  set (X := features original) in *.
  assert (H4 : (4 < n_features X)%nat).
  { rewrite Hw, columns_as_keys. simpl. lia. }
  assert (Hrow : exists x, nth_error X i = Some x /\ nth 4 x None = None).
  { unfold X, features. rewrite values_as_keys, map_map, nth_error_map, Hi.
    simpl. eexists. split; [reflexivity|]. simpl. rewrite Hnone. reflexivity. }
  destruct Hrow as [x [Hx Hx4]].
  exists (transform_row (mean_ (fit X)) (scale_ (fit X)) x).
  split; [unfold transform; rewrite nth_error_map, Hx; reflexivity|].
  assert (Hin : In (transform_row (mean_ (fit X)) (scale_ (fit X)) x)
                   (transform (fit X) X)).
  { unfold transform. apply in_map. eapply nth_error_In, Hx. }
  rewrite Forall_forall in Hrows. specialize (Hrows _ Hin).
  rewrite (nth_error_nth' _ None) by (rewrite Hrows, <- Hw; exact H4).
  rewrite nth_transform_row
    by (unfold fit; simpl; rewrite length_map, length_seq; exact H4).
  rewrite Hx4. reflexivity.
Qed.

Lemma scaled_row_missing (original : DataFrame Z (option string))
  (r : row Z (option string)) :
  In r original ->
  map_dict internet_map (Internet r) = None ->
  exists row,
    In row (transform (fit (features original)) (features original)) /\
    In None row.
Proof.
  intros Hin Hnone. destruct (In_nth_error _ _ Hin) as [i Hi].
  destruct (scaled_cell_missing original i Hi Hnone) as [row [Hrow Hcell]].
  exists row. split; eapply nth_error_In; eassumption.
Qed.

Section WithLibraries.
Variable str_to_float : string -> option number.
Variable rng : Type.
Variable RandomState : Z -> rng.
Variable seeding_draw : rng -> list (list R) -> list (list R) -> nat * rng.
Variable relocated_center :
  list (list R) -> list nat -> list (list R) -> nat -> list R.

(** A matrix that the validation refuses is refused by the fit. *)
Lemma run_kmeans_missing (global : rng) (scaled_data : list (list (option R)))
  (k : Z) (e : error) :
  check_array scaled_data = Error e ->
  (1 <= k)%Z ->
  run_kmeans RandomState seeding_draw relocated_center global scaled_data k
  = Error ValueError.
Proof.
  intros Ec Hk. unfold run_kmeans, KMeans_fit.
  cbn [n_clusters n_init Nat.eqb].
  destruct (Z.ltb_spec k 1); [lia|].
  rewrite Ec. cbn [bind]. rewrite (check_array_Error _ Ec). reflexivity.
Qed.

(** When loading raises, the pipeline raises. *)
Lemma main_load_error (global : rng) (df : DataFrame cell (option string)) :
  load_and_prepare_data str_to_float (Some df) = Error ValueError ->
  main str_to_float RandomState seeding_draw relocated_center global (Some df)
  = Error ValueError.
Proof. intros E. unfold main. rewrite E. reflexivity. Qed.

(** C8, as amended.  When a row of the coerced table holds an ordinal
    value other than "Slow", "Average" and "Fast", the encoder puts the
    missing value in its place.  If a kept measurement is infinite the
    scaler refuses the table.  Otherwise the function returns as for any
    table, its result carrying no mark of the defect: the scaled matrix
    has a row for every kept row and a cell for every feature column, and
    the cell of that row in the "Internet" column is the missing value.
    The defect is fatal afterwards: the elbow sweep and the fit of
    [run_kmeans], for every cluster count from 1 on, refuse this matrix
    with a value error. *)
Theorem unmapped_ordinal_reaches_the_scaler_as_missing
  (global : rng) (df : DataFrame cell (option string))
  (original : DataFrame Z (option string))
  (i : nat) (r : row Z (option string)) :
  clean_data str_to_float df = Ok original ->
  nth_error original i = Some r ->
  Internet r <> Some "Slow"%string ->
  Internet r <> Some "Average"%string ->
  Internet r <> Some "Fast"%string ->
  (exists col, get_column "Internet" (encode original) = Ok col /\
               nth_error col i = Some NaN) /\
  ((exists r0, In r0 original /\ holds_infinity r0) ->
   load_and_prepare_data str_to_float (Some df) = Error ValueError) /\
  (Forall typed original ->
   exists scaled feature_columns,
     load_and_prepare_data str_to_float (Some df) =
       Ok (Some (scaled, original, feature_columns)) /\
     length scaled = length original /\
     Forall (fun row => length row = length feature_columns) scaled /\
     nth_error feature_columns 4 = Some "Internet"%string /\
     (exists row, nth_error scaled i = Some row /\
                  nth_error row 4 = Some None) /\
     find_optimal_k RandomState seeding_draw relocated_center global scaled
       = Error ValueError /\
     (forall k, (1 <= k)%Z ->
        run_kmeans RandomState seeding_draw relocated_center global scaled k
        = Error ValueError)).
Proof.
  intros Hclean Hi H1 H2 H3.
  assert (Hne : original <> []) by (intros ->; destruct i; discriminate).
  assert (Hnone : map_dict internet_map (Internet r) = None).
  { destruct (ordinal_lookup_closed (Internet r)) as [_ H]. apply H; assumption. }
  split; [|split].
  { eexists. split; [apply ordinal_column|].
    rewrite nth_error_map, Hi. simpl. rewrite Hnone. reflexivity. }
  { intros [r0 [Hr0 Hinf]].
    apply (@load_and_prepare_data_infinite str_to_float df original r0
             Hclean Hr0 Hinf). }
  intros Ht.
  destruct (transform_features_shape Hne) as [_ [Hlen Hrows]].
  destruct (scaled_cell_missing original i Hi Hnone) as [row [Hrow Hcell]].
  assert (Hrefused : check_array
                       (transform (fit (features original)) (features original))
                     = Error ValueError).
  { apply check_array_missing with (row := row);
      eapply nth_error_In; eassumption. }
  exists (transform (fit (features original)) (features original)),
         (tl (columns (encode original))).
  split; [apply (@load_and_prepare_data_ok str_to_float df original
                   Hclean Hne Ht)|].
  split; [exact Hlen|]. split; [exact Hrows|].
  split; [rewrite columns_as_keys; reflexivity|].
  split; [exists row; split; assumption|].
  split.
  - apply (@find_optimal_k_missing rng RandomState seeding_draw
             relocated_center global _ _ Hrefused).
  - intros k Hk. apply (@run_kmeans_missing global _ k _ Hrefused Hk).
Qed.

(** One unmapped ordinal value stops the whole pipeline: the value passes
    coercion and scaling as a missing cell, and the first fit of the sweep
    refuses the matrix, so [main] raises a value error and prints no
    profile. *)
Theorem unmapped_ordinal_halts_main
  (global : rng) (df : DataFrame cell (option string))
  (original : DataFrame Z (option string)) (r : row Z (option string)) :
  clean_data str_to_float df = Ok original ->
  In r original ->
  Internet r <> Some "Slow"%string ->
  Internet r <> Some "Average"%string ->
  Internet r <> Some "Fast"%string ->
  main str_to_float RandomState seeding_draw relocated_center global (Some df)
  = Error ValueError.
Proof.
  intros Hclean Hin H1 H2 H3.
  assert (Hnone : map_dict internet_map (Internet r) = None).
  { destruct (ordinal_lookup_closed (Internet r)) as [_ H]. apply H; assumption. }
  destruct (load_and_prepare_data_cases str_to_float df)
    as [E|[original' [Hclean' [_ [_ Hok]]]]];
    [apply main_load_error, E|].
  assert (original' = original) by congruence. subst original'.
  unfold main. rewrite Hok. cbn [bind].
  destruct (scaled_row_missing original r Hin Hnone) as [row [Hrow Hmiss]].
  rewrite (@find_optimal_k_missing rng RandomState seeding_draw
             relocated_center global _ _
             (check_array_missing _ _ Hrow Hmiss)).
  reflexivity.
Qed.

(** The pipeline ends early in two cases: without a file it returns
    nothing, and when fewer than ten rows survive coercion it raises a
    value error, in the scaler when no row is left and otherwise in the
    sweep, before the fit with four clusters is attempted. *)
Theorem main_needs_ten_clean_rows
  (global : rng) (df : DataFrame cell (option string)) :
  main str_to_float RandomState seeding_draw relocated_center global None
  = Ok None /\
  ((length (flat_map (kept str_to_float) df) < 10)%nat ->
   main str_to_float RandomState seeding_draw relocated_center global (Some df)
   = Error ValueError).
Proof.
  split; [reflexivity|]. intros Hn.
  destruct (load_and_prepare_data_cases str_to_float df)
    as [E|[original [Hclean [Hne [_ Hok]]]]];
    [apply main_load_error, E|].
  unfold main. rewrite Hok. cbn [bind].
  destruct (transform_features_shape Hne) as [_ [Hlen _]].
  rewrite find_optimal_k_short; [reflexivity|].
  cbv zeta in Hlen. rewrite Hlen.
  apply clean_data_Ok in Hclean. destruct Hclean as [-> _]. exact Hn.
Qed.

End WithLibraries.

(** No identifier of the survey with the value "Medium" reads as an
    infinity, and its rows are typed. *)
Lemma survey_unmapped_clean :
  clean_data Examples.parse_decimal Examples.survey_unmapped =
  Ok (flat_map (kept Examples.parse_decimal) Examples.survey_unmapped) /\
  Forall typed (flat_map (kept Examples.parse_decimal) Examples.survey_unmapped).
Proof.
  split.
  - apply clean_data_flat_map. intros r Hr [b Hb]. simpl in Hr.
    destruct Hr as [<-|[<-|[<-|[]]]]; vm_compute in Hb; discriminate.
  - repeat constructor; do 4 eexists; repeat split; reflexivity.
Qed.

(** In the second example survey the row with "Medium" is kept and its
    "Internet" cell is missing in the scaled matrix. *)
Lemma unmapped_ordinal_example :
  exists scaled original feature_columns row,
    load_and_prepare_data Examples.parse_decimal (Some Examples.survey_unmapped) =
      Ok (Some (scaled, original, feature_columns)) /\
    length scaled = 3%nat /\
    nth_error scaled 1 = Some row /\ nth_error row 4 = Some None /\
    find_optimal_k Examples.toy_RandomState Examples.toy_seeding_draw
      Examples.toy_relocated_center O scaled = Error ValueError.
Proof.
  destruct survey_unmapped_clean as [Hclean Ht].
  pose proof (fun r =>
    @unmapped_ordinal_reaches_the_scaler_as_missing
      Examples.parse_decimal Examples.toy_rng Examples.toy_RandomState
      Examples.toy_seeding_draw Examples.toy_relocated_center O
      Examples.survey_unmapped
      (flat_map (kept Examples.parse_decimal) Examples.survey_unmapped) 1%nat r
      Hclean) as H.
  specialize (H _ eq_refl).
  destruct H as [_ [_ H]].
  - discriminate.
  - discriminate.
  - discriminate.
  - destruct (H Ht) as [scaled [cols [H1 [H2 [_ [_ [[row [H3 H4]] [H5 _]]]]]]]].
    exists scaled. do 2 eexists. exists row.
    split; [exact H1|]. split; [exact H2|]. split; [exact H3|].
    split; [exact H4|exact H5].
Defined.

(** C8, counterexample.  A survey whose first row holds the value "Medium"
    and study hours that read as an infinity is kept whole by coercion, and
    the scaler refuses it: the function raises and returns no matrix.  The
    survey with the value "Medium" and finite measurements is loaded without
    any error, and then stops the pipeline: the elbow sweep and the fit
    with four clusters refuse the scaled matrix, and [main] raises. *)
Lemma unmapped_ordinal_is_fatal_to_clustering :
  (exists original,
     clean_data Examples.parse_decimal Samples.survey_unmapped_infinite
       = Ok original /\
     length original = 2%nat /\
     map (@Internet Z (option string)) original
       = [Some "Medium"%string; Some "Slow"%string] /\
     load_and_prepare_data Examples.parse_decimal
       (Some Samples.survey_unmapped_infinite) = Error ValueError) /\
  exists scaled original feature_columns,
    load_and_prepare_data Examples.parse_decimal (Some Examples.survey_unmapped)
      = Ok (Some (scaled, original, feature_columns)) /\
    find_optimal_k Examples.toy_RandomState Examples.toy_seeding_draw
      Examples.toy_relocated_center O scaled = Error ValueError /\
    run_kmeans Examples.toy_RandomState Examples.toy_seeding_draw
      Examples.toy_relocated_center O scaled 4 = Error ValueError /\
    main Examples.parse_decimal Examples.toy_RandomState
      Examples.toy_seeding_draw Examples.toy_relocated_center O
      (Some Examples.survey_unmapped) = Error ValueError.
Proof.
  split.
  { assert (Hclean : clean_data Examples.parse_decimal
                       Samples.survey_unmapped_infinite
                     = Ok (flat_map (kept Examples.parse_decimal)
                             Samples.survey_unmapped_infinite)).
    { apply clean_data_flat_map. intros r Hr [b Hb]. simpl in Hr.
      destruct Hr as [<-|[<-|[]]]; vm_compute in Hb; discriminate. }
    eexists. split; [exact Hclean|]. split; [reflexivity|].
    split; [reflexivity|].
    apply (@load_and_prepare_data_infinite Examples.parse_decimal
             Samples.survey_unmapped_infinite _
             (nth 0 (flat_map (kept Examples.parse_decimal)
                       Samples.survey_unmapped_infinite)
                  (Examples.student 0 0 "a" "b")) Hclean).
    - left. reflexivity.
    - exists cStudyHoursPerDay, false. reflexivity. }
  destruct survey_unmapped_clean as [Hclean Ht].
  set (original := flat_map (kept Examples.parse_decimal)
                            Examples.survey_unmapped) in *.
  assert (Hne : original <> []) by discriminate.
  pose proof (@load_and_prepare_data_ok Examples.parse_decimal
                Examples.survey_unmapped original Hclean Hne Ht) as Hok.
  assert (Hi : nth_error original 1 =
               Some (nth 1 original (Examples.student 0 0 "a" "b")))
    by reflexivity.
  destruct (scaled_cell_missing original 1 Hi eq_refl) as [row [Hrow Hcell]].
  assert (Hrefused : check_array
                       (transform (fit (features original)) (features original))
                     = Error ValueError).
  { apply check_array_missing with (row := row);
      eapply nth_error_In; eassumption. }
  pose proof (@find_optimal_k_missing Examples.toy_rng Examples.toy_RandomState
                Examples.toy_seeding_draw Examples.toy_relocated_center O
                _ _ Hrefused) as Hsweep.
  do 3 eexists. split; [exact Hok|]. split; [exact Hsweep|]. split.
  - apply (@run_kmeans_missing Examples.toy_rng Examples.toy_RandomState
             Examples.toy_seeding_draw Examples.toy_relocated_center O
             _ 4%Z _ Hrefused). lia.
  - unfold main. rewrite Hok. cbn [bind]. rewrite Hsweep. reflexivity.
Qed.

(** The survey with the unmapped value "Medium" stops the pipeline. *)
Lemma unmapped_main_example :
  main Examples.parse_decimal Examples.toy_RandomState
    Examples.toy_seeding_draw Examples.toy_relocated_center O
    (Some Examples.survey_unmapped) = Error ValueError.
Proof.
  apply (@unmapped_ordinal_halts_main Examples.parse_decimal Examples.toy_rng
           Examples.toy_RandomState Examples.toy_seeding_draw
           Examples.toy_relocated_center O Examples.survey_unmapped
           (flat_map (kept Examples.parse_decimal) Examples.survey_unmapped)
           (nth 1 (flat_map (kept Examples.parse_decimal)
                            Examples.survey_unmapped)
                (Examples.student 0 0 "a" "b"))).
  - apply survey_unmapped_clean.
  - simpl. auto.
  - discriminate.
  - discriminate.
  - discriminate.
Defined.

(** The example survey keeps two rows: too few for the pipeline. *)
Lemma short_main_example :
  main Examples.parse_decimal Examples.toy_RandomState
    Examples.toy_seeding_draw Examples.toy_relocated_center O
    (Some Examples.survey) = Error ValueError.
Proof.
  apply (proj2 (@main_needs_ten_clean_rows Examples.parse_decimal
                  Examples.toy_rng Examples.toy_RandomState
                  Examples.toy_seeding_draw Examples.toy_relocated_center
                  O Examples.survey)).
  simpl. lia.
Defined.

End Whole.

(** ** Failures and invariants of the profiler *)

Module Profiles.
Import Pandas ClusterAnalysis Reference Derived Results Categories Profiling.

Lemma numbers_error (col : list cell) (e : error) :
  numbers col = Error e -> e = TypeError.
Proof.
  induction col as [|c col IH]; cbn [numbers]; intros H; [discriminate|].
  destruct c as [q|b|s|].
  - destruct (numbers col) as [qs|e0]; cbn [bind] in H; [discriminate|].
    injection H as <-. apply IH. reflexivity.
  - destruct (numbers col) as [qs|e0]; cbn [bind] in H; [discriminate|].
    injection H as <-. apply IH. reflexivity.
  - injection H as <-. reflexivity.
  - apply IH, H.
Qed.

Lemma numbers_text (col : list cell) (s : string) :
  In (Str s) col -> numbers col = Error TypeError.
Proof.
  induction col as [|c col IH]; intros Hin; [contradiction|].
  cbn [numbers]. destruct c as [q|b|s'|].
  - destruct Hin as [Hc|Hin]; [discriminate|]. rewrite (IH Hin). reflexivity.
  - destruct Hin as [Hc|Hin]; [discriminate|]. rewrite (IH Hin). reflexivity.
  - reflexivity.
  - destruct Hin as [Hc|Hin]; [discriminate|]. apply IH, Hin.
Qed.

Lemma mean_error (col : list cell) (e : error) :
  Pandas.mean col = Error e -> e = TypeError.
Proof.
  unfold Pandas.mean. intros H.
  destruct (numbers col) as [qs|e0] eqn:En; cbn [bind] in H.
  - destruct qs; [discriminate|].
    destruct (has_infinity false _), (has_infinity true _); discriminate.
  - injection H as <-. apply (numbers_error _ En).
Qed.

Lemma mean_text (col : list cell) (s : string) :
  In (Str s) col -> Pandas.mean col = Error TypeError.
Proof.
  intros H. unfold Pandas.mean. rewrite (numbers_text _ _ H). reflexivity.
Qed.

Lemma label_of_row {A : Type} (df : list A) (labels : list nat) (r : A) :
  length labels = length df -> In r df ->
  exists k, In k labels /\ In r (group_rows (combine df labels) k).
Proof.
  intros Hlen Hin. destruct (In_nth_error _ _ Hin) as [i Hi].
  assert (Hi' : (i < length labels)%nat).
  { rewrite Hlen. apply nth_error_Some. congruence. }
  destruct (nth_error labels i) as [k|] eqn:Ek;
    [|apply nth_error_None in Ek; lia].
  exists k. split; [eapply nth_error_In, Ek|].
  apply group_rows_nth. exists i. split; assumption.
Qed.

(** The two errors that the profiler raises before it looks at any
    category: labels that are not one per row are a value error, and, for
    aligned labels, a text in a measurement column is a type error of the
    group means. *)
Theorem profiler_rejects_misaligned_labels_and_text
  (original_data : DataFrame Z (option string)) (labels : list nat) :
  (length labels <> length original_data ->
   analyze_clusters original_data labels = Error ValueError) /\
  (length labels = length original_data ->
   (exists r, In r original_data /\ holds_text r) ->
   analyze_clusters original_data labels = Error TypeError).
Proof.
  split.
  - intros Hlen. unfold analyze_clusters, assign_labels.
    destruct (Nat.eqb_spec (length labels) (length original_data));
      [contradiction|reflexivity].
  - intros Hlen [r [Hr [c [s Hs]]]].
    unfold analyze_clusters, assign_labels.
    rewrite Hlen, Nat.eqb_refl. cbn [bind].
    rewrite (map_snd_combine _ _ Hlen).
    destruct (@label_of_row _ _ _ _ Hlen Hr) as [k [Hk Hrk]].
    rewrite (@mapM_first_error _ _ _ _ TypeError); [reflexivity| |].
    + intros x e' _ Hx. apply mapM_error_In in Hx.
      destruct Hx as [c' [_ Hc']]. apply (mean_error _ Hc').
    + exists k, TypeError. split; [apply group_keys_In, Hk|].
      apply mapM_first_error.
      * intros c' e' _ Hc'. apply (mean_error _ Hc').
      * exists c, TypeError. split; [destruct c; simpl; auto|].
        apply mean_text with (s := s). rewrite <- Hs. apply in_map, Hrk.
Qed.

(** A frame with fewer labels than rows, and a frame with a text among
    its measurements. *)
Lemma misaligned_example :
  analyze_clusters Examples.students [0; 1]%nat = Error ValueError /\
  analyze_clusters [Samples.texted; Samples.texted] [0; 0]%nat
  = Error TypeError.
Proof.
  destruct (profiler_rejects_misaligned_labels_and_text
              Examples.students [0; 1]%nat) as [H _].
  destruct (profiler_rejects_misaligned_labels_and_text
              [Samples.texted; Samples.texted] [0; 0]%nat) as [_ H'].
  split; [apply H; simpl; lia|].
  apply H'; [reflexivity|].
  exists Samples.texted. split; [left; reflexivity|].
  exists cStudyHoursPerDay, "lots"%string. reflexivity.
Defined.

(** *** Typed rows *)

Section Typed.
Variable original_data : DataFrame Z (option string).
Variable labels : list nat.
Hypothesis aligned : length labels = length original_data.
Hypothesis all_typed : Forall typed original_data.

Local Abbreviation rows k := (group_rows (combine original_data labels) k).

Local Abbreviation numeric_line k :=
  (map (fun c => Some (Finite
                         (Qsum (map (fun r => cell_value (get c r)) (rows k))
                          / inject_Z (Z.of_nat (length (rows k))))%Q))
       numeric_cols).

Local Abbreviation categorical_line k :=
  (iloc0 (DataFrame_mode (map (fun c => map (get_cat c) (rows k))
                              categorical_cols))).

Lemma numeric_analysis_ok :
  mapM (fun k => mapM (fun c => Pandas.mean (map (get c) (rows k))) numeric_cols)
       (group_keys labels)
  = Ok (map (fun k => numeric_line k) (group_keys labels)).
Proof.
  apply mapM_map. intros k Hk. rewrite group_keys_In in Hk.
  apply mapM_map. intros c _. rewrite mean_typed.
  - rewrite map_map, length_map. reflexivity.
  - intros E. apply map_eq_nil in E.
    exact (@group_rows_nonempty _ original_data labels k aligned Hk E).
  - apply Forall_map, Forall_forall. intros r Hr. apply typed_get.
    rewrite Forall_forall in all_typed. apply all_typed.
    apply (@group_rows_In _ original_data labels k r Hr).
Qed.

Lemma analyze_clusters_typed :
  analyze_clusters original_data labels =
  (categorical_analysis <- mapM (fun k => categorical_line k)
                             (group_keys labels) ;;
   Ok (combine (group_keys labels)
               (combine (map (fun k => numeric_line k) (group_keys labels))
                        categorical_analysis))).
Proof.
  unfold analyze_clusters, assign_labels.
  rewrite aligned, Nat.eqb_refl. cbn [bind].
  rewrite (@map_snd_combine _ _ original_data labels aligned).
  rewrite numeric_analysis_ok. reflexivity.
Qed.

Lemma categorical_line_ok (k : nat) :
  (exists r, In r (rows k) /\ has_category r) ->
  categorical_line k =
  Ok (map (fun c => hd_error (Series_mode (map (get_cat c) (rows k))))
          categorical_cols).
Proof.
  intros [r [Hr [c [v Hv]]]].
  rewrite DataFrame_mode_first_row; [rewrite map_map; reflexivity|].
  exists (map (get_cat c) (rows k)). split.
  - apply in_map_iff. exists c. split; [reflexivity|].
    destruct c; simpl; auto 6.
  - intros E. assert (Hin : In v (present (map (get_cat c) (rows k)))).
    { apply present_Some, in_map_iff. exists r. split; assumption. }
    rewrite E in Hin. exact Hin.
Qed.

Lemma Series_mode_nil (col : list (option string)) :
  present col = [] -> Series_mode col = [].
Proof.
  intros E. destruct (first_mode_is_least col) as [_ H].
  apply H in E. destruct (Series_mode col); [reflexivity|discriminate].
Qed.

Lemma categorical_line_empty (k : nat) :
  (forall r, In r (rows k) -> no_category r) ->
  categorical_line k = Error IndexError.
Proof.
  intros Hall. unfold DataFrame_mode.
  assert (E : forall c, Series_mode (map (get_cat c) (rows k)) = []).
  { intros c. apply Series_mode_nil.
    destruct (present (map (get_cat c) (rows k))) as [|v l] eqn:Ep;
      [reflexivity|]. exfalso.
    assert (Hin : In v (present (map (get_cat c) (rows k))))
      by (rewrite Ep; left; reflexivity).
    apply present_Some, in_map_iff in Hin. destruct Hin as [r [Er Hr]].
    rewrite (Hall r Hr c) in Er. discriminate. }
  unfold categorical_cols. cbn [map]. rewrite !E. reflexivity.
Qed.

Lemma categorical_line_error (k : nat) (e : error) :
  categorical_line k = Error e -> e = IndexError.
Proof.
  unfold iloc0. destruct (DataFrame_mode _); [|discriminate].
  intros [= <-]. reflexivity.
Qed.

Lemma category_decision (l : list (row Z (option string))) :
  (exists r, In r l /\ has_category r) \/ (forall r, In r l -> no_category r).
Proof.
  induction l as [|r l IH]; [right; intros r []|].
  destruct IH as [[r' [Hr' Hc]]|Hall].
  - left. exists r'. split; [right; exact Hr'|exact Hc].
  - destruct (Device r) as [v|] eqn:E1;
      [left; exists r; split; [left; reflexivity|exists kDevice, v; exact E1]|].
    destruct (Internet r) as [v|] eqn:E2;
      [left; exists r; split; [left; reflexivity|exists kInternet, v; exact E2]|].
    destruct (Location r) as [v|] eqn:E3;
      [left; exists r; split; [left; reflexivity|exists kLocation, v; exact E3]|].
    destruct (OnlineClassPreference r) as [v|] eqn:E4;
      [left; exists r; split;
       [left; reflexivity|exists kOnlineClassPreference, v; exact E4]|].
    destruct (DataAccess r) as [v|] eqn:E5;
      [left; exists r; split; [left; reflexivity|exists kDataAccess, v; exact E5]|].
    right. intros r0 [<-|Hr0]; [|apply Hall, Hr0].
    intros c. destruct c; assumption.
Qed.

Lemma has_not_no_category (r : row Z (option string)) :
  has_category r -> no_category r -> False.
Proof. intros [c [v Hv]] Hn. rewrite (Hn c) in Hv. discriminate. Qed.

Lemma analyze_typed_error (e : error) :
  analyze_clusters original_data labels = Error e ->
  e = IndexError /\
  exists k, In k labels /\ forall r, In r (rows k) -> no_category r.
Proof.
  rewrite analyze_clusters_typed. intros H.
  destruct (mapM (fun k => categorical_line k) (group_keys labels)) as [cat|e0] eqn:Em;
    cbn [bind] in H; [discriminate|].
  injection H as <-. apply mapM_error_In in Em. destruct Em as [k [Hk Ek]].
  split; [apply (@categorical_line_error k _ Ek)|].
  exists k. split; [apply group_keys_In, Hk|].
  destruct (category_decision (rows k)) as [Hsome|Hall]; [|exact Hall].
  rewrite (@categorical_line_ok k Hsome) in Ek. discriminate.
Qed.

Lemma analyze_typed_ok (summary : list Summary) :
  analyze_clusters original_data labels = Ok summary ->
  map fst summary = group_keys labels /\
  summary = map (fun k =>
                   (k, (numeric_line k,
                        map (fun c => hd_error
                                        (Series_mode (map (get_cat c) (rows k))))
                            categorical_cols)))
                (group_keys labels) /\
  forall k, In k labels -> exists r, In r (rows k) /\ has_category r.
Proof.
  rewrite analyze_clusters_typed. intros H.
  destruct (mapM (fun k => categorical_line k) (group_keys labels)) as [cat|e0] eqn:Em;
    cbn [bind] in H; [|discriminate].
  injection H as <-.
  assert (Hgood : forall k, In k labels ->
                    exists r, In r (rows k) /\ has_category r).
  { intros k Hk. apply group_keys_In in Hk.
    destruct (@mapM_Ok_In _ _ _ _ _ _ Em Hk) as [y Ey].
    destruct (category_decision (rows k)) as [Hsome|Hall]; [exact Hsome|].
    rewrite (@categorical_line_empty k Hall) in Ey. discriminate. }
  assert (Ecat : cat = map (fun k => map (fun c => hd_error
                   (Series_mode (map (get_cat c) (rows k)))) categorical_cols)
                   (group_keys labels)).
  { assert (E : mapM (fun k => categorical_line k) (group_keys labels) =
                Ok (map (fun k => map (fun c => hd_error
                   (Series_mode (map (get_cat c) (rows k)))) categorical_cols)
                   (group_keys labels))).
    { apply mapM_map. intros k Hk. apply categorical_line_ok, Hgood.
      apply group_keys_In, Hk. }
    congruence. }
  subst cat. rewrite combine_map_key.
  split; [rewrite map_map; apply map_id|]. split; [reflexivity|exact Hgood].
Qed.

End Typed.

(** On rows whose measurements are all numbers, as coercion leaves them,
    and with one label per row, the profiler has one way to fail: an index
    error, raised exactly when some cluster has no categorical value in
    any of its rows (the table of modes of that group is empty and has no
    first row).  Otherwise it returns one line per distinct label, in
    increasing order of the labels. *)
Theorem typed_profile_fails_only_on_cluster_without_category
  (original_data : DataFrame Z (option string)) (labels : list nat) :
  length labels = length original_data ->
  Forall typed original_data ->
  (analyze_clusters original_data labels = Error IndexError <->
   exists k, In k labels /\
     forall r, In r (group_rows (combine original_data labels) k) ->
               no_category r) /\
  (forall e, analyze_clusters original_data labels = Error e ->
             e = IndexError) /\
  (forall summary, analyze_clusters original_data labels = Ok summary ->
                   map fst summary = group_keys labels).
Proof.
  intros Hlen Htyped. split; [split|split].
  - intros H. apply (@analyze_typed_error _ _ Hlen Htyped _ H).
  - intros [k [Hk Hall]].
    destruct (analyze_clusters original_data labels) as [summary|e] eqn:E.
    + exfalso. destruct (@analyze_typed_ok _ _ Hlen Htyped _ E) as [_ [_ Hgood]].
      destruct (Hgood k Hk) as [r [Hr Hc]].
      exact (@has_not_no_category r Hc (Hall r Hr)).
    + destruct (@analyze_typed_error _ _ Hlen Htyped _ E) as [-> _]. reflexivity.
  - intros e H. apply (@analyze_typed_error _ _ Hlen Htyped _ H).
  - intros summary H. apply (@analyze_typed_ok _ _ Hlen Htyped _ H).
Qed.

(** The second cluster of the example holds only rows without categorical
    values. *)
Lemma uncategorised_example :
  analyze_clusters Samples.mixed Samples.mixed_labels = Error IndexError.
Proof.
  destruct (@typed_profile_fails_only_on_cluster_without_category
              Samples.mixed Samples.mixed_labels) as [[_ H] _].
  - reflexivity.
  - repeat constructor; do 4 eexists; repeat split; reflexivity.
  - apply H. exists 1%nat. split; [simpl; auto|].
    intros r Hr c. simpl in Hr.
    destruct Hr as [<-|[<-|[]]]; destruct c; reflexivity.
Defined.

(** *** Means *)

Lemma Qsum_bounds (l : list Q) (lo hi : Q) :
  Forall (fun q => lo <= q <= hi)%Q l ->
  (inject_Z (Z.of_nat (length l)) * lo <= Qsum l <=
   inject_Z (Z.of_nat (length l)) * hi)%Q.
Proof.
  induction 1 as [|q l [Hlo Hhi] _ [IHlo IHhi]].
  - simpl. split; rewrite Qmult_0_l; apply Qle_refl.
  - assert (E : forall x, (inject_Z (Z.of_nat (length (q :: l))) * x ==
                           x + inject_Z (Z.of_nat (length l)) * x)%Q).
    { intros x. cbn [length]. rewrite Nat2Z.inj_succ. unfold Z.succ.
      rewrite inject_Z_plus. ring. }
    cbn [Qsum fold_right]. fold (Qsum l). rewrite !E.
    split; apply Qplus_le_compat; assumption.
Qed.

Lemma Qmean_bounds (l : list Q) (lo hi : Q) :
  l <> [] ->
  Forall (fun q => lo <= q <= hi)%Q l ->
  (lo <= Qsum l / inject_Z (Z.of_nat (length l)) <= hi)%Q.
Proof.
  intros Hne H. destruct (@Qsum_bounds l lo hi H) as [Hlo Hhi].
  assert (Hpos : (0 < inject_Z (Z.of_nat (length l)))%Q).
  { destruct l; [congruence|]. unfold Qlt. simpl. lia. }
  split.
  - apply Qle_shift_div_l; [exact Hpos|]. rewrite Qmult_comm. exact Hlo.
  - apply Qle_shift_div_r; [exact Hpos|]. rewrite Qmult_comm. exact Hhi.
Qed.

Lemma nth_numeric_line {A : Type} (f : numcol -> A) (c : numcol) (d : A) :
  nth (numcol_index c) (map f numeric_cols) d = f c.
Proof. destruct c; reflexivity. Qed.

(** A cluster mean lies between any two bounds that hold for the whole
    column: every line of the profile shows, for each measurement, a number
    within the range of that measurement over all rows. *)
Theorem cluster_means_stay_within_column_bounds
  (original_data : DataFrame Z (option string)) (labels : list nat)
  (summary : list Summary) (c : numcol) (lo hi : Q) :
  length labels = length original_data ->
  Forall typed original_data ->
  (forall r, In r original_data -> (lo <= cell_value (get c r) <= hi)%Q) ->
  analyze_clusters original_data labels = Ok summary ->
  forall line, In line summary ->
    exists q, nth (numcol_index c) (fst (snd line)) None = Some (Finite q) /\
              (lo <= q <= hi)%Q.
Proof.
  intros Hlen Htyped Hb H line Hline.
  destruct (@analyze_typed_ok _ _ Hlen Htyped _ H) as [_ [-> _]].
  apply in_map_iff in Hline. destruct Hline as [k [<- Hk]].
  cbn [fst snd]. rewrite nth_numeric_line.
  eexists. split; [reflexivity|].
  rewrite group_keys_In in Hk.
  rewrite <- (length_map (fun r => cell_value (get c r))).
  apply Qmean_bounds.
  - intros E. apply map_eq_nil in E.
    exact (@group_rows_nonempty _ original_data labels k Hlen Hk E).
  - apply Forall_map, Forall_forall. intros r Hr. apply Hb.
    apply (@group_rows_In _ original_data labels k r Hr).
Qed.

(** In the example profile the mean study hours of the first cluster lie
    between 1 and 4. *)
Lemma bounds_example :
  exists q,
    nth (numcol_index cStudyHoursPerDay)
        (fst (snd (0%nat,
                   ([Some (Finite (6 / 2)); Some (Finite (6 / 2));
                     Some (Finite (8 / 2)); Some (Finite (40 / 2))]%Q,
                    [Some "Laptop"; Some "Fast"; Some "Urban"; Some "Yes";
                     Some "WiFi"]%string))))
        None = Some (Finite q) /\
    (1 <= q <= 4)%Q.
Proof.
  apply (@cluster_means_stay_within_column_bounds
           Examples.students Examples.students_labels
           [(0%nat, ([Some (Finite (6 / 2)); Some (Finite (6 / 2));
                      Some (Finite (8 / 2)); Some (Finite (40 / 2))]%Q,
                     [Some "Laptop"; Some "Fast"; Some "Urban"; Some "Yes";
                      Some "WiFi"]%string));
            (1%nat, ([Some (Finite (2 / 2)); Some (Finite (6 / 2));
                      Some (Finite (8 / 2)); Some (Finite (40 / 2))]%Q,
                     [Some "Tablet"; Some "Slow"; Some "Urban"; Some "Yes";
                      Some "WiFi"]%string))]
           cStudyHoursPerDay 1%Q 4%Q).
  - reflexivity.
  - repeat constructor; do 4 eexists; repeat split; reflexivity.
  - intros r Hr. simpl in Hr.
    destruct Hr as [<-|[<-|[<-|[<-|[]]]]]; simpl; split; discriminate.
  - reflexivity.
  - left. reflexivity.
Defined.

(** *** Sizes *)

Lemma group_rows_cons {A : Type} (r : A) (a : nat) (df : list (A * nat))
  (k : nat) :
  group_rows ((r, a) :: df) k =
  if Nat.eqb a k then r :: group_rows df k else group_rows df k.
Proof.
  unfold group_rows. cbn [filter snd]. destruct (Nat.eqb a k); reflexivity.
Qed.

Lemma group_rows_size {A : Type} (df : list A) (labels : list nat) (k : nat) :
  length labels = length df ->
  length (group_rows (combine df labels) k) = count_occ Nat.eq_dec labels k.
Proof.
  revert labels. induction df as [|r df IH]; intros [|a labels] Hlen;
    try discriminate; [reflexivity|].
  cbn [combine]. rewrite group_rows_cons. cbn [count_occ].
  injection Hlen as Hlen.
  destruct (Nat.eqb_spec a k) as [->|Hne].
  - destruct (Nat.eq_dec k k) as [_|Hn]; [|congruence].
    cbn [length]. rewrite (IH labels Hlen). reflexivity.
  - destruct (Nat.eq_dec a k) as [E|_]; [congruence|]. apply (IH labels Hlen).
Qed.

Lemma Qsum_map_plus {A : Type} (f g : A -> Q) (l : list A) :
  (Qsum (map (fun x => f x + g x) l) == Qsum (map f l) + Qsum (map g l))%Q.
Proof.
  induction l as [|a l IH]; cbn [map Qsum fold_right]; [reflexivity|].
  fold (Qsum (map (fun x => f x + g x) l)) (Qsum (map f l)) (Qsum (map g l)).
  rewrite IH. ring.
Qed.

Lemma Qsum_map_ext {A : Type} (f g : A -> Q) (l : list A) :
  (forall x, In x l -> (f x == g x)%Q) ->
  (Qsum (map f l) == Qsum (map g l))%Q.
Proof.
  induction l as [|a l IH]; intros H; cbn [map Qsum fold_right];
    [reflexivity|].
  fold (Qsum (map f l)) (Qsum (map g l)).
  rewrite (H a (or_introl eq_refl)), IH; [reflexivity|].
  intros x Hx. apply H. right. exact Hx.
Qed.

Lemma Qsum_map_zero {A : Type} (f : A -> Q) (l : list A) :
  (forall x, In x l -> (f x == 0)%Q) -> (Qsum (map f l) == 0)%Q.
Proof.
  induction l as [|a l IH]; intros H; cbn [map Qsum fold_right];
    [reflexivity|].
  fold (Qsum (map f l)).
  rewrite (H a (or_introl eq_refl)), IH; [ring|].
  intros x Hx. apply H. right. exact Hx.
Qed.

(** A key that occurs once in a list of keys selects its term once. *)
Lemma Qsum_select (a : nat) (x : Q) (keys : list nat) :
  NoDup keys -> In a keys ->
  (Qsum (map (fun k => if Nat.eqb a k then x else 0) keys) == x)%Q.
Proof.
  induction 1 as [|k keys Hnot Hnd IH]; intros Hin; [contradiction|].
  cbn [map Qsum fold_right].
  fold (Qsum (map (fun k => if Nat.eqb a k then x else 0%Q) keys)).
  destruct (Nat.eqb_spec a k) as [->|Hne].
  - rewrite Qsum_map_zero; [ring|].
    intros y Hy. destruct (Nat.eqb_spec k y) as [->|_];
      [contradiction|reflexivity].
  - destruct Hin as [->|Hin]; [congruence|]. rewrite (IH Hin). ring.
Qed.

(** The groups split the frame: the sums of a column over the groups add
    up to its sum over the frame. *)
Lemma group_sums {A : Type} (f : A -> Q) (keys : list nat) :
  NoDup keys ->
  forall (df : list A) (labels : list nat),
    length labels = length df ->
    (forall l, In l labels -> In l keys) ->
    (Qsum (map (fun k => Qsum (map f (group_rows (combine df labels) k))) keys)
     == Qsum (map f df))%Q.
Proof.
  intros Hnd. induction df as [|r df IH]; intros [|a labels] Hlen Hin;
    try discriminate.
  - cbn [combine]. apply Qsum_map_zero. intros; reflexivity.
  - injection Hlen as Hlen. cbn [combine].
    rewrite (@Qsum_map_ext _ _
               (fun k => (if Nat.eqb a k then f r else 0)
                         + Qsum (map f (group_rows (combine df labels) k)))%Q).
    + rewrite Qsum_map_plus, (@Qsum_select a (f r) keys Hnd (Hin a (or_introl eq_refl))).
      rewrite (IH labels Hlen) by (intros l Hl; apply Hin; right; exact Hl).
      reflexivity.
    + intros k _. rewrite group_rows_cons.
      destruct (Nat.eqb a k); cbn [map Qsum fold_right]; [reflexivity|ring].
Qed.

(** The cluster means, each weighted by the number of rows of its
    cluster, add up to the sum of the column over all rows: every row
    counts in exactly one line of the profile. *)
Theorem weighted_cluster_means_add_up_to_column_total
  (original_data : DataFrame Z (option string)) (labels : list nat)
  (summary : list Summary) (c : numcol) :
  length labels = length original_data ->
  Forall typed original_data ->
  analyze_clusters original_data labels = Ok summary ->
  (Qsum (map (fun line =>
                inject_Z (Z.of_nat (count_occ Nat.eq_dec labels (fst line)))
                * line_mean c line) summary)
   == Qsum (map (fun r => cell_value (get c r)) original_data))%Q.
Proof.
  intros Hlen Htyped H.
  destruct (@analyze_typed_ok _ _ Hlen Htyped _ H) as [_ [-> _]].
  rewrite map_map.
  rewrite <- (@group_sums _ (fun r => cell_value (get c r))
                (group_keys labels) (group_keys_NoDup labels)
                original_data labels Hlen)
    by (intros l Hl; apply group_keys_In, Hl).
  apply Qsum_map_ext. intros k Hk. rewrite group_keys_In in Hk.
  unfold line_mean. cbn [fst snd]. rewrite nth_numeric_line.
  rewrite <- (@group_rows_size _ original_data labels k Hlen).
  apply Qmult_div_r.
  assert (Hne : group_rows (combine original_data labels) k <> [])
    by exact (@group_rows_nonempty _ original_data labels k Hlen Hk).
  destruct (group_rows (combine original_data labels) k); [congruence|].
  unfold Qeq. simpl. lia.
Qed.

(** In the example the study hours sum to 8: two rows with mean 3 and two
    rows with mean 1. *)
Lemma weighted_means_example :
  (Qsum (map (fun line =>
                inject_Z (Z.of_nat (count_occ Nat.eq_dec
                                      Examples.students_labels (fst line)))
                * line_mean cStudyHoursPerDay line)
             [(0%nat, ([Some (Finite (6 / 2)); Some (Finite (6 / 2));
                        Some (Finite (8 / 2)); Some (Finite (40 / 2))]%Q,
                       [Some "Laptop"; Some "Fast"; Some "Urban"; Some "Yes";
                        Some "WiFi"]%string));
              (1%nat, ([Some (Finite (2 / 2)); Some (Finite (6 / 2));
                        Some (Finite (8 / 2)); Some (Finite (40 / 2))]%Q,
                       [Some "Tablet"; Some "Slow"; Some "Urban"; Some "Yes";
                        Some "WiFi"]%string))])
   == 8)%Q.
Proof.
  rewrite (@weighted_cluster_means_add_up_to_column_total
             Examples.students Examples.students_labels _ cStudyHoursPerDay).
  - reflexivity.
  - reflexivity.
  - repeat constructor; do 4 eexists; repeat split; reflexivity.
  - reflexivity.
Defined.

End Profiles.

(** ** The outcomes of the whole pipeline *)

Module Outcomes.
Import Pandas Sklearn ClusterAnalysis Reference Derived Results Coercion
       Encoding Scaling Fitting Scoring Profiling Sweep Whole Profiles.

Section WithLibraries.
Variable str_to_float : string -> option number.
Variable rng : Type.
Variable RandomState : Z -> rng.
Variable seeding_draw : rng -> list (list R) -> list (list R) -> nat * rng.
Variable relocated_center :
  list (list R) -> list nat -> list (list R) -> nat -> list R.

Lemma find_optimal_k_error_kind (global : rng)
  (scaled_data : list (list (option R))) (e : error) :
  find_optimal_k RandomState seeding_draw relocated_center global scaled_data
  = Error e -> e = ValueError.
Proof.
  unfold find_optimal_k. intros H. apply mapM_error_In in H.
  destruct H as [x [Hx Ex]].
  exact (@sweep_error_kind _ RandomState seeding_draw relocated_center
           global scaled_data x e Hx Ex).
Qed.

Lemma silhouette_score_error_kind (X : list (list (option R)))
  (labels : list nat) (e : error) :
  silhouette_score X labels = Error e -> e = ValueError.
Proof.
  intros H.
  assert (E : silhouette_score X labels = Error ValueError).
  { apply silhouette_score_Error. intros s Hs. congruence. }
  congruence.
Qed.

Lemma run_kmeans_error_kind (global : rng)
  (scaled_data : list (list (option R))) (k : Z) (e : error) :
  (1 <= k)%Z ->
  run_kmeans RandomState seeding_draw relocated_center global scaled_data k
  = Error e -> e = ValueError.
Proof.
  intros Hk. unfold run_kmeans.
  destruct (KMeans_fit RandomState seeding_draw relocated_center
              (mkKMeans k (Some 42%Z) 10) global scaled_data)
    as [fitted|e0] eqn:Hf; cbn [bind].
  - destruct (silhouette_score scaled_data (labels_ fitted)) as [s|e1] eqn:Hs;
      cbn [bind]; [discriminate|].
    intros [= <-]. apply (@silhouette_score_error_kind _ _ _ Hs).
  - intros [= <-].
    apply (@KMeans_fit_error_kind _ RandomState seeding_draw relocated_center
             (mkKMeans k (Some 42%Z) 10) global scaled_data e0);
      [exact Hk|discriminate|exact Hf].
Qed.

Lemma run_kmeans_length (global : rng)
  (scaled_data : list (list (option R))) (k : Z) (labels : list nat) :
  run_kmeans RandomState seeding_draw relocated_center global scaled_data k
  = Ok labels -> length labels = length scaled_data.
Proof.
  unfold run_kmeans.
  destruct (KMeans_fit RandomState seeding_draw relocated_center
              (mkKMeans k (Some 42%Z) 10) global scaled_data)
    as [fitted|e0]; cbn [bind]; [|discriminate].
  destruct (silhouette_score scaled_data (labels_ fitted)) as [s|e1] eqn:Hs;
    cbn [bind]; [|discriminate].
  intros [= <-]. apply silhouette_score_Ok in Hs.
  destruct Hs as [Xc [_ [Hlen _]]]. exact Hlen.
Qed.

Lemma main_short (global : rng) (df : DataFrame cell (option string)) :
  (length (flat_map (kept str_to_float) df) < 10)%nat ->
  main str_to_float RandomState seeding_draw relocated_center global (Some df)
  = Error ValueError.
Proof.
  intros Hn.
  destruct (load_and_prepare_data_cases str_to_float df)
    as [E|[original [Hclean [Hne [_ Hok]]]]].
  - unfold main. rewrite E. reflexivity.
  - unfold main. rewrite Hok. cbn [bind].
    destruct (transform_features_shape Hne) as [_ [Hlen _]].
    rewrite find_optimal_k_short; [reflexivity|].
    cbv zeta in Hlen. rewrite Hlen.
    apply clean_data_Ok in Hclean. destruct Hclean as [-> _]. exact Hn.
Qed.

(** Whatever the file holds, the pipeline raises nothing but value
    errors.  Loading, the sweep and the fit with four clusters raise value
    errors only.  The profiler is reached with rows whose measurements are
    numbers and with one label per row, so it raises neither a type error
    nor a value error; and a cluster without any categorical value, on
    which it would raise an index error, would hold a row without an
    ordinal value, whose missing cell stops the sweep before.  So once
    the fit with four clusters has returned, the profile is printed. *)
Theorem main_raises_only_value_errors
  (global : rng) (csv : option (DataFrame cell (option string))) (e : error) :
  main str_to_float RandomState seeding_draw relocated_center global csv
  = Error e ->
  e = ValueError.
Proof.
  intros H. destruct csv as [df|]; [|discriminate].
  unfold main in H.
  destruct (load_and_prepare_data_cases str_to_float df)
    as [E|[original [Hclean [Hne [Htyped Hok]]]]].
  { rewrite E in H. cbn [bind] in H. congruence. }
  rewrite Hok in H. cbn [bind] in H.
  destruct (transform_features_shape Hne) as [_ [Hlen _]].
  cbv zeta in Hlen. clear Hok.
  destruct (find_optimal_k RandomState seeding_draw relocated_center global
              (transform (fit (features original)) (features original)))
    as [inertias|e0] eqn:Hs; cbn [bind] in H.
  2:{ injection H as <-. apply (@find_optimal_k_error_kind _ _ _ Hs). }
  destruct (run_kmeans RandomState seeding_draw relocated_center global
              (transform (fit (features original)) (features original)) 4)
    as [labels|e1] eqn:Hr; cbn [bind] in H.
  2:{ injection H as <-.
      eapply run_kmeans_error_kind; [|exact Hr]. lia. }
  destruct (analyze_clusters original labels) as [profile|e2] eqn:Ha;
    cbn [bind] in H; [discriminate|].
  injection H as <-. exfalso.
  assert (Haligned : length labels = length original).
  { rewrite (@run_kmeans_length _ _ _ _ Hr). exact Hlen. }
  destruct (@analyze_typed_error original labels Haligned Htyped e2 Ha)
    as [_ [k [Hk Hall]]].
  pose proof (@group_rows_nonempty _ original labels k Haligned Hk) as Hgroup.
  destruct (group_rows (combine original labels) k) as [|r g] eqn:Eg;
    [congruence|].
  assert (Hin : In r original).
  { apply (@group_rows_In _ original labels k r). rewrite Eg. left. reflexivity. }
  assert (Hnone : map_dict internet_map (Internet r) = None).
  { pose proof (Hall r (or_introl eq_refl) kInternet) as E. cbn [get_cat] in E.
    rewrite E. reflexivity. }
  destruct (scaled_row_missing original r Hin Hnone) as [row [Hrow Hmiss]].
  rewrite (@find_optimal_k_missing rng RandomState seeding_draw
             relocated_center global _ _
             (check_array_missing _ _ Hrow Hmiss)) in Hs.
  discriminate.
Qed.

End WithLibraries.

(** The example survey keeps two rows; the pipeline stops with a value
    error. *)
Lemma main_errors_example :
  main Examples.parse_decimal Examples.toy_RandomState
    Examples.toy_seeding_draw Examples.toy_relocated_center O
    (Some Examples.survey) = Error ValueError /\
  ValueError = ValueError.
Proof.
  assert (H : main Examples.parse_decimal Examples.toy_RandomState
                Examples.toy_seeding_draw Examples.toy_relocated_center O
                (Some Examples.survey) = Error ValueError)
    by (apply main_short; simpl; lia).
  split; [exact H|].
  exact (@main_raises_only_value_errors Examples.parse_decimal
           Examples.toy_rng Examples.toy_RandomState Examples.toy_seeding_draw
           Examples.toy_relocated_center O (Some Examples.survey) ValueError H).
Defined.

(** *** Complete data *)

Lemma features_complete (original : DataFrame Z (option string)) :
  Forall typed original ->
  (forall r, In r original ->
     exists rank, map_dict internet_map (Internet r) = Some rank) ->
  Forall (Forall (fun x : option R => x <> None)) (features original).
Proof.
  intros Ht Hm. unfold features. rewrite values_as_keys, map_map.
  apply Forall_map, Forall_forall. intros r Hr.
  rewrite Forall_forall in Ht.
  destruct (Ht r Hr) as [h [t [m [a [Eh [Et [Em Ea]]]]]]].
  destruct (Hm r Hr) as [rank Er].
  cbn [tl app map]. rewrite Eh, Et, Em, Ea, Er. cbn [rank_cell float_of].
  repeat (constructor; [discriminate|]).
  rewrite map_map. apply Forall_map, Forall_forall. intros k _.
  unfold indicator. destruct (get_nom (fst k) r) as [v|]; [|discriminate].
  destruct (String.eqb v (snd k)); discriminate.
Qed.

Lemma transform_row_complete (ms ss : list R) (r : list (option R)) :
  Forall (fun x : option R => x <> None) r ->
  Forall (fun x : option R => x <> None) (transform_row ms ss r).
Proof.
  revert ss r. induction ms as [|m ms IH]; intros ss r Hr; [constructor|].
  destruct ss as [|s0 ss]; [constructor|].
  destruct r as [|x r]; [constructor|]. cbn [transform_row].
  inversion Hr as [|? ? Hx Hrest]; subst.
  constructor; [|apply IH, Hrest].
  destruct x; [discriminate|congruence].
Qed.

Lemma mapM_finite_complete (r : list (option R)) :
  Forall (fun x : option R => x <> None) r ->
  exists v, mapM finite r = Ok v /\ length v = length r.
Proof.
  induction 1 as [|x r Hx _ [v [Ev Hv]]]; [exists []; split; reflexivity|].
  destruct x as [x|]; [|congruence].
  exists (x :: v). cbn [mapM finite bind]. rewrite Ev. cbn [bind].
  split; [reflexivity|simpl; lia].
Qed.

Lemma check_array_complete (X : list (list (option R))) :
  (0 < n_features X)%nat ->
  Forall (Forall (fun x : option R => x <> None)) X ->
  exists Xc, check_array X = Ok Xc.
Proof.
  intros Hw HX. unfold check_array.
  assert (E : exists M, mapM (mapM finite) X = Ok M /\
                        map (@length R) M = map (@length (option R)) X).
  { clear Hw. induction HX as [|r X Hr _ [M [EM HM]]];
      [exists []; split; reflexivity|].
    destruct (mapM_finite_complete Hr) as [v [Ev Hv]].
    exists (v :: M). cbn [mapM]. rewrite Ev. cbn [bind]. rewrite EM.
    cbn [bind]. split; [reflexivity|]. cbn [map]. rewrite Hv, HM. reflexivity. }
  destruct E as [M [EM HM]]. rewrite EM. cbn [bind].
  destruct X as [|r X]; [simpl in Hw; lia|].
  destruct M as [|v M]; [discriminate|].
  cbn [map] in HM. injection HM as Hv _. cbn [n_features] in Hw.
  destruct v as [|x v]; [simpl in Hv; lia|].
  eexists. reflexivity.
Qed.

Lemma keys_bound (labels : list nat) (k : nat) :
  Forall (fun l => (l < k)%nat) labels ->
  (length (group_keys labels) <= k)%nat.
Proof.
  intros H. apply Nat.le_trans with (length (seq 0 k));
    [|rewrite length_seq; apply Nat.le_refl].
  apply NoDup_incl_length; [apply group_keys_NoDup|].
  intros x Hx. rewrite group_keys_In in Hx. rewrite Forall_forall in H.
  apply in_seq. specialize (H x Hx). lia.
Qed.

Section WithLibraries.
Variable str_to_float : string -> option number.
Variable rng : Type.
Variable RandomState : Z -> rng.
Variable seeding_draw : rng -> list (list R) -> list (list R) -> nat * rng.
Variable relocated_center :
  list (list R) -> list nat -> list (list R) -> nat -> list R.

Lemma find_optimal_k_returns (global : rng)
  (scaled_data : list (list (option R))) (Xc : list (list R)) :
  check_array scaled_data = Ok Xc ->
  (10 <= length scaled_data)%nat ->
  exists inertias,
    find_optimal_k RandomState seeding_draw relocated_center global scaled_data
    = Ok inertias.
Proof.
  intros Ec Hn. unfold find_optimal_k.
  destruct (@mapM_all_ok _ _
              (fun k => kmeans <- KMeans_fit RandomState seeding_draw
                                    relocated_center
                                    (mkKMeans (Z.of_nat k) (Some 42%Z) 10)
                                    global scaled_data ;;
                        Ok (inertia_ kmeans))
              (fun _ => True) (seq 1 10)) as [ys [E _]].
  - intros x Hx. apply in_seq in Hx.
    destruct (@KMeans_fit_total _ RandomState seeding_draw relocated_center
                (mkKMeans (Z.of_nat x) (Some 42%Z) 10) global scaled_data Xc Ec)
      as [fitted Hf]; [cbn; lia|discriminate|].
    exists (inertia_ fitted). rewrite Hf. split; [reflexivity|exact I].
  - exists ys. exact E.
Qed.

(** On a file of which coercion keeps at least ten rows, each with finite
    measurements and an ordinal value of the table of ranks, loading, the
    sweep and the fit with four clusters all return, and the fit uses
    between one and four of its labels.  What happens next is decided by
    the fit alone: when it puts all rows into one cluster the silhouette
    score is undefined and the pipeline stops with a value error;
    otherwise the pipeline ends with a profile of one line per label in
    use. *)
Theorem main_prints_a_profile_unless_the_fit_is_one_cluster
  (global : rng) (df : DataFrame cell (option string))
  (original : DataFrame Z (option string)) :
  clean_data str_to_float df = Ok original ->
  (10 <= length original)%nat ->
  Forall typed original ->
  (forall r, In r original ->
     exists rank, map_dict internet_map (Internet r) = Some rank) ->
  exists scaled_data feature_columns fitted,
    load_and_prepare_data str_to_float (Some df) =
      Ok (Some (scaled_data, original, feature_columns)) /\
    KMeans_fit RandomState seeding_draw relocated_center
      (mkKMeans 4 (Some 42%Z) 10) global scaled_data = Ok fitted /\
    (1 <= length (group_keys (labels_ fitted)) <= 4)%nat /\
    (length (group_keys (labels_ fitted)) = 1%nat ->
       main str_to_float RandomState seeding_draw relocated_center global
         (Some df) = Error ValueError) /\
    (length (group_keys (labels_ fitted)) <> 1%nat ->
       exists profile,
         main str_to_float RandomState seeding_draw relocated_center global
           (Some df) = Ok (Some profile) /\
         map fst profile = group_keys (labels_ fitted)).
Proof.
  intros Hclean Hn Htyped Hmapped.
  assert (Hne : original <> []) by (intros E; rewrite E in Hn; simpl in Hn; lia).
  pose proof (@load_and_prepare_data_ok str_to_float df original
                Hclean Hne Htyped) as Hok.
  destruct (transform_features_shape Hne) as [Hw [Hlen Hrows]].
  cbv zeta in Hw, Hlen, Hrows.
  set (scaled_data := transform (fit (features original)) (features original))
    in *.
  assert (Hc : exists Xc, check_array scaled_data = Ok Xc).
  { apply check_array_complete.
    - destruct scaled_data as [|row rest] eqn:Es; [simpl in Hlen; lia|].
      inversion Hrows as [|? ? Hrow _]; subst. cbn [n_features].
      rewrite Hrow, columns_as_keys. simpl. lia.
    - unfold scaled_data, transform. apply Forall_map.
      eapply Forall_impl; [|exact (features_complete Htyped Hmapped)].
      intros r Hr. apply transform_row_complete, Hr. }
  destruct Hc as [Xc Ec].
  assert (Hn' : (10 <= length scaled_data)%nat) by (rewrite Hlen; exact Hn).
  destruct (@find_optimal_k_returns global scaled_data Xc Ec Hn')
    as [inertias Hsweep].
  destruct (@KMeans_fit_total _ RandomState seeding_draw relocated_center
              (mkKMeans 4 (Some 42%Z) 10) global scaled_data Xc Ec)
    as [fitted Hf]; [cbn [n_clusters]; lia|discriminate|].
  destruct (@KMeans_fit_Ok _ _ _ _ _ _ _ _ Hf) as [_ [points [Hp Ha]]].
  cbn [n_clusters] in Ha. change (Z.to_nat 4) with 4%nat in Ha.
  assert (H4 : (0 < 4)%nat) by lia.
  destruct (assigned_shape H4 Ha) as [Hl Hlt].
  set (labels := labels_ fitted) in *.
  assert (Haligned : length labels = length original) by lia.
  assert (Hkeys : (1 <= length (group_keys labels) <= 4)%nat).
  { split; [|apply keys_bound, Hlt].
    destruct labels as [|a rest] eqn:El; [simpl in Haligned; lia|].
    assert (Hin : In a (group_keys (a :: rest)))
      by (apply group_keys_In; left; reflexivity).
    destruct (group_keys (a :: rest)); [contradiction|simpl; lia]. }
  exists scaled_data, (tl (columns (encode original))), fitted.
  split; [exact Hok|]. split; [exact Hf|]. split; [exact Hkeys|].
  split.
  - intros H1. fold labels in H1.
    unfold main. rewrite Hok. cbn [bind]. rewrite Hsweep.
    cbn [bind]. unfold run_kmeans. rewrite Hf. cbn [bind]. fold labels.
    rewrite (@silhouette_score_Error scaled_data labels); [reflexivity|].
    intros s Hs. apply silhouette_score_Ok in Hs.
    destruct Hs as [_ [_ [_ [Hb _]]]]. lia.
  - intros H1. fold labels in H1 |- *.
    assert (Hscore : exists s, silhouette_score scaled_data labels = Ok s).
    { eexists. apply silhouette_score_Ok. exists Xc.
      split; [exact Ec|]. split; [lia|]. split; [lia|reflexivity]. }
    destruct Hscore as [s Hscore].
    destruct (analyze_clusters original labels) as [profile|e] eqn:Hprofile.
    + exists profile. split.
      * unfold main. rewrite Hok. cbn [bind]. rewrite Hsweep. cbn [bind].
        unfold run_kmeans. rewrite Hf. cbn [bind]. fold labels.
        rewrite Hscore. cbn [bind]. rewrite Hprofile. reflexivity.
      * apply (@analyze_typed_ok _ _ Haligned Htyped _ Hprofile).
    + exfalso.
      destruct (@analyze_typed_error _ _ Haligned Htyped _ Hprofile)
        as [_ [k [Hk Hall]]].
      pose proof (@group_rows_nonempty _ original labels k Haligned Hk)
        as Hgroup.
      destruct (group_rows (combine original labels) k) as [|r g] eqn:Eg;
        [congruence|].
      assert (Hin : In r original).
      { apply (@group_rows_In _ original labels k r). rewrite Eg. left.
        reflexivity. }
      destruct (Hmapped r Hin) as [rank Hrank].
      pose proof (Hall r (or_introl eq_refl) kInternet) as E.
      cbn [get_cat] in E. rewrite E in Hrank. discriminate.
Qed.

End WithLibraries.

(** The survey of ten rows passes loading, the sweep and the fit. *)
Lemma ten_rows_example :
  exists scaled_data feature_columns fitted,
    load_and_prepare_data Examples.parse_decimal (Some Samples.class_of_ten) =
      Ok (Some (scaled_data,
                flat_map (kept Examples.parse_decimal) Samples.class_of_ten,
                feature_columns)) /\
    KMeans_fit Examples.toy_RandomState Examples.toy_seeding_draw
      Examples.toy_relocated_center (mkKMeans 4 (Some 42%Z) 10) O scaled_data
      = Ok fitted /\
    (1 <= length (group_keys (labels_ fitted)) <= 4)%nat /\
    (length (group_keys (labels_ fitted)) = 1%nat ->
       main Examples.parse_decimal Examples.toy_RandomState
         Examples.toy_seeding_draw Examples.toy_relocated_center O
         (Some Samples.class_of_ten) = Error ValueError) /\
    (length (group_keys (labels_ fitted)) <> 1%nat ->
       exists profile,
         main Examples.parse_decimal Examples.toy_RandomState
           Examples.toy_seeding_draw Examples.toy_relocated_center O
           (Some Samples.class_of_ten) = Ok (Some profile) /\
         map fst profile = group_keys (labels_ fitted)).
Proof.
  apply (@main_prints_a_profile_unless_the_fit_is_one_cluster
           Examples.parse_decimal Examples.toy_rng Examples.toy_RandomState
           Examples.toy_seeding_draw Examples.toy_relocated_center O
           Samples.class_of_ten).
  - reflexivity.
  - vm_compute. lia.
  - repeat constructor; do 4 eexists; repeat split; reflexivity.
  - intros r Hr. vm_compute in Hr.
    repeat (destruct Hr as [<-|Hr]; [eexists; reflexivity|]).
    contradiction.
Defined.

End Outcomes.
